(** * exceptionservice/server.py: the deduplication pipeline, verified

    A shallow embedding of [src/exceptionservice/server.py] and the
    properties its specification states about it.

    Conventions of the embedding.
    - A Python [str] is a [string]; a character is an [ascii], read as
      the code point of the same number (the Latin-1 range 0..255).
      The character classes below are Python's on that range.
    - A Python [int] is a [Z]; lengths are [nat] and are injected in [Z]
      where the source does arithmetic that can go negative.
    - A call that can raise returns a [result]; tracker traffic is
      recorded in a log of outbound calls.
    - [difflib.SequenceMatcher], [base64], the tracker and the wall
      clock are not code of this module: they are parameters.  The two
      ratios of [SequenceMatcher] are quotients of small integers,
      [2 * matches / (len(a) + len(b))], computed in floating point;
      they are taken as rationals and compared with 6/10 and 7/10,
      which gives the same answers as the comparison of the doubles
      with the literals [0.6] and [0.7] as long as the texts are
      shorter than 2^49 characters.
    - The interpreter bounds the depth of calls: the recursive search
      takes that bound as an argument and raises [RecursionError] when
      it is used up. *)

From Stdlib Require Import Bool Arith ZArith List Lia.
From Stdlib Require Import Ascii String.
From Stdlib Require Import QArith.
From Stdlib Require Import Permutation OrderedTypeEx Sorted.
Import ListNotations.

Open Scope string_scope.
Open Scope Z_scope.

(* ================================================================= *)
(** ** Characters *)

Module PyChar.

Definition code (c : ascii) : N := N_of_ascii c.

Definition in_range (lo hi : N) (c : ascii) : bool :=
  (N.leb lo (code c) && N.leb (code c) hi)%bool.

(** [str.isspace], which is also [\s] of a Unicode pattern. *)
Definition is_space (c : ascii) : bool :=
  (in_range 9 13 c || in_range 28 32 c
   || N.eqb (code c) 133 || N.eqb (code c) 160)%bool.

(** [\d] of a Unicode pattern: the decimal digits. *)
Definition is_digit (c : ascii) : bool := in_range 48 57 c.

(** [\w] of a Unicode pattern: alphanumeric or underscore. *)
Definition is_word (c : ascii) : bool :=
  (in_range 48 57 c || in_range 65 90 c || N.eqb (code c) 95
   || in_range 97 122 c
   || N.eqb (code c) 170 || in_range 178 179 c || N.eqb (code c) 181
   || in_range 185 186 c || in_range 188 190 c
   || in_range 192 214 c || in_range 216 246 c || in_range 248 255 c)%bool.

(** The line boundaries of [str.splitlines]. *)
Definition is_linebreak (c : ascii) : bool :=
  (in_range 10 13 c || in_range 28 30 c || N.eqb (code c) 133)%bool.

(** [str.lower] on one character. *)
Definition lower (c : ascii) : ascii :=
  if (in_range 65 90 c
      || (in_range 192 222 c && negb (N.eqb (code c) 215)))%bool
  then ascii_of_N (code c + 32)
  else c.

Definition LF : ascii := ascii_of_nat 10.
Definition CR : ascii := ascii_of_nat 13.
Definition TAB : ascii := ascii_of_nat 9.
Definition DQUOTE : ascii := ascii_of_nat 34.

End PyChar.

(* ================================================================= *)
(** ** Strings *)

Module PyStr.

Import PyChar.

Definition chr (c : ascii) : string := String c EmptyString.

Definition len (s : string) : Z := Z.of_nat (String.length s).

(** [c in s] for a one-character [c]. *)
Fixpoint mem (c : ascii) (s : string) : bool :=
  match s with
  | EmptyString => false
  | String d t => (Ascii.eqb c d || mem c t)%bool
  end.

Fixpoint take (n : nat) (s : string) : string :=
  match n, s with
  | O, _ => EmptyString
  | S _, EmptyString => EmptyString
  | S k, String c t => String c (take k t)
  end.

(** [s[:k]]: a negative bound counts from the end. *)
Definition slice_to (k : Z) (s : string) : string :=
  if k <? 0 then take (Z.to_nat (len s + k)) s
  else take (Z.to_nat k) s.

Fixpoint count (c : ascii) (s : string) : nat :=
  match s with
  | EmptyString => O
  | String d t => if Ascii.eqb d c then S (count c t) else count c t
  end.

(** Position of the first [c] in [s], counted from [pos]. *)
Fixpoint find_from (c : ascii) (pos : Z) (s : string) : Z :=
  match s with
  | EmptyString => -1
  | String d t => if Ascii.eqb d c then pos else find_from c (pos + 1) t
  end.

Fixpoint drop (n : nat) (s : string) : string :=
  match n, s with
  | O, _ => s
  | S _, EmptyString => EmptyString
  | S k, String _ t => drop k t
  end.

(** [s.find(c, start)] for [0 <= start]. *)
Definition find (c : ascii) (start : Z) (s : string) : Z :=
  find_from c start (drop (Z.to_nat start) s).

Fixpoint lstrip (s : string) : string :=
  match s with
  | EmptyString => EmptyString
  | String c t => if is_space c then lstrip t else s
  end.

Fixpoint rstrip (s : string) : string :=
  match s with
  | EmptyString => EmptyString
  | String c t =>
      match rstrip t with
      | EmptyString => if is_space c then EmptyString else chr c
      | r => String c r
      end
  end.

Definition strip (s : string) : string := rstrip (lstrip s).

Fixpoint map (f : ascii -> ascii) (s : string) : string :=
  match s with
  | EmptyString => EmptyString
  | String c t => String (f c) (map f t)
  end.

Definition lower (s : string) : string := map PyChar.lower s.

(** [s.partition(c)[0]]: the text before the first [c], or all of [s]. *)
Fixpoint before (c : ascii) (s : string) : string :=
  match s with
  | EmptyString => EmptyString
  | String d t => if Ascii.eqb d c then EmptyString else String d (before c t)
  end.

(** [s.splitlines()].  [cur] is the line being read, [after_cr] tells
    that the previous character was a carriage return, so that a line
    feed right after it belongs to the same boundary. *)
Fixpoint splitlines_aux (cur : string) (pending after_cr : bool)
    (s : string) : list string :=
  match s with
  | EmptyString => if pending then [cur] else []
  | String c t =>
      if (after_cr && Ascii.eqb c LF)%bool then
        splitlines_aux EmptyString false false t
      else if is_linebreak c then
        cur :: splitlines_aux EmptyString false (Ascii.eqb c CR) t
      else
        splitlines_aux (cur ++ chr c) true false t
  end.

Definition splitlines (s : string) : list string :=
  splitlines_aux EmptyString false false s.

(** [s.split(sep)] for a non-empty [sep]: [skip] counts the characters
    of a separator still to be stepped over. *)
Fixpoint split_aux (sep : string) (skip : nat) (cur : string)
    (s : string) : list string :=
  match s with
  | EmptyString => [cur]
  | String c t =>
      match skip with
      | S k => split_aux sep k cur t
      | O =>
          if String.prefix sep s
          then cur :: split_aux sep (String.length sep - 1) EmptyString t
          else split_aux sep O (cur ++ chr c) t
      end
  end.

Definition split (sep s : string) : list string :=
  split_aux sep O EmptyString s.

Fixpoint join (l : list string) : string :=
  match l with
  | [] => EmptyString
  | s :: r => s ++ join r
  end.

(** [str(n)] for an integer. *)
Fixpoint digits_of_pos_aux (fuel : nat) (n : N) (acc : string) : string :=
  match fuel with
  | O => acc
  | S f =>
      let d := ascii_of_N (48 + N.modulo n 10) in
      let q := N.div n 10 in
      if N.eqb q 0 then String d acc
      else digits_of_pos_aux f q (String d acc)
  end.

Definition str_of_N (n : N) : string :=
  digits_of_pos_aux (S (N.to_nat (N.log2 n))) n EmptyString.

Definition str_of_Z (z : Z) : string :=
  if z <? 0 then String "-" (str_of_N (Z.to_N (- z)))
  else str_of_N (Z.to_N z).

(** [int(s)] for a string of decimal digits. *)
Fixpoint int_of_digits_aux (acc : N) (s : string) : N :=
  match s with
  | EmptyString => acc
  | String c t => int_of_digits_aux (10 * acc + (code c - 48)) t
  end.

Definition int_of_digits (s : string) : Z :=
  Z.of_N (int_of_digits_aux 0 s).

End PyStr.





(* ================================================================= *)
(** ** Regular expressions: the fragment the module uses

    Both patterns of the module are sequences of character classes,
    each taken once, or under a greedy [*] or [+], possibly inside a
    capturing group.  [exec] is [Pattern.match]: anchored at the start
    of the text, greedy, backtracking into the earlier repetitions when
    the rest of the pattern fails. *)

Module Regex.

Inductive quant : Type := One | Star | Plus.

Record atom : Type := Atom {
  cls : ascii -> bool;
  rep : quant;
  grp : bool
}.

Definition regex : Type := list atom.

Section Greedy.
Context {A : Type}.
Variable p : ascii -> bool.
Variable k : string -> string -> option A.

(** Take as many characters of class [p] as there are, then give
    them back one at a time until the continuation [k] succeeds. *)
Fixpoint greedy (taken s : string) : option A :=
  match s with
  | EmptyString => k taken EmptyString
  | String c t =>
      if p c then
        match greedy (taken ++ PyStr.chr c) t with
        | Some r => Some r
        | None => k taken s
        end
      else k taken s
  end.
End Greedy.

(** The captured groups of a match, in order; [None] when the pattern
    does not match at the start of [s]. *)
Fixpoint exec (r : regex) (s : string) : option (list string) :=
  match r with
  | [] => Some []
  | a :: r' =>
      let k (taken rest : string) :=
        match exec r' rest with
        | Some g => Some (if grp a then taken :: g else g)
        | None => None
        end in
      match rep a with
      | One =>
          match s with
          | String c t => if cls a c then k (PyStr.chr c) t else None
          | EmptyString => None
          end
      | Star => greedy (cls a) k EmptyString s
      | Plus =>
          match s with
          | String c t =>
              if cls a c then greedy (cls a) k (PyStr.chr c) t else None
          | EmptyString => None
          end
      end
  end.

Definition matches (r : regex) (s : string) : bool :=
  match exec r s with Some _ => true | None => false end.

(** A literal character under [re.IGNORECASE]. *)
Definition ci (c : ascii) : atom :=
  Atom (fun x => Ascii.eqb (PyChar.lower x) (PyChar.lower c)) One false.

Fixpoint lits_ci (s : string) : regex :=
  match s with
  | EmptyString => []
  | String c t => ci c :: lits_ci t
  end.

(** [.] without [re.DOTALL]: anything but a line feed. *)
Definition dot (c : ascii) : bool := negb (Ascii.eqb c PyChar.LF).
Definition nonword (c : ascii) : bool := negb (PyChar.is_word c).

(** Every character of [s] is of class [p]. *)
Fixpoint all (p : ascii -> bool) (s : string) : bool :=
  match s with
  | EmptyString => true
  | String c t => (p c && all p t)%bool
  end.

(** [s] starts with a character of class [p]. *)
Definition starts_with (p : ascii -> bool) (s : string) : bool :=
  match s with
  | EmptyString => false
  | String c _ => p c
  end.

End Regex.

(** [re.compile(r'\W*caused\W+by', re.IGNORECASE)] *)
Definition REGEX_CAUSED_BY : Regex.regex :=
  ([Regex.Atom Regex.nonword Regex.Star false]
     ++ Regex.lits_ci "caused"
     ++ [Regex.Atom Regex.nonword Regex.Plus false]
     ++ Regex.lits_ci "by")%list.

(** [re.compile(r'.*count:\s+(\d+)', re.IGNORECASE)] *)
Definition REGEX_COUNT : Regex.regex :=
  ([Regex.Atom Regex.dot Regex.Star false]
     ++ Regex.lits_ci "count:"
     ++ [Regex.Atom PyChar.is_space Regex.Plus false;
         Regex.Atom PyChar.is_digit Regex.Plus true])%list.



(* ================================================================= *)
(** ** Exceptions and results *)

Inductive exn : Type :=
| InternalError (message : string)   (* the module's own error class *)
| IndexError                         (* a list index out of range *)
| RecursionError                     (* the interpreter's call depth *)
| RequestException                   (* [requests]: transport failure *)
| Base64Error.                       (* [binascii.Error] *)

Inductive result (A : Type) : Type :=
| Ok (a : A)
| Raise (e : exn).

Arguments Ok {A} a.
Arguments Raise {A} e.

Definition rbind {A B : Type} (m : result A) (f : A -> result B)
  : result B :=
  match m with
  | Ok a => f a
  | Raise e => Raise e
  end.

(** [lst[i]] for [0 <= i]. *)
Definition getitem {A : Type} (l : list A) (i : Z) : result A :=
  if i <? 0 then Raise IndexError
  else match nth_error l (Z.to_nat i) with
       | Some a => Ok a
       | None => Raise IndexError
       end.

(** [lst[i]] as Python has it: a negative index counts from the end. *)
Definition getitem_py {A : Type} (l : list A) (i : Z) : result A :=
  if i <? 0 then getitem l (Z.of_nat (List.length l) + i)
  else getitem l i.

(* ================================================================= *)
(** ** Data model *)

Record StackLine : Type := {
  className : string;
  methodName : string;
  fileName : string;
  lineNumber : Z;
  nativeMethod : bool
}.

(** One element of [json_data['stacktrace']]. *)
Record CauseFrame : Type := {
  message : string;
  stacktrace : list StackLine
}.

(** The inbound payload [json_data].  [json_extra] holds the other
    fields, already rendered, in the order of the payload. *)
Record Report : Type := {
  json_stacktrace : list CauseFrame;
  json_logs : option string;
  json_screenshots : option (list string);
  json_extra : list (string * string)
}.

Record FixVersion : Type := { name : string }.

(** The fields of a tracker issue the module reads. *)
Record Issue : Type := {
  key : string;
  status_name : string;
  environment : option string;
  description : string;
  fixVersions : list FixVersion
}.

(** The tuple [determine_if_duplicate] returns. *)
Inductive Verdict : Type :=
| Duplicate (issue_key status : string) (env : option string)
            (fixed_in_sprint : string)
| NotDuplicate.

(* ================================================================= *)
(** ** Text sanitizer *)

Definition MAX_SUMMARY_LENGTH : Z := 255.
Definition MAX_DESCRIPTION_LENGTH : Z := 32767 - 767.

(** The blacklist of the source: an apostrophe, a double quote (code
    34) and the seventeen characters that follow. *)
Definition BLACKLISTED_CHARACTERS : string :=
  String "'" (String PyChar.DQUOTE "+-,?|*/%^$#@[]()&").

Definition trim_length (input : string) (max_length : Z) : string :=
  if PyStr.len input >? max_length
  then PyStr.slice_to max_length input
  else input.

(** The loop of [filter_out_blacklisted_characters]; [sanitized] is
    the string built so far. *)
Fixpoint filter_loop (sanitized input : string) : string :=
  match input with
  | EmptyString => sanitized
  | String c t =>
      if PyStr.mem c BLACKLISTED_CHARACTERS
      then filter_loop sanitized t
      else filter_loop (sanitized ++ PyStr.chr c) t
  end.

Definition filter_out_blacklisted_characters (input : string) : string :=
  filter_loop EmptyString input.

(** [re.sub('\s+', ' ', input)]: every maximal run of whitespace is
    replaced by one space; [in_run] tells that the run the scan is in
    has been replaced already. *)
Fixpoint re_sub_spaces (in_run : bool) (input : string) : string :=
  match input with
  | EmptyString => EmptyString
  | String c t =>
      if PyChar.is_space c then
        if in_run then re_sub_spaces true t
        else String " " (re_sub_spaces true t)
      else String c (re_sub_spaces false t)
  end.

Definition trim_whitespace (input : string) : string :=
  PyStr.strip (re_sub_spaces false input).

Section Sanitizer.

(** [exceptionservice.config.JIRA_ISSUE_TITLE] *)
Variable JIRA_ISSUE_TITLE : string.

Definition max_length : Z :=
  MAX_SUMMARY_LENGTH - PyStr.len JIRA_ISSUE_TITLE - 2.

Definition sanitize_jql_summary (raw : string) (trim_for_query : bool)
  : string :=
  let sanitized := filter_out_blacklisted_characters raw in
  let sanitized := trim_whitespace sanitized in
  let sanitized := trim_length sanitized max_length in
  if (trim_for_query && (2 <=? PyStr.count ":" sanitized)%nat)%bool
  then PyStr.slice_to
         (PyStr.find ":" (PyStr.find ":" 0 sanitized + 1) sanitized)
         sanitized
  else sanitized.

End Sanitizer.

(** *** The sanitizer as the specification words it *)

Module SanitizeSpec.

(** Step 1: remove every character of the blacklist set. *)
Fixpoint remove_blacklisted (s : string) : string :=
  match s with
  | EmptyString => EmptyString
  | String c t =>
      if PyStr.mem c BLACKLISTED_CHARACTERS
      then remove_blacklisted t
      else String c (remove_blacklisted t)
  end.

(** The maximal runs of non-whitespace characters of [s]. *)
Fixpoint words (s : string) : list string :=
  match s with
  | EmptyString => []
  | String c t =>
      if PyChar.is_space c then words t
      else match t with
           | EmptyString => [PyStr.chr c]
           | String d _ =>
               if PyChar.is_space d then PyStr.chr c :: words t
               else match words t with
                    | w :: r => String c w :: r
                    | [] => [PyStr.chr c]
                    end
           end
  end.

Fixpoint unwords (l : list string) : string :=
  match l with
  | [] => EmptyString
  | [w] => w
  | w :: r => w ++ String " " (unwords r)
  end.

(** Step 2: whitespace runs become one space, none is left at either
    end: the words of the text, one space between two of them. *)
Definition collapse_whitespace (s : string) : string := unwords (words s).

(** Step 3: keep the first [n] characters. *)
Definition truncate (n : nat) (s : string) : string := PyStr.take n s.

(** The text after the first [c] of [s]. *)
Fixpoint after (c : ascii) (s : string) : string :=
  match s with
  | EmptyString => EmptyString
  | String d t => if Ascii.eqb d c then t else after c t
  end.

(** Step 4: everything up to, and without, the second colon. *)
Definition before_second_colon (s : string) : string :=
  PyStr.before ":" s ++ String ":" (PyStr.before ":" (after ":" s)).

Definition sanitize (title_prefix raw : string) (for_query : bool)
  : string :=
  let s := remove_blacklisted raw in
  let s := collapse_whitespace s in
  let s := truncate (255 - String.length title_prefix - 2) s in
  if (for_query && (2 <=? PyStr.count ":" s)%nat)%bool
  then before_second_colon s
  else s.

Definition starts_with_space (s : string) : bool :=
  match s with
  | EmptyString => false
  | String c _ => PyChar.is_space c
  end.

(** What a sanitized summary looks like.  [tidy_from b s]: [s] has no blacklisted character, its only
    whitespace is the space, no two spaces are adjacent and, when [b]
    is set, it does not start with one. *)

Fixpoint tidy_from (after_space : bool) (s : string) : bool :=
  match s with
  | EmptyString => true
  | String c t =>
      if PyChar.is_space c
      then (Ascii.eqb c " " && negb after_space && tidy_from true t)%bool
      else (negb (PyStr.mem c BLACKLISTED_CHARACTERS)
            && tidy_from false t)%bool
  end.

Definition tidy (s : string) : bool := tidy_from true s.

Fixpoint ends_with_space (s : string) : bool :=
  match s with
  | EmptyString => false
  | String c t =>
      match t with
      | EmptyString => PyChar.is_space c
      | String _ _ => ends_with_space t
      end
  end.

End SanitizeSpec.


(* ================================================================= *)
(** ** Stack-trace extractor *)

Definition get_summary_from_message (json_data : Report) : result string :=
  let stacks := json_stacktrace json_data in
  rbind (getitem_py stacks (Z.of_nat (List.length stacks) - 1))
        (fun frame => Ok (message frame)).

(** ['\tat {}.{}({}:{})\n'.format(...)] *)
Definition format_line (line : StackLine) : string :=
  PyStr.chr PyChar.TAB ++ "at " ++ className line ++ "." ++ methodName line
    ++ "(" ++ fileName line ++ ":" ++ PyStr.str_of_Z (lineNumber line)
    ++ ")" ++ PyStr.chr PyChar.LF.

(** ['Caused by: {}\n'.format(...)] *)
Definition format_header (trace : CauseFrame) : string :=
  "Caused by: " ++ message trace ++ PyStr.chr PyChar.LF.

(** The inner loop; [output] is what the buffer holds. *)
Fixpoint write_lines (output : string) (lines : list StackLine) : string :=
  match lines with
  | [] => output
  | line :: rest =>
      if negb (nativeMethod line)
      then write_lines (output ++ format_line line) rest
      else write_lines output rest
  end.

(** The outer loop. *)
Fixpoint write_traces (output : string) (traces : list CauseFrame)
  : string :=
  match traces with
  | [] => output
  | trace :: rest =>
      write_traces
        (write_lines (output ++ format_header trace) (stacktrace trace))
        rest
  end.

Definition get_stacktrace_from_message (json_data : Report) : string :=
  write_traces EmptyString (json_stacktrace json_data).

(** The loop of [create_details_string_from_json] over the fields that
    are left once the stack trace, the logs and the screenshots are
    deleted. *)
Fixpoint details_loop (output : string) (items : list (string * string))
  : string :=
  match items with
  | [] => output
  | (k, v) :: rest =>
      details_loop
        (output ++ "  " ++ k ++ ": " ++ v ++ PyStr.chr PyChar.LF) rest
  end.

Definition create_details_string_from_json (json_data : Report) : string :=
  details_loop EmptyString (json_extra json_data).

(* ================================================================= *)
(** ** Similarity matcher *)

Definition get_stacktrace_from_issue (issue : Issue) : string :=
  let description_blocks := PyStr.split "{noformat}" (description issue) in
  if (3 <=? List.length description_blocks)%nat
  then nth 1 description_blocks EmptyString
  else EmptyString.

(** The loop that looks for the last line [REGEX_CAUSED_BY] matches;
    [i] is the index of the head of [lines]. *)
Fixpoint last_causedby_loop (loc : Z) (i : Z) (lines : list string) : Z :=
  match lines with
  | [] => loc
  | l :: rest =>
      last_causedby_loop
        (if Regex.matches REGEX_CAUSED_BY l then i else loc) (i + 1) rest
  end.

Definition first_line_caused_by_from_printed_stacktrace
    (printed_stacktrace : string) : result string :=
  let lines := PyStr.splitlines printed_stacktrace in
  let loc_last_causedby_line := last_causedby_loop (-1) 0 lines in
  rbind (getitem_py lines (loc_last_causedby_line + 1))
        (fun exception_line => Ok (PyStr.before ":" exception_line)).

Definition matches_exception_throw_location
    (new_stacktrace issue_stacktrace : string) : result bool :=
  rbind (first_line_caused_by_from_printed_stacktrace new_stacktrace)
    (fun line_new_stacktrace =>
  rbind (first_line_caused_by_from_printed_stacktrace issue_stacktrace)
    (fun line_issue_stacktrace =>
  Ok (String.eqb line_new_stacktrace line_issue_stacktrace))).

(** [sorted(fix_versions, key=itemgetter('name'), reverse=True)]: the
    sort is stable, so a version is put behind those of the same name,
    and before the first one whose name is smaller. *)
Fixpoint insert_by_name_desc (v : FixVersion) (l : list FixVersion)
  : list FixVersion :=
  match l with
  | [] => [v]
  | w :: r =>
      if String.ltb (name w) (name v) then v :: l
      else w :: insert_by_name_desc v r
  end.

Definition sorted_by_name_desc (fix_versions : list FixVersion)
  : list FixVersion :=
  fold_left (fun acc v => insert_by_name_desc v acc) fix_versions [].

Definition get_latest_fix_version (fix_versions : list FixVersion)
  : result FixVersion :=
  getitem_py (sorted_by_name_desc fix_versions) 0.



(* ================================================================= *)
(** ** The tracker and the log of outbound calls *)

(** What [requests] returns for one call: a response with its status
    code, its raw content and its decoded body, or a transport failure,
    which [requests] raises. *)
Inductive reply (A : Type) : Type :=
| Reply (status_code : Z) (content : string) (json : A)
| Unreachable.

Arguments Reply {A} status_code content json.
Arguments Unreachable {A}.

Record SearchPage : Type := {
  maxResults : Z;
  total : Z;
  issues : list Issue
}.

Record Tracker : Type := {
  post_search : string -> Z -> reply SearchPage;
  get_active_sprints : reply (list string);
  post_issue : string -> string -> reply string;
  put_issue : string -> string -> reply unit;
  post_transition : string -> string -> reply unit;
  post_attachment : string -> string -> string -> reply unit
}.

Inductive Call : Type :=
| SearchCall (jql : string) (startAt : Z)
| SprintCall
| CreateCall (title description : string)
| UpdateCall (issue_id env : string)
| TransitionCall (issue_id transition_id : string)
| AttachCall (issue_id filename content : string).

(** A computation that talks to the tracker: the calls it made, in
    order, and how it ended. *)
Definition M (A : Type) : Type := (list Call * result A)%type.

Definition ret {A : Type} (a : A) : M A := ([], Ok a).
Definition raise {A : Type} (e : exn) : M A := ([], Raise e).
Definition lift {A : Type} (r : result A) : M A := ([], r).

Definition bind {A B : Type} (m : M A) (f : A -> M B) : M B :=
  match m with
  | (log, Ok a) => let (log', r) := f a in ((log ++ log')%list, r)
  | (log, Raise e) => (log, Raise e)
  end.

Notation "x <- m ;; k" := (bind m (fun x => k))
  (at level 61, m at next level, right associativity).
Notation "m ;;; k" := (bind m (fun _ => k))
  (at level 61, right associativity).

(** One call: it is logged, and a transport failure is raised. *)
Definition request {A : Type} (c : Call) (r : reply A)
  : M (Z * string * A) :=
  ([c], match r with
        | Reply status content body => Ok (status, content, body)
        | Unreachable => Raise RequestException
        end).

(** [try: body  except InternalError: pass] *)
Definition except_InternalError (body : M unit) : M unit :=
  match body with
  | (log, Raise (InternalError _)) => (log, Ok tt)
  | other => other
  end.

Definition calls {A : Type} (m : M A) : list Call := fst m.
Definition outcome {A : Type} (m : M A) : result A := snd m.

Definition is_transition (c : Call) : bool :=
  match c with TransitionCall _ _ => true | _ => false end.

Definition _JIRA_TRANSITION_REOPEN_ID : string := "3".

Inductive AttachmentType : Type := text | binary.


(* ================================================================= *)
(** ** Duplicate resolver and issue synchronizer *)

Definition is_issue_closed (status : string) : bool :=
  (String.eqb (PyStr.lower status) "closed"
   || String.eqb (PyStr.lower status) "resolved")%bool.

(** [a > b] on the values [SequenceMatcher] returns. *)
Definition Qgtb (a b : Q) : bool := negb (Qle_bool a b).

Inductive Body : Type :=
| Text (s : string)
| Json (page : SearchPage).

Record HttpResponse : Type := {
  body : Body;
  status : Z
}.

Inductive HttpRequest : Type :=
| PostJson (json_data : Report)
| OtherRequest.

Section Service.

(** [exceptionservice.config] *)
Variables JIRA_ISSUE_TITLE JIRA_PROJECT : string.

(** [SequenceMatcher(junk, a, b).ratio()] and [.real_quick_ratio()] *)
Variables ratio real_quick_ratio : string -> string -> Q.

(** [str(datetime.now())] at the time of the call *)
Variable now : string.

(** [base64.b64decode]; [None] when it raises *)
Variable b64decode : string -> option string.

(** The depth of calls the interpreter allows *)
Variable recursion_limit : nat.

Variable jira : Tracker.

Definition get_current_sprint : M string :=
  resp <- request SprintCall (get_active_sprints jira) ;;
  let '(_, _, values) := resp in
  lift (getitem_py values 0).

Definition should_reopen_if_closed (issue_is_closed : bool)
    (fixed_in_sprint : string) : M bool :=
  current_sprint <- get_current_sprint ;;
  let is_closed_in_current_sprint :=
    String.eqb current_sprint fixed_in_sprint in
  ret (issue_is_closed && negb is_closed_in_current_sprint)%bool.

Definition calculate_issue_occurrence_count
    (existing_count : option string) : string :=
  let count :=
    match existing_count with
    | Some e =>
        if 0 <? PyStr.len e then
          match Regex.exec REGEX_COUNT e with
          | Some groups =>
              PyStr.int_of_digits (nth 0 groups EmptyString) + 1
          | None => 1
          end
        else 1
    | None => 1
    end in
  "Count: " ++ PyStr.str_of_Z count ++ PyStr.chr PyChar.LF
    ++ "Last: " ++ now.

Definition find_jql (exception_summary : string) : string :=
  "project=" ++ JIRA_PROJECT ++ "&issuetype=Bevinding&summary ~ '"
    ++ sanitize_jql_summary JIRA_ISSUE_TITLE exception_summary true
    ++ "'".

(** [depth] is the number of nested calls still allowed. *)
Fixpoint find_existing_jira_issues (depth : nat)
    (exception_summary : string) (start_at : Z) : M (list Issue) :=
  match depth with
  | O => raise RecursionError
  | S d =>
      resp <- request (SearchCall (find_jql exception_summary) start_at)
                (post_search jira (find_jql exception_summary) start_at) ;;
      let '(status_code, content, page) := resp in
      if negb (status_code =? 200) then
        raise (InternalError
                 ("Could not query Jira issues, cancel processing issue. "
                    ++ "HTTP response code " ++ PyStr.str_of_Z status_code
                    ++ " : " ++ content))
      else
        let max_results := maxResults page in
        let total_results := total page in
        issue_list <-
          (if total_results >? start_at + max_results
           then find_existing_jira_issues d exception_summary
                  (start_at + max_results)
           else ret []) ;;
        ret (issue_list ++ issues page)%list
  end.

Definition new_trimmed_stacktrace (new_stacktrace issue_stacktrace : string)
  : string :=
  PyStr.slice_to (PyStr.len issue_stacktrace) new_stacktrace.

Definition match_ratio (new_trimmed issue_stacktrace : string) : Q :=
  if Qgtb (real_quick_ratio new_trimmed issue_stacktrace) (6 # 10)
  then ratio new_trimmed issue_stacktrace
  else 0%Q.

(** The condition of the [if] in the loop of
    [determine_if_duplicate]; [and] evaluates its right operand only
    when the left one holds. *)
Definition is_match (new_stacktrace : string) (issue : Issue)
  : result bool :=
  let issue_stacktrace := get_stacktrace_from_issue issue in
  let new_trimmed := new_trimmed_stacktrace new_stacktrace issue_stacktrace in
  if negb (0 <? PyStr.len issue_stacktrace) then Ok false
  else if negb (Qgtb (match_ratio new_trimmed issue_stacktrace) (7 # 10))
  then Ok false
  else matches_exception_throw_location new_trimmed issue_stacktrace.

Fixpoint determine_loop (new_stacktrace : string)
    (issue_list : list Issue) : result Verdict :=
  match issue_list with
  | [] => Ok NotDuplicate
  | issue :: rest =>
      rbind (is_match new_stacktrace issue) (fun matched =>
        if matched then
          rbind (get_latest_fix_version (fixVersions issue)) (fun latest =>
            Ok (Duplicate (key issue) (status_name issue)
                  (environment issue) (name latest)))
        else determine_loop new_stacktrace rest)
  end.

Definition determine_if_duplicate (json_data : Report) : M Verdict :=
  exception_summary <- lift (get_summary_from_message json_data) ;;
  issue_list <-
    find_existing_jira_issues recursion_limit exception_summary 0 ;;
  let new_stacktrace := get_stacktrace_from_message json_data in
  lift (determine_loop new_stacktrace issue_list).

Definition add_to_jira (summary details stacktrace : string) : M string :=
  let summary := sanitize_jql_summary JIRA_ISSUE_TITLE summary false in
  let title := JIRA_ISSUE_TITLE ++ ": " ++ summary in
  let nl := PyStr.chr PyChar.LF in
  let description :=
    summary ++ nl ++ nl ++ "Details:" ++ nl ++ details ++ nl ++ nl
      ++ "Stacktrace:" ++ nl ++ "{noformat}"
      ++ trim_length stacktrace MAX_DESCRIPTION_LENGTH ++ "{noformat}" in
  resp <- request (CreateCall title description)
            (post_issue jira title description) ;;
  let '(status_code, content, issue_key) := resp in
  if negb (status_code =? 201) then
    raise (InternalError
             ("Could not create new Jira issue. HTTP response code "
                ++ PyStr.str_of_Z status_code ++ " : " ++ content))
  else ret issue_key.

Definition update_to_jira (issue_id env : string)
    (do_status_transition : bool) : M unit :=
  resp <- request (UpdateCall issue_id env) (put_issue jira issue_id env) ;;
  let '(status_code, content, _) := resp in
  if negb (status_code =? 204) then
    raise (InternalError
             ("Could not update existing Jira issue. HTTP response code "
                ++ PyStr.str_of_Z status_code ++ " : " ++ content))
  else if do_status_transition then
    request (TransitionCall issue_id _JIRA_TRANSITION_REOPEN_ID)
      (post_transition jira issue_id _JIRA_TRANSITION_REOPEN_ID) ;;;
    ret tt
  else ret tt.

(** The body of the [try] of [add_attachment]: the stream
    constructors accept what the callers pass, so only the call to
    the tracker can raise. *)
Definition add_attachment_body (attachment : string)
    (type : AttachmentType) (filename issue_id : string) : M unit :=
  request (AttachCall issue_id filename attachment)
    (post_attachment jira issue_id filename attachment) ;;;
  ret tt.

Definition add_attachment (attachment : string) (type : AttachmentType)
    (filename issue_id : string) : M unit :=
  except_InternalError (add_attachment_body attachment type filename issue_id).

Definition decode (encoded : string) : M string :=
  match b64decode encoded with
  | Some data => ret data
  | None => raise Base64Error
  end.

Fixpoint attach_screenshots (screenshots : list string)
    (issue_id : string) : M unit :=
  match screenshots with
  | [] => ret tt
  | b64_encoded_screenshot :: rest =>
      data <- decode b64_encoded_screenshot ;;
      add_attachment data binary "screenshot.jpg" issue_id ;;;
      attach_screenshots rest issue_id
  end.

Definition update_issue_with_attachments (json_data : Report)
    (issue_id : string) : M unit :=
  add_attachment (get_stacktrace_from_message json_data) text
    "stacktrace.txt" issue_id ;;;
  (match json_logs json_data with
   | Some logs =>
       data <- decode logs ;;
       add_attachment data binary "logfiles.zip" issue_id
   | None => ret tt
   end) ;;;
  match json_screenshots json_data with
  | Some screenshots => attach_screenshots screenshots issue_id
  | None => ret tt
  end.

Definition add_jira_exception (json_data : Report) : M HttpResponse :=
  is_duplicate <- determine_if_duplicate json_data ;;
  match is_duplicate with
  | Duplicate issue_id issue_status existing_count fixed_in_sprint =>
      should_reopen <-
        should_reopen_if_closed (is_issue_closed issue_status)
          fixed_in_sprint ;;
      update_to_jira issue_id
        (calculate_issue_occurrence_count existing_count)
        should_reopen ;;;
      update_issue_with_attachments json_data issue_id ;;;
      ret {| body := Text ("Jira issue already exists, updated: "
                             ++ issue_id);
             status := 200 |}
  | NotDuplicate =>
      summary <- lift (get_summary_from_message json_data) ;;
      issue_id <-
        add_to_jira summary (create_details_string_from_json json_data)
          (get_stacktrace_from_message json_data) ;;
      update_issue_with_attachments json_data issue_id ;;;
      ret {| body := Text ("Jira issue added: " ++ issue_id);
             status := 201 |}
  end.

Definition open_issues_jql : string :=
  "project=" ++ JIRA_PROJECT ++ "&status in (Open,"
    ++ PyStr.chr PyChar.DQUOTE ++ "In Progress" ++ PyStr.chr PyChar.DQUOTE
    ++ ",Reopened)&issuetype=Bevinding".

Definition show_all_open_issues : M SearchPage :=
  resp <- request (SearchCall open_issues_jql 0)
            (post_search jira open_issues_jql 0) ;;
  let '(status_code, content, page) := resp in
  if negb (status_code =? 200) then
    raise (InternalError
             ("Could not get open Jira issues. HTTP response code "
                ++ PyStr.str_of_Z status_code ++ " : " ++ content))
  else ret page.

(** The route: only [InternalError] is handled. *)
Definition receive_exception (req : HttpRequest) : M HttpResponse :=
  let handled :=
    match req with
    | PostJson json_data => add_jira_exception json_data
    | OtherRequest => page <- show_all_open_issues ;;
                      ret {| body := Json page; status := 200 |}
    end in
  match handled with
  | (log, Raise (InternalError err)) =>
      (log, Ok {| body := Text ("Error during processing; "
                                  ++ PyStr.chr PyChar.LF
                                  ++ PyStr.chr PyChar.TAB ++ err);
                  status := 500 |})
  | other => other
  end.

End Service.


(* ================================================================= *)
(** ** The specification's wording, and scenarios *)

(** *** Stack-trace rendering *)

Module ExtractSpec.

(** The header line [Caused by: {message}]. *)
Definition header_text (trace : CauseFrame) : string :=
  "Caused by: " ++ message trace ++ PyStr.chr PyChar.LF.

(** The line [\tat {className}.{methodName}({fileName}:{lineNumber})]. *)
Definition line_text (l : StackLine) : string :=
  PyStr.chr PyChar.TAB ++ "at " ++ className l ++ "." ++ methodName l
    ++ "(" ++ fileName l ++ ":" ++ PyStr.str_of_Z (lineNumber l) ++ ")"
    ++ PyStr.chr PyChar.LF.

(** The rendering of the specification: per frame a header, then one
    line per stack line that is not native. *)
Definition render_frame (trace : CauseFrame) : string :=
  header_text trace
    ++ PyStr.join
         (List.map line_text
            (List.filter (fun l => negb (nativeMethod l)) (stacktrace trace))).

Definition render (json_data : Report) : string :=
  PyStr.join (List.map render_frame (json_stacktrace json_data)).

(** The report without its native stack lines. *)
Definition drop_native (json_data : Report) : Report :=
  {| json_stacktrace :=
       List.map
         (fun trace =>
            {| message := message trace;
               stacktrace :=
                 List.filter (fun l => negb (nativeMethod l))
                   (stacktrace trace) |})
         (json_stacktrace json_data);
     json_logs := json_logs json_data;
     json_screenshots := json_screenshots json_data;
     json_extra := json_extra json_data |}.

End ExtractSpec.

(** A report with two frames, the first with a native stack line. *)
Definition two_frame_report : Report :=
  {| json_stacktrace :=
       [ {| message := "java.lang.IllegalStateException: boom";
            stacktrace :=
              [ {| className := "Foo"; methodName := "bar";
                   fileName := "Foo.java"; lineNumber := 12;
                   nativeMethod := false |};
                {| className := "sun.reflect.NativeMethodAccessorImpl";
                   methodName := "invoke0";
                   fileName := "NativeMethodAccessorImpl.java";
                   lineNumber := -2; nativeMethod := true |} ] |};
         {| message := "java.io.IOException: disk";
            stacktrace :=
              [ {| className := "Disk"; methodName := "read";
                   fileName := "Disk.java"; lineNumber := 7;
                   nativeMethod := false |} ] |} ];
     json_logs := None;
     json_screenshots := None;
     json_extra := [] |}.

(** The report of the scenario: one frame, no stack line. *)
Definition npe_report : Report :=
  {| json_stacktrace :=
       [ {| message := "NullPointerException at Foo"; stacktrace := [] |} ];
     json_logs := None;
     json_screenshots := None;
     json_extra := [] |}.

(** *** The guard of the resolver *)

(** What the guard asks of a candidate issue. *)
Definition guard_conditions (ratio real_quick_ratio : string -> string -> Q)
    (new_stacktrace : string) (issue : Issue) : Prop :=
  let issue_stacktrace := get_stacktrace_from_issue issue in
  let new_trimmed := new_trimmed_stacktrace new_stacktrace issue_stacktrace in
  issue_stacktrace <> ""
  /\ (7 # 10 < match_ratio ratio real_quick_ratio new_trimmed
                 issue_stacktrace)%Q
  /\ (7 # 10 < ratio new_trimmed issue_stacktrace)%Q
  /\ matches_exception_throw_location new_trimmed issue_stacktrace
     = Ok true.

(** One of the three conditions fails, with a throw-location check,
    where it runs, that answers no. *)
Definition guard_fails (ratio real_quick_ratio : string -> string -> Q)
    (new_stacktrace : string) (issue : Issue) : Prop :=
  let issue_stacktrace := get_stacktrace_from_issue issue in
  let new_trimmed := new_trimmed_stacktrace new_stacktrace issue_stacktrace in
  issue_stacktrace = ""
  \/ (match_ratio ratio real_quick_ratio new_trimmed issue_stacktrace
      <= 7 # 10)%Q
  \/ matches_exception_throw_location new_trimmed issue_stacktrace
     = Ok false.

(** *** Case-insensitive comparison *)

Module CaseSpec.

(** [x] is the lower-case letter [p] or its upper-case form. *)
Definition same_letter (p x : ascii) : bool :=
  (Ascii.eqb x p || N.eqb (PyChar.code x + 32) (PyChar.code p))%bool.

(** [s] is [pattern] up to the case of its letters. *)
Fixpoint equal_ignoring_case (pattern s : string) : bool :=
  match pattern, s with
  | EmptyString, EmptyString => true
  | String p pattern', String x s' =>
      (same_letter p x && equal_ignoring_case pattern' s')%bool
  | _, _ => false
  end.

(** The letters of [closed] and [resolved]. *)
Definition status_letters : list ascii :=
  list_ascii_of_string "closedrv".

Fixpoint letters_of (l : list ascii) (s : string) : Prop :=
  match s with
  | EmptyString => True
  | String c t => In c l /\ letters_of l t
  end.

End CaseSpec.

(** *** The call log *)

Definition no_transition (log : list Call) : Prop :=
  List.existsb is_transition log = false.

(** *** The occurrence count *)

Module CountSpec.

(** The pattern as the specification names it: [count:\s+(\d+)],
    letters in any case. *)
Definition PATTERN : Regex.regex :=
  (Regex.lits_ci "count:"
     ++ [Regex.Atom PyChar.is_space Regex.Plus false;
         Regex.Atom PyChar.is_digit Regex.Plus true])%list.

(** [Pattern.search]: the match at the first position that has one. *)
Fixpoint search (r : Regex.regex) (s : string) : option (list string) :=
  match Regex.exec r s with
  | Some g => Some g
  | None =>
      match s with
      | EmptyString => None
      | String _ t => search r t
      end
  end.

(** The counter text for a way [extract] of reading the previous
    count: one more than the number read, 1 when there is none. *)
Definition occurrence_count (extract : string -> option (list string))
    (existing_count : option string) (now : string) : string :=
  let count :=
    match existing_count with
    | Some e =>
        match extract e with
        | Some groups => PyStr.int_of_digits (nth 0 groups EmptyString) + 1
        | None => 1
        end
    | None => 1
    end in
  "Count: " ++ PyStr.str_of_Z count ++ PyStr.chr PyChar.LF
    ++ "Last: " ++ now.

(** A character that can start the word [count:] of the pattern. *)
Definition c_like (x : ascii) : bool :=
  Ascii.eqb (PyChar.lower x) (PyChar.lower "c").

End CountSpec.

(** *** Scenarios *)

Module Scenario.

Definition nl : string := PyStr.chr PyChar.LF.

(** A report with one cause frame and one stack line. *)
Definition boom_report : Report :=
  {| json_stacktrace :=
       [ {| message := "java.lang.IllegalStateException: boom";
            stacktrace :=
              [ {| className := "Foo"; methodName := "bar";
                   fileName := "Foo.java"; lineNumber := 12;
                   nativeMethod := false |} ] |} ];
     json_logs := None;
     json_screenshots := None;
     json_extra := [("version", "1.4")] |}.

(** An issue as [add_to_jira] files it for [trace]. *)
Definition filed (issue_key issue_status trace : string)
    (versions : list FixVersion) : Issue :=
  {| key := issue_key;
     status_name := issue_status;
     environment := Some ("Count: 3" ++ nl ++ "Last: 2017-03-01 10:00:00");
     description :=
       "boom" ++ nl ++ nl ++ "Details:" ++ nl ++ nl ++ nl ++ "Stacktrace:"
         ++ nl ++ "{noformat}" ++ trace ++ "{noformat}";
     fixVersions := versions |}.

(** A matcher that tells equal texts from different ones and nothing
    more; it stands for [SequenceMatcher] in the closed examples. *)
Definition same_text_ratio (a b : string) : Q :=
  if String.eqb a b then 1%Q else 0%Q.

(** A tracker that answers every search with the one page [found],
    accepts creations and updates, has the active sprint [sprint], and
    answers an attachment with [attach]. *)
Definition tracker (found : list Issue) (sprint : string)
    (attach : reply unit) : Tracker :=
  {| post_search := fun _ _ =>
       Reply 200 "" {| maxResults := 50;
                       total := Z.of_nat (List.length found);
                       issues := found |};
     get_active_sprints := Reply 200 "" [sprint];
     post_issue := fun _ _ => Reply 201 "" "EX-1";
     put_issue := fun _ _ => Reply 204 "" tt;
     post_transition := fun _ _ => Reply 204 "" tt;
     post_attachment := fun _ _ _ => attach |}.

Definition resolve (found : list Issue) (json_data : Report) : M Verdict :=
  determine_if_duplicate "Exception" "EX" same_text_ratio same_text_ratio
    1000 (tracker found "Sprint 8" (Reply 200 "" tt)) json_data.

End Scenario.

(** *** What the further properties speak of *)

(** The page a tracker that holds [all] serves from [start_at], with
    pages of [page_size] issues. *)
Definition page_of (all : list Issue) (page_size : nat) (start_at : Z)
  : SearchPage :=
  {| maxResults := Z.of_nat page_size;
     total := Z.of_nat (List.length all);
     issues := firstn page_size (skipn (Z.to_nat start_at) all) |}.

(** The text does not contain the character that opens the delimiter
    [{noformat}]. *)
Definition no_brace (s : string) : bool :=
  Regex.all (fun c => negb (Ascii.eqb c "{")) s.

(** The encoded attachments of a report, in the order in which they
    are decoded. *)
Definition encoded_attachments (json_data : Report) : list string :=
  (match json_logs json_data with Some logs => [logs] | None => [] end
     ++ match json_screenshots json_data with
        | Some screenshots => screenshots
        | None => []
        end)%list.

(** [neat_from b s]: the only whitespace of [s] is the space, no two
    spaces are adjacent and, when [b] is set, [s] does not start with
    one. *)
Fixpoint neat_from (after_space : bool) (s : string) : bool :=
  match s with
  | EmptyString => true
  | String c t =>
      if PyChar.is_space c
      then (Ascii.eqb c " " && negb after_space && neat_from true t)%bool
      else neat_from false t
  end.

(** *** The order of the names of fix versions *)

Module NameOrder.

(** [a < b] as [sorted] compares the names: by code points. *)
Definition lt (a b : string) : Prop := String.ltb a b = true.

(** No name further in the list is greater. *)
Definition descending (l : list FixVersion) : Prop :=
  StronglySorted (fun v w => ~ lt (name v) (name w)) l.

End NameOrder.

(** *** The lines of a printed stack trace *)

Module Printed.

Definition no_linebreak (s : string) : bool :=
  Regex.all (fun c => negb (PyChar.is_linebreak c)) s.

Definition no_colon (s : string) : bool :=
  Regex.all (fun c => negb (Ascii.eqb c ":")) s.

(** The stack lines of a frame that are written. *)
Definition written (lines : list StackLine) : list StackLine :=
  List.filter (fun l => negb (nativeMethod l)) lines.

(** The lines of the printed stack trace, without their line feeds. *)
Definition header_line (trace : CauseFrame) : string :=
  "Caused by: " ++ message trace.

Definition at_line (l : StackLine) : string :=
  PyStr.chr PyChar.TAB ++ "at " ++ className l ++ "." ++ methodName l
    ++ "(" ++ fileName l ++ ":" ++ PyStr.str_of_Z (lineNumber l) ++ ")".

Definition frame_lines (trace : CauseFrame) : list string :=
  header_line trace :: List.map at_line (written (stacktrace trace)).

(** The texts of the frame have no line boundary of their own. *)
Definition one_line_fields (l : StackLine) : bool :=
  (no_linebreak (className l) && no_linebreak (methodName l)
   && no_linebreak (fileName l))%bool.

Definition one_line_frame (trace : CauseFrame) : bool :=
  (no_linebreak (message trace)
   && forallb one_line_fields (written (stacktrace trace)))%bool.

(** Where the stack line [l] is: class, method and file, without the
    line number. *)
Definition location (l : StackLine) : string :=
  PyStr.chr PyChar.TAB ++ "at " ++ className l ++ "." ++ methodName l
    ++ "(" ++ fileName l.

(** A line with its line feed. *)
Definition add_lf (t : string) : string := t ++ PyStr.chr PyChar.LF.

End Printed.
(** The printed stack trace of [json_data] has its throw location at
    the stack line [top]: [top] is the first written line of the last
    cause frame, the texts of the report have no line boundary of
    their own, and the class, the method and the file of [top] have no
    colon. *)
Definition throws_at (json_data : Report) (top : StackLine) : Prop :=
  exists earlier last below,
    json_stacktrace json_data = (earlier ++ [last])%list
    /\ Printed.written (stacktrace last) = top :: below
    /\ forallb Printed.one_line_frame (json_stacktrace json_data) = true
    /\ Printed.no_colon (className top) = true
    /\ Printed.no_colon (methodName top) = true
    /\ Printed.no_colon (fileName top) = true.

(** *** Trackers and issues of the closed examples *)

Module Cases.

(** A tracker that answers every call with the status [code], and a
    search with [page]; its board has no active sprint. *)
Definition answering (code : Z) (page : SearchPage) : Tracker :=
  {| post_search := fun _ _ => Reply code "busy" page;
     get_active_sprints := Reply code "busy" [];
     post_issue := fun _ _ => Reply code "busy" "";
     put_issue := fun _ _ => Reply code "busy" tt;
     post_transition := fun _ _ => Reply code "busy" tt;
     post_attachment := fun _ _ _ => Reply code "busy" tt |}.

(** A tracker that serves the issues [all] by pages of [page_size] and
    accepts what it is sent; its board has no active sprint. *)
Definition paging (all : list Issue) (page_size : nat) : Tracker :=
  {| post_search := fun _ start_at =>
       Reply 200 "" (page_of all page_size start_at);
     get_active_sprints := Reply 200 "" [];
     post_issue := fun _ _ => Reply 201 "" "EX-1";
     put_issue := fun _ _ => Reply 204 "" tt;
     post_transition := fun _ _ => Reply 204 "" tt;
     post_attachment := fun _ _ _ => Reply 200 "" tt |}.


(** A page that announces an issue and serves none. *)
Definition zero_page : SearchPage :=
  {| maxResults := 0; total := 1; issues := [] |}.

(** The printed stack trace of the report of the scenarios. *)
Definition boom_trace : string :=
  get_stacktrace_from_message Scenario.boom_report.

(** The issue filed for that report. *)
Definition boom_issue : Issue :=
  Scenario.filed "EX-7" "Closed" boom_trace [ {| name := "Sprint 8" |} ].

(** An issue that was not filed by the service. *)
Definition foreign_issue (issue_key : string) : Issue :=
  {| key := issue_key;
     status_name := "Open";
     environment := None;
     description := "Typed in by hand.";
     fixVersions := [] |}.

(** The report of the scenarios with a log archive and two
    screenshots. *)
Definition boom_with_attachments : Report :=
  {| json_stacktrace := json_stacktrace Scenario.boom_report;
     json_logs := Some "bG9ncw==";
     json_screenshots := Some ["c2hvdDE="; "c2hvdDI="];
     json_extra := json_extra Scenario.boom_report |}.

(** A second report that is thrown where the report of the scenarios
    is, on another line and with another message. *)
Definition boom_again : Report :=
  {| json_stacktrace :=
       [ {| message := "java.io.IOException: disk"; stacktrace := [] |};
         {| message := "java.lang.IllegalStateException: again";
            stacktrace :=
              [ {| className := "Foo"; methodName := "bar";
                   fileName := "Foo.java"; lineNumber := 40;
                   nativeMethod := false |};
                {| className := "Main"; methodName := "main";
                   fileName := "Main.java"; lineNumber := 3;
                   nativeMethod := false |} ] |} ];
     json_logs := None;
     json_screenshots := None;
     json_extra := [] |}.


End Cases.

(* ================================================================= *)
(** * Properties *)

(** ** Sanity checks of the embedding on concrete inputs *)

Example splitlines_ex :
  PyStr.splitlines
    ("a" ++ PyStr.chr PyChar.CR ++ PyStr.chr PyChar.LF ++ "b"
       ++ PyStr.chr PyChar.LF ++ PyStr.chr PyChar.LF ++ "c"
       ++ PyStr.chr PyChar.LF)
  = ["a"; "b"; ""; "c"].
Proof. vm_compute. reflexivity. Qed.

Example split_ex :
  PyStr.split "{noformat}" "a{noformat}b{noformat}" = ["a"; "b"; ""].
Proof. vm_compute. reflexivity. Qed.

Example str_of_Z_ex :
  (PyStr.str_of_Z 0, PyStr.str_of_Z 1204, PyStr.str_of_Z (-17))
  = ("0", "1204", "-17").
Proof. vm_compute. reflexivity. Qed.

Example slice_to_ex :
  (PyStr.slice_to (-2) "abcdef", PyStr.slice_to (-9) "abc",
   PyStr.slice_to 2 "abcdef")
  = ("abcd", "", "ab").
Proof. vm_compute. reflexivity. Qed.

Example regex_caused_by_ex :
  (Regex.matches REGEX_CAUSED_BY "Caused by: java.lang.Error",
   Regex.matches REGEX_CAUSED_BY "  ...CAUSED -- By x",
   Regex.matches REGEX_CAUSED_BY "causedby",
   Regex.matches REGEX_CAUSED_BY "x Caused by")
  = (true, true, false, false).
Proof. vm_compute. reflexivity. Qed.

Example regex_count_ex :
  (Regex.exec REGEX_COUNT "Count: 3",
   Regex.exec REGEX_COUNT "count: 1 COUNT:   52x",
   Regex.exec REGEX_COUNT "count:7",
   Regex.exec REGEX_COUNT "count: 12 count: x")
  = (Some ["3"], Some ["52"], None, Some ["12"]).
Proof. vm_compute. reflexivity. Qed.

Example sanitize_ex :
  (sanitize_jql_summary "Exception" "Error: can't parse [x]" false,
   sanitize_jql_summary "Exception" "a: b:  c : d" true,
   sanitize_jql_summary "Exception" "  too    many	 spaces  " true)
  = ("Error: cant parse x", "a: b", "too many spaces").
Proof. vm_compute. reflexivity. Qed.

Example latest_fix_version_ex :
  get_latest_fix_version
    [ {| name := "Sprint 9" |}; {| name := "Sprint 12" |};
      {| name := "Sprint 10" |} ]
  = Ok {| name := "Sprint 9" |}.
Proof. vm_compute. reflexivity. Qed.

Example first_line_ex :
  first_line_caused_by_from_printed_stacktrace
    ("Caused by: A" ++ PyStr.chr PyChar.LF
       ++ "java.lang.Error: boom" ++ PyStr.chr PyChar.LF)
  = Ok "java.lang.Error".
Proof. vm_compute. reflexivity. Qed.

Example resolve_boom :
  outcome
    (Scenario.resolve
       [ Scenario.filed "EX-7" "Closed"
           (get_stacktrace_from_message Scenario.boom_report)
           [ {| name := "Sprint 7" |}; {| name := "Sprint 6" |} ] ]
       Scenario.boom_report)
  = Ok (Duplicate "EX-7" "Closed"
          (Some ("Count: 3" ++ Scenario.nl ++ "Last: 2017-03-01 10:00:00"))
          "Sprint 7").
Proof. vm_compute. reflexivity. Qed.


(** ** Strings: the facts the proofs share *)

Module StrFacts.

Lemma app_nil_r (s : string) : s ++ "" = s.
Proof. induction s as [|c s IH]; simpl; [reflexivity | now rewrite IH]. Qed.

Lemma app_assoc (a b c : string) : (a ++ b) ++ c = a ++ (b ++ c).
Proof. induction a as [|x a IH]; simpl; [reflexivity | now rewrite IH]. Qed.

Lemma length_app (a b : string) :
  String.length (a ++ b) = (String.length a + String.length b)%nat.
Proof. induction a as [|x a IH]; simpl; [reflexivity | now rewrite IH]. Qed.

Lemma length_take (n : nat) (s : string) :
  String.length (PyStr.take n s) = Nat.min n (String.length s).
Proof.
  revert s; induction n as [|n IH]; intros [|c s]; simpl; auto.
Qed.

Lemma take_all (n : nat) (s : string) :
  (String.length s <= n)%nat -> PyStr.take n s = s.
Proof.
  revert s; induction n as [|n IH]; intros [|c s]; simpl; intros H;
    try reflexivity; try lia.
  now rewrite IH by lia.
Qed.

Lemma take_app (a b : string) : PyStr.take (String.length a) (a ++ b) = a.
Proof. induction a as [|x a IH]; simpl; [now destruct b | now rewrite IH]. Qed.

(** Whatever its bound, a slice [s[:k]] is a prefix of [s]. *)
Lemma slice_to_is_take (k : Z) (s : string) :
  exists n, PyStr.slice_to k s = PyStr.take n s.
Proof. unfold PyStr.slice_to; destruct (k <? 0); eauto. Qed.

Lemma slice_to_nonneg (k : Z) (s : string) :
  0 <= k -> PyStr.slice_to k s = PyStr.take (Z.to_nat k) s.
Proof.
  intros H; unfold PyStr.slice_to.
  destruct (Z.ltb_spec k 0); [lia | reflexivity].
Qed.

End StrFacts.

(* ================================================================= *)
(** ** Stack-trace extractor *)


Lemma write_lines_spec (output : string) (lines : list StackLine) :
  write_lines output lines
  = output
      ++ PyStr.join
           (List.map format_line
              (List.filter (fun l => negb (nativeMethod l)) lines)).
Proof.
  revert output; induction lines as [|l ls IH]; intros output;
    cbn [write_lines List.filter].
  - now rewrite StrFacts.app_nil_r.
  - destruct (nativeMethod l); cbn [negb List.map PyStr.join].
    + apply IH.
    + rewrite IH. apply StrFacts.app_assoc.
Qed.

Lemma write_traces_spec (output : string) (traces : list CauseFrame) :
  write_traces output traces
  = output ++ PyStr.join (List.map ExtractSpec.render_frame traces).
Proof.
  revert output; induction traces as [|t ts IH]; intros output;
    cbn [write_traces List.map PyStr.join].
  - now rewrite StrFacts.app_nil_r.
  - rewrite IH, write_lines_spec. unfold ExtractSpec.render_frame.
    change ExtractSpec.header_text with format_header.
    change ExtractSpec.line_text with format_line.
    now rewrite !StrFacts.app_assoc.
Qed.

Lemma filter_twice {A : Type} (p : A -> bool) (l : list A) :
  List.filter p (List.filter p l) = List.filter p l.
Proof.
  induction l as [|x l IH]; cbn [List.filter]; [reflexivity|].
  destruct (p x) eqn:E; cbn [List.filter]; [rewrite E, IH|]; auto.
Qed.

Lemma render_drop_native (json_data : Report) :
  ExtractSpec.render (ExtractSpec.drop_native json_data)
  = ExtractSpec.render json_data.
Proof.
  unfold ExtractSpec.render, ExtractSpec.drop_native.
  cbn [json_stacktrace]. rewrite List.map_map. f_equal.
  apply List.map_ext; intros t.
  unfold ExtractSpec.render_frame, ExtractSpec.header_text.
  cbn [message stacktrace]. now rewrite filter_twice.
Qed.

(** C5.  [get_stacktrace_from_message] renders the frames in their
    order, each as the header [Caused by: message] followed by one
    [\tat class.method(file:line)] line per stack line that is not
    native; native lines leave no trace in the output (removing them
    from the report does not change it); a report without frames gives
    the empty string, the report with the single frame
    "NullPointerException at Foo" and no stack line gives exactly the
    header line, and a report with two frames, the first with a native
    line among its two, gives two headers with one line each. *)
Theorem get_stacktrace_from_message_renders :
  (forall json_data,
      get_stacktrace_from_message json_data = ExtractSpec.render json_data)
  /\ (forall json_data,
         get_stacktrace_from_message (ExtractSpec.drop_native json_data)
         = get_stacktrace_from_message json_data)
  /\ (forall logs screenshots extra,
         get_stacktrace_from_message
           {| json_stacktrace := []; json_logs := logs;
              json_screenshots := screenshots; json_extra := extra |}
         = "")
  /\ get_stacktrace_from_message npe_report
     = "Caused by: NullPointerException at Foo" ++ PyStr.chr PyChar.LF
  /\ get_stacktrace_from_message two_frame_report
     = "Caused by: java.lang.IllegalStateException: boom"
         ++ PyStr.chr PyChar.LF
         ++ PyStr.chr PyChar.TAB ++ "at Foo.bar(Foo.java:12)"
         ++ PyStr.chr PyChar.LF
         ++ "Caused by: java.io.IOException: disk" ++ PyStr.chr PyChar.LF
         ++ PyStr.chr PyChar.TAB ++ "at Disk.read(Disk.java:7)"
         ++ PyStr.chr PyChar.LF.
Proof.
  assert (R : forall j, get_stacktrace_from_message j = ExtractSpec.render j).
  { intros j. unfold get_stacktrace_from_message.
    now rewrite write_traces_spec. }
  split; [exact R | split; [| split; [| split]]].
  - intros j. now rewrite !R, render_drop_native.
  - reflexivity.
  - reflexivity.
  - vm_compute. reflexivity.
Qed.

(* ================================================================= *)
(** ** Text sanitizer *)

Module SanitizeFacts.

Import SanitizeSpec.

Lemma filter_loop_spec (sanitized input : string) :
  filter_loop sanitized input = sanitized ++ remove_blacklisted input.
Proof.
  revert sanitized; induction input as [|c t IH]; intros acc;
    cbn [filter_loop remove_blacklisted].
  - now rewrite StrFacts.app_nil_r.
  - destruct (PyStr.mem c BLACKLISTED_CHARACTERS).
    + apply IH.
    + rewrite IH, StrFacts.app_assoc. reflexivity.
Qed.

Lemma filter_spec (input : string) :
  filter_out_blacklisted_characters input = remove_blacklisted input.
Proof. apply filter_loop_spec. Qed.

(** *** Whitespace *)

Lemma lstrip_re_sub (b : bool) (s : string) :
  PyStr.lstrip (re_sub_spaces b s) = re_sub_spaces false (PyStr.lstrip s).
Proof.
  revert b; induction s as [|c t IH]; intros b; [reflexivity|].
  cbn [re_sub_spaces PyStr.lstrip].
  destruct (PyChar.is_space c) eqn:E.
  - destruct b; [apply IH|].
    cbn [PyStr.lstrip]. change (PyChar.is_space " ") with true.
    cbn iota. apply IH.
  - cbn [PyStr.lstrip re_sub_spaces]. now rewrite E.
Qed.

Lemma words_lstrip (s : string) : words (PyStr.lstrip s) = words s.
Proof.
  induction s as [|c t IH]; [reflexivity|].
  cbn [PyStr.lstrip]. destruct (PyChar.is_space c) eqn:E.
  - rewrite IH. cbn [words]. now rewrite E.
  - reflexivity.
Qed.

Lemma lstrip_no_space (s : string) :
  starts_with_space (PyStr.lstrip s) = false.
Proof.
  induction s as [|c t IH]; [reflexivity|].
  cbn [PyStr.lstrip]. destruct (PyChar.is_space c) eqn:E; [exact IH|].
  exact E.
Qed.

Lemma words_nonempty_head (s : string) :
  match words s with
  | [] => True
  | w :: _ => w <> ""
  end.
Proof.
  induction s as [|c t IH]; cbn [words]; [exact I|].
  destruct (PyChar.is_space c); [exact IH|].
  destruct t as [|d t']; [discriminate|].
  destruct (PyChar.is_space d); [discriminate|].
  destruct (words (String d t')); discriminate.
Qed.

Lemma unwords_nonempty (l : list string) :
  match l with
  | [] => True
  | w :: _ => w <> "" -> unwords l <> ""
  end.
Proof.
  destruct l as [|w r]; [exact I|].
  intros H. cbn [unwords]. destruct r; [exact H|].
  destruct w; [contradiction | discriminate].
Qed.

Lemma unwords_words_nonempty (s : string) :
  words s <> [] -> unwords (words s) <> "".
Proof.
  intros H. pose proof (words_nonempty_head s) as Hw.
  pose proof (unwords_nonempty (words s)) as Hu.
  destruct (words s); [contradiction | auto].
Qed.

Lemma words_nil_no_start (c : ascii) (t : string) :
  PyChar.is_space c = false -> words (String c t) <> [].
Proof.
  intros E. cbn [words]. rewrite E.
  destruct t as [|d t']; [discriminate|].
  destruct (PyChar.is_space d); [discriminate|].
  destruct (words (String d t')); discriminate.
Qed.

(** What [rstrip] leaves of a text whose whitespace runs were
    replaced, in terms of its words. *)
Lemma rstrip_re_sub (b : bool) (s : string) :
  PyStr.rstrip (re_sub_spaces b s)
  = match words s with
    | [] => ""
    | ws => (if (starts_with_space s && negb b)%bool then " " else "")
              ++ unwords ws
    end.
Proof.
  revert b; induction s as [|c t IH]; intros b; [reflexivity|].
  cbn [re_sub_spaces starts_with_space].
  destruct (PyChar.is_space c) eqn:E.
  - replace (words (String c t)) with (words t)
      by (cbn [words]; now rewrite E).
    destruct b.
    + rewrite IH. cbn [andb negb].
      destruct (words t); [reflexivity|].
      now rewrite andb_false_r.
    + cbn [PyStr.rstrip]. rewrite IH. cbn [andb negb].
      rewrite andb_false_r.
      pose proof (unwords_words_nonempty t) as Hne.
      destruct (words t) as [|w r] eqn:W; [reflexivity|].
      cbn [append] in *.
      destruct (unwords (w :: r)) eqn:U; [exfalso; now apply Hne|].
      reflexivity.
  - cbn [PyStr.rstrip andb]. rewrite IH. cbn [negb].
    rewrite andb_true_r.
    pose proof (unwords_words_nonempty t) as Hne.
    pose proof (words_nil_no_start c t E) as Hc.
    cbn [words] in *. rewrite E in *.
    destruct t as [|d t']; [reflexivity|].
    cbn [starts_with_space].
    destruct (PyChar.is_space d) eqn:D.
    + destruct (words (String d t')) as [|w r] eqn:W; [reflexivity|].
      cbn [append unwords]. reflexivity.
    + destruct (words (String d t')) as [|w r] eqn:W.
      * exfalso. revert W. apply words_nil_no_start. exact D.
      * cbn [append].
        destruct (unwords (w :: r)) eqn:U; [exfalso; now apply Hne|].
        rewrite <- U. cbn [unwords]. destruct r; reflexivity.
Qed.

Lemma trim_whitespace_spec (s : string) :
  trim_whitespace s = collapse_whitespace s.
Proof.
  unfold trim_whitespace, PyStr.strip, collapse_whitespace.
  rewrite lstrip_re_sub, rstrip_re_sub, words_lstrip, lstrip_no_space.
  cbn [andb append]. now destruct (words s).
Qed.


(** *** Colons *)

Lemma split_at_first (c : ascii) (s : string) :
  (1 <= PyStr.count c s)%nat ->
  s = PyStr.before c s ++ String c (after c s).
Proof.
  induction s as [|d t IH]; cbn [PyStr.count PyStr.before after].
  - lia.
  - destruct (Ascii.eqb_spec d c) as [->|N]; intros H.
    + reflexivity.
    + cbn [append]. now rewrite <- IH.
Qed.

Lemma count_after (c : ascii) (s : string) :
  PyStr.count c (after c s) = (PyStr.count c s - 1)%nat.
Proof.
  induction s as [|d t IH]; cbn [PyStr.count after]; [reflexivity|].
  destruct (Ascii.eqb d c); [lia | exact IH].
Qed.

Lemma count_before (c : ascii) (s : string) :
  PyStr.count c (PyStr.before c s) = 0%nat.
Proof.
  induction s as [|d t IH]; cbn [PyStr.count PyStr.before]; [reflexivity|].
  destruct (Ascii.eqb d c) eqn:E; [reflexivity|].
  cbn [PyStr.count]. now rewrite E.
Qed.

Lemma count_app (c : ascii) (a b : string) :
  PyStr.count c (a ++ b) = (PyStr.count c a + PyStr.count c b)%nat.
Proof.
  induction a as [|d t IH]; cbn [PyStr.count append]; [reflexivity|].
  destruct (Ascii.eqb d c); lia.
Qed.

Lemma find_from_spec (c : ascii) (pos : Z) (s : string) :
  (1 <= PyStr.count c s)%nat ->
  PyStr.find_from c pos s = pos + PyStr.len (PyStr.before c s).
Proof.
  unfold PyStr.len.
  revert pos; induction s as [|d t IH]; intros pos;
    cbn [PyStr.count PyStr.find_from PyStr.before].
  - lia.
  - destruct (Ascii.eqb d c); intros H.
    + cbn [String.length]. lia.
    + rewrite IH by exact H. cbn [String.length]. lia.
Qed.

Lemma drop_past_first (c : ascii) (s : string) :
  (1 <= PyStr.count c s)%nat ->
  PyStr.drop (S (String.length (PyStr.before c s))) s = after c s.
Proof.
  induction s as [|d t IH]; cbn [PyStr.count PyStr.before after].
  - lia.
  - destruct (Ascii.eqb d c); intros H.
    + cbn [String.length PyStr.drop]. now destruct t.
    + cbn [String.length PyStr.drop]. now apply IH.
Qed.

(** The slice the source takes for a query is the text before the
    second colon. *)
Lemma cut_at_second_colon (s : string) :
  (2 <= PyStr.count ":" s)%nat ->
  PyStr.slice_to (PyStr.find ":" (PyStr.find ":" 0 s + 1) s) s
  = before_second_colon s.
Proof.
  intros H. unfold PyStr.find at 2. cbn [Z.to_nat PyStr.drop].
  rewrite find_from_spec by lia.
  unfold PyStr.find, PyStr.len.
  replace (Z.to_nat (0 + Z.of_nat (String.length (PyStr.before ":" s)) + 1))
    with (S (String.length (PyStr.before ":" s))) by lia.
  rewrite drop_past_first by lia.
  rewrite find_from_spec by (rewrite count_after; lia).
  rewrite StrFacts.slice_to_nonneg by (unfold PyStr.len; lia).
  unfold before_second_colon, PyStr.len.
  set (a := PyStr.before ":" s).
  set (b := PyStr.before ":" (after ":" s)).
  assert (Hs : s = (a ++ String ":" b)
                     ++ String ":" (after ":" (after ":" s))).
  { rewrite StrFacts.app_assoc. cbn [append].
    subst a b. rewrite <- split_at_first by (rewrite count_after; lia).
    apply split_at_first. lia. }
  rewrite Hs at 1.
  replace (Z.to_nat _) with (String.length (a ++ String ":" b)).
  - apply StrFacts.take_app.
  - rewrite StrFacts.length_app. cbn [String.length]. lia.
Qed.

Lemma count_before_second_colon (s : string) :
  PyStr.count ":" (before_second_colon s) = 1%nat.
Proof.
  unfold before_second_colon.
  rewrite count_app. cbn [PyStr.count].
  change (Ascii.eqb ":" ":") with true. cbn iota.
  now rewrite !count_before.
Qed.

(** *** Length *)

Lemma trim_length_spec (input : string) (m : Z) :
  0 <= m -> trim_length input m = truncate (Z.to_nat m) input.
Proof.
  intros H. unfold trim_length, truncate, PyStr.len.
  destruct (Z.gtb_spec (Z.of_nat (String.length input)) m).
  - now apply StrFacts.slice_to_nonneg.
  - symmetry. apply StrFacts.take_all. lia.
Qed.

Lemma max_length_nonneg (title : string) :
  (String.length title <= 253)%nat ->
  0 <= max_length title
  /\ Z.to_nat (max_length title) = (255 - String.length title - 2)%nat.
Proof.
  unfold max_length, MAX_SUMMARY_LENGTH, PyStr.len. lia.
Qed.


Lemma tidy_re_sub (b : bool) (x : string) :
  tidy_from b (re_sub_spaces b (remove_blacklisted x)) = true.
Proof.
  revert b; induction x as [|c t IH]; intros b; [reflexivity|].
  cbn [remove_blacklisted].
  destruct (PyStr.mem c BLACKLISTED_CHARACTERS) eqn:B; [apply IH|].
  cbn [re_sub_spaces]. destruct (PyChar.is_space c) eqn:E.
  - destruct b; [apply IH|].
    cbn [tidy_from]. change (PyChar.is_space " ") with true.
    cbn iota. rewrite IH. reflexivity.
  - cbn [tidy_from]. now rewrite E, B, IH.
Qed.

Lemma tidy_lstrip (b : bool) (s : string) :
  tidy_from b s = true -> tidy (PyStr.lstrip s) = true.
Proof.
  unfold tidy.
  revert b; induction s as [|c t IH]; intros b; [reflexivity|].
  cbn [tidy_from PyStr.lstrip]. destruct (PyChar.is_space c) eqn:E.
  - intros H. apply andb_prop in H as [_ H]. now apply (IH true).
  - intros H. cbn [tidy_from]. now rewrite E.
Qed.

Lemma tidy_take (b : bool) (n : nat) (s : string) :
  tidy_from b s = true -> tidy_from b (PyStr.take n s) = true.
Proof.
  revert b s; induction n as [|n IH]; intros b [|c t];
    try reflexivity.
  cbn [tidy_from PyStr.take]. destruct (PyChar.is_space c).
  - intros H. apply andb_prop in H as [H1 H2].
    rewrite H1. cbn [andb]. now apply IH.
  - intros H. apply andb_prop in H as [H1 H2].
    rewrite H1. cbn [andb]. now apply IH.
Qed.

Lemma rstrip_is_take (s : string) :
  exists n, PyStr.rstrip s = PyStr.take n s.
Proof.
  induction s as [|c t [n IH]]; [now exists 0%nat|].
  cbn [PyStr.rstrip]. destruct (PyStr.rstrip t) as [|d r] eqn:R.
  - destruct (PyChar.is_space c); [now exists 0%nat|].
    exists 1%nat. cbn [PyStr.take]. now destruct t.
  - exists (S n). cbn [PyStr.take]. now rewrite <- IH.
Qed.

Lemma tidy_rstrip (b : bool) (s : string) :
  tidy_from b s = true -> tidy_from b (PyStr.rstrip s) = true.
Proof.
  destruct (rstrip_is_take s) as [n ->]. apply tidy_take.
Qed.

Lemma tidy_slice_to (b : bool) (k : Z) (s : string) :
  tidy_from b s = true -> tidy_from b (PyStr.slice_to k s) = true.
Proof.
  destruct (StrFacts.slice_to_is_take k s) as [n ->]. apply tidy_take.
Qed.

Lemma tidy_trim_length (s : string) (m : Z) :
  tidy s = true -> tidy (trim_length s m) = true.
Proof.
  unfold trim_length, tidy. destruct (PyStr.len s >? m); [|auto].
  apply tidy_slice_to.
Qed.

Lemma tidy_sanitize (title raw : string) (f : bool) :
  tidy (sanitize_jql_summary title raw f) = true.
Proof.
  unfold sanitize_jql_summary.
  set (s := trim_length _ _).
  assert (Hs : tidy s = true).
  { subst s. apply tidy_trim_length.
    unfold trim_whitespace, PyStr.strip. apply tidy_rstrip.
    rewrite filter_spec.
    apply (tidy_lstrip false). apply tidy_re_sub. }
  destruct (f && _)%bool; [|exact Hs].
  now apply tidy_slice_to.
Qed.

(** *** A tidy text goes through the first two steps unchanged, but
    for a space at its end *)

Lemma space_not_blacklisted (c : ascii) :
  Ascii.eqb c " " = true -> PyStr.mem c BLACKLISTED_CHARACTERS = false.
Proof. intros H. apply Ascii.eqb_eq in H. now subst c. Qed.

Lemma tidy_remove_blacklisted (b : bool) (s : string) :
  tidy_from b s = true -> remove_blacklisted s = s.
Proof.
  revert b; induction s as [|c t IH]; intros b; [reflexivity|].
  cbn [tidy_from remove_blacklisted].
  destruct (PyChar.is_space c); intros H;
    apply andb_prop in H as [H1 H2].
  - apply andb_prop in H1 as [H1 _].
    rewrite (space_not_blacklisted c H1). now rewrite (IH true).
  - apply negb_true_iff in H1. rewrite H1. now rewrite (IH false).
Qed.

Lemma tidy_re_sub_id (b : bool) (s : string) :
  tidy_from b s = true ->
  re_sub_spaces false s = s /\ (b = true -> re_sub_spaces true s = s).
Proof.
  revert b; induction s as [|c t IH]; intros b; [now split|].
  cbn [tidy_from re_sub_spaces].
  destruct (PyChar.is_space c); intros H;
    apply andb_prop in H as [H1 H2].
  - apply andb_prop in H1 as [H1 H3].
    apply Ascii.eqb_eq in H1. subst c.
    apply negb_true_iff in H3. subst b.
    destruct (IH true H2) as [_ IHt]. rewrite IHt by reflexivity.
    split; [reflexivity | discriminate].
  - destruct (IH false H2) as [IHf _]. rewrite IHf. now split.
Qed.

Lemma tidy_lstrip_id (s : string) :
  tidy s = true -> PyStr.lstrip s = s.
Proof.
  unfold tidy. destruct s as [|c t]; [reflexivity|].
  cbn [tidy_from PyStr.lstrip]. destruct (PyChar.is_space c); [|reflexivity].
  rewrite andb_false_r. discriminate.
Qed.

Lemma tidy_trim_whitespace (s : string) :
  tidy s = true -> trim_whitespace s = PyStr.rstrip s.
Proof.
  intros H. unfold trim_whitespace, PyStr.strip.
  destruct (tidy_re_sub_id true s H) as [-> _].
  now rewrite tidy_lstrip_id.
Qed.

Lemma length_rstrip (s : string) :
  (String.length (PyStr.rstrip s) <= String.length s)%nat.
Proof.
  destruct (rstrip_is_take s) as [n ->].
  rewrite StrFacts.length_take. lia.
Qed.

Lemma space_not_colon (c : ascii) :
  PyChar.is_space c = true -> Ascii.eqb c ":" = false.
Proof.
  intros H. destruct (Ascii.eqb_spec c ":") as [->|]; [discriminate H|].
  reflexivity.
Qed.

Lemma count_cons (c d : ascii) (t : string) :
  PyStr.count c (String d t)
  = ((if Ascii.eqb d c then 1 else 0) + PyStr.count c t)%nat.
Proof. cbn [PyStr.count]. now destruct (Ascii.eqb d c). Qed.

Lemma count_colon_rstrip (s : string) :
  PyStr.count ":" (PyStr.rstrip s) = PyStr.count ":" s.
Proof.
  induction s as [|c t IH]; [reflexivity|].
  cbn [PyStr.rstrip]. rewrite (count_cons ":" c t), <- IH.
  destruct (PyStr.rstrip t) as [|d r] eqn:R.
  - destruct (PyChar.is_space c) eqn:E.
    + now rewrite (space_not_colon c E).
    + unfold PyStr.chr. now rewrite count_cons.
  - now rewrite count_cons.
Qed.

Lemma rstrip_fixed (s : string) :
  ends_with_space s = false -> PyStr.rstrip s = s.
Proof.
  induction s as [|c t IH]; [reflexivity|].
  cbn [ends_with_space PyStr.rstrip]. destruct t as [|d t'].
  - intros ->. reflexivity.
  - intros H. now rewrite (IH H).
Qed.

(** *** Length of a sanitized summary *)

Lemma length_trim_length (s : string) (m : Z) :
  0 <= m -> PyStr.len (trim_length s m) <= m.
Proof.
  intros H. unfold trim_length.
  destruct (Z.gtb_spec (PyStr.len s) m); [|assumption].
  rewrite StrFacts.slice_to_nonneg by exact H.
  unfold PyStr.len. rewrite StrFacts.length_take. lia.
Qed.

Lemma trim_length_fits (s : string) (m : Z) :
  PyStr.len s <= m -> trim_length s m = s.
Proof.
  intros H. unfold trim_length.
  destruct (Z.gtb_spec (PyStr.len s) m); [lia | reflexivity].
Qed.

Lemma length_slice_to (k : Z) (s : string) :
  PyStr.len (PyStr.slice_to k s) <= PyStr.len s.
Proof.
  destruct (StrFacts.slice_to_is_take k s) as [n ->].
  unfold PyStr.len. rewrite StrFacts.length_take. lia.
Qed.

Lemma length_sanitize (title raw : string) (f : bool) :
  0 <= max_length title ->
  PyStr.len (sanitize_jql_summary title raw f) <= max_length title.
Proof.
  intros H. unfold sanitize_jql_summary.
  set (s := trim_length _ _).
  assert (Hs : PyStr.len s <= max_length title)
    by (subst s; now apply length_trim_length).
  destruct (f && _)%bool; [|exact Hs].
  pose proof (length_slice_to
                (PyStr.find ":" (PyStr.find ":" 0 s + 1) s) s). lia.
Qed.

Lemma count_colon_sanitize (title raw : string) :
  (PyStr.count ":" (sanitize_jql_summary title raw true) < 2)%nat.
Proof.
  unfold sanitize_jql_summary.
  set (s := trim_length _ _). cbn [andb].
  destruct (Nat.leb_spec 2 (PyStr.count ":" s)) as [H|H]; [|exact H].
  rewrite cut_at_second_colon by exact H.
  rewrite count_before_second_colon. lia.
Qed.

End SanitizeFacts.

(** C7.  With a title prefix that leaves room for a summary (at most
    253 characters), [sanitize_jql_summary] is the composition, in this
    order, of: removal of the blacklisted characters; whitespace runs
    collapsed to one space, none left at the ends; truncation to
    [MAX_SUMMARY_LENGTH - len(prefix) - 2] characters; and, for a query
    whose text has two colons or more, truncation just before the
    second colon.  When the prefix leaves room for its nineteen
    characters, the summary [Error: can't parse [x]] becomes
    [Error: cant parse x]. *)
Theorem sanitize_jql_summary_steps (JIRA_ISSUE_TITLE : string) :
  (String.length JIRA_ISSUE_TITLE <= 253)%nat ->
  (forall raw trim_for_query,
      sanitize_jql_summary JIRA_ISSUE_TITLE raw trim_for_query
      = SanitizeSpec.sanitize JIRA_ISSUE_TITLE raw trim_for_query)
  /\ ((String.length JIRA_ISSUE_TITLE <= 234)%nat ->
      sanitize_jql_summary JIRA_ISSUE_TITLE "Error: can't parse [x]" false
      = "Error: cant parse x").
Proof.
  intros Hlen.
  destruct (SanitizeFacts.max_length_nonneg JIRA_ISSUE_TITLE Hlen)
    as [H0 Hn].
  assert (E : forall raw f,
             sanitize_jql_summary JIRA_ISSUE_TITLE raw f
             = SanitizeSpec.sanitize JIRA_ISSUE_TITLE raw f).
  { intros raw f. unfold sanitize_jql_summary, SanitizeSpec.sanitize.
    rewrite SanitizeFacts.filter_spec, SanitizeFacts.trim_whitespace_spec,
      SanitizeFacts.trim_length_spec, Hn by exact H0.
    set (s := SanitizeSpec.truncate _ _).
    destruct f; cbn [andb]; [|reflexivity].
    destruct (Nat.leb_spec 2 (PyStr.count ":" s)); [|reflexivity].
    now apply SanitizeFacts.cut_at_second_colon. }
  split; [exact E|].
  intros Hroom. rewrite E. unfold SanitizeSpec.sanitize.
  change (SanitizeSpec.collapse_whitespace
            (SanitizeSpec.remove_blacklisted "Error: can't parse [x]"))
    with "Error: cant parse x".
  cbn [andb]. unfold SanitizeSpec.truncate.
  apply StrFacts.take_all. cbn [String.length]. lia.
Qed.

Lemma sanitize_jql_summary_steps_witness :
  (String.length "Exception" <= 253)%nat
  /\ (String.length "Exception" <= 234)%nat
  /\ sanitize_jql_summary "Exception" "Error: can't parse [x]" false
     = "Error: cant parse x".
Proof.
  assert (H253 : (String.length "Exception" <= 253)%nat) by (cbn; lia).
  assert (H234 : (String.length "Exception" <= 234)%nat) by (cbn; lia).
  split; [exact H253 | split; [exact H234|]].
  exact (proj2 (sanitize_jql_summary_steps "Exception" H253) H234).
Defined.

(** C8, as the code has it.  With a title prefix of at most 253
    characters, sanitizing a sanitized summary again removes the space
    a truncation may have left at its end and nothing else; so the
    second pass returns its input whenever that does not end in a
    space. *)
Theorem sanitize_jql_summary_twice (JIRA_ISSUE_TITLE : string) :
  (String.length JIRA_ISSUE_TITLE <= 253)%nat ->
  forall raw trim_for_query,
    let once := sanitize_jql_summary JIRA_ISSUE_TITLE raw trim_for_query in
    sanitize_jql_summary JIRA_ISSUE_TITLE once trim_for_query
    = PyStr.rstrip once
    /\ (SanitizeSpec.ends_with_space once = false ->
        sanitize_jql_summary JIRA_ISSUE_TITLE once trim_for_query = once).
Proof.
  intros Hlen raw f once.
  destruct (SanitizeFacts.max_length_nonneg JIRA_ISSUE_TITLE Hlen)
    as [H0 _].
  assert (Htidy : SanitizeSpec.tidy once = true)
    by apply SanitizeFacts.tidy_sanitize.
  assert (Hfit : PyStr.len once <= max_length JIRA_ISSUE_TITLE)
    by now apply SanitizeFacts.length_sanitize.
  assert (E : sanitize_jql_summary JIRA_ISSUE_TITLE once f
              = PyStr.rstrip once).
  { unfold sanitize_jql_summary at 1.
    rewrite SanitizeFacts.filter_spec,
      (SanitizeFacts.tidy_remove_blacklisted true once Htidy),
      (SanitizeFacts.tidy_trim_whitespace once Htidy).
    rewrite SanitizeFacts.trim_length_fits.
    - destruct f; cbn [andb]; [|reflexivity].
      rewrite SanitizeFacts.count_colon_rstrip.
      pose proof (SanitizeFacts.count_colon_sanitize JIRA_ISSUE_TITLE raw)
        as Hc.
      fold once in Hc.
      destruct (Nat.leb_spec 2 (PyStr.count ":" once)); [lia | reflexivity].
    - pose proof (SanitizeFacts.length_rstrip once).
      unfold PyStr.len in *. lia. }
  split; [exact E|].
  intros Hend. rewrite E. now apply SanitizeFacts.rstrip_fixed.
Qed.

Lemma sanitize_jql_summary_twice_witness :
  (String.length "Exception" <= 253)%nat
  /\ sanitize_jql_summary "Exception"
       (sanitize_jql_summary "Exception" "Error: can't parse [x]" false)
       false
     = sanitize_jql_summary "Exception" "Error: can't parse [x]" false.
Proof.
  assert (H253 : (String.length "Exception" <= 253)%nat) by (cbn; lia).
  split; [exact H253|].
  exact (proj2 (sanitize_jql_summary_twice "Exception" H253
                  "Error: can't parse [x]" false) eq_refl).
Defined.

(** Whatever the title prefix, as long as it leaves room for four
    characters, the query form of [a:b :c] is [a:b] followed by a
    space, which a second pass strips. *)
Lemma sanitize_query_leaves_space (title : string) :
  (String.length title <= 247)%nat ->
  sanitize_jql_summary title "a:b :c" true = "a:b "
  /\ sanitize_jql_summary title "a:b " true = "a:b".
Proof.
  intros H.
  assert (Hm : 6 <= max_length title)
    by (unfold max_length, MAX_SUMMARY_LENGTH, PyStr.len; lia).
  unfold sanitize_jql_summary.
  change (trim_whitespace (filter_out_blacklisted_characters "a:b :c"))
    with "a:b :c".
  change (trim_whitespace (filter_out_blacklisted_characters "a:b "))
    with "a:b".
  rewrite !SanitizeFacts.trim_length_fits
    by (unfold PyStr.len; cbn [String.length]; lia).
  split; reflexivity.
Qed.

(** C8 fails as stated: the sanitizer is not idempotent. *)
Lemma sanitize_jql_summary_not_idempotent :
  sanitize_jql_summary "Exception"
    (sanitize_jql_summary "Exception" "a:b :c" true) true
  <> sanitize_jql_summary "Exception" "a:b :c" true.
Proof.
  assert (H : (String.length "Exception" <= 247)%nat) by (cbn; lia).
  destruct (sanitize_query_leaves_space "Exception" H) as [E1 E2].
  rewrite E1, E2. discriminate.
Qed.

(* ================================================================= *)
(** ** Summary extraction *)

Lemma getitem_last {A : Type} (l : list A) (a : A) :
  getitem_py (l ++ [a]) (Z.of_nat (List.length (l ++ [a])) - 1) = Ok a.
Proof.
  rewrite List.length_app. cbn [List.length].
  unfold getitem_py, getitem.
  replace (Z.of_nat (List.length l + 1) - 1) with (Z.of_nat (List.length l))
    by lia.
  destruct (Z.ltb_spec (Z.of_nat (List.length l)) 0); [lia|].
  rewrite Nat2Z.id, List.nth_error_app2, Nat.sub_diag by lia.
  reflexivity.
Qed.

(** C2, as the code has it.  [get_summary_from_message] returns the
    message of the last cause frame; on a report without cause frames
    it raises [IndexError], which is not the module's [InternalError]
    and which the route does not handle: the request ends with that
    exception, before any call to the tracker. *)
Theorem get_summary_from_message_last :
  (forall frames last logs screenshots extra,
      get_summary_from_message
        {| json_stacktrace := frames ++ [last]; json_logs := logs;
           json_screenshots := screenshots; json_extra := extra |}
      = Ok (message last))
  /\ (forall logs screenshots extra,
         get_summary_from_message
           {| json_stacktrace := []; json_logs := logs;
              json_screenshots := screenshots; json_extra := extra |}
         = Raise IndexError)
  /\ (forall title project ratio real_quick_ratio now b64decode limit jira
             logs screenshots extra,
         receive_exception title project ratio real_quick_ratio now
           b64decode limit jira
           (PostJson {| json_stacktrace := []; json_logs := logs;
                        json_screenshots := screenshots;
                        json_extra := extra |})
         = ([], Raise IndexError)).
Proof.
  split; [|split].
  - intros. unfold get_summary_from_message. cbn [json_stacktrace].
    now rewrite getitem_last.
  - reflexivity.
  - reflexivity.
Qed.

(** C2 fails as stated: the empty report does not end in
    [InternalError]. *)
Lemma get_summary_from_message_empty_not_InternalError :
  ~ (forall json_data,
        json_stacktrace json_data = [] ->
        exists msg,
          get_summary_from_message json_data = Raise (InternalError msg)).
Proof.
  intros H.
  destruct (H {| json_stacktrace := []; json_logs := None;
                 json_screenshots := None; json_extra := [] |} eq_refl)
    as [msg Hmsg].
  discriminate Hmsg.
Qed.

(* ================================================================= *)
(** ** Computations that talk to the tracker *)

Lemma outcome_bind_Ok {A B : Type} (m : M A) (f : A -> M B) (b : B) :
  outcome (bind m f) = Ok b ->
  exists a, outcome m = Ok a /\ outcome (f a) = Ok b.
Proof.
  unfold outcome, bind. destruct m as [log [a|e]].
  - destruct (f a) as [log' r] eqn:E. cbn [snd]. intros ->.
    exists a. rewrite E. now split.
  - discriminate.
Qed.

Lemma outcome_lift {A : Type} (r : result A) : outcome (lift r) = r.
Proof. reflexivity. Qed.

Lemma rbind_Ok {A B : Type} (m : result A) (f : A -> result B) (b : B) :
  rbind m f = Ok b -> exists a, m = Ok a /\ f a = Ok b.
Proof. destruct m as [a|e]; cbn [rbind]; [eauto | discriminate]. Qed.

(* ================================================================= *)
(** ** Throw location *)

Lemma last_causedby_loop_snoc (loc i : Z) (lines : list string)
    (l : string) :
  last_causedby_loop loc i (lines ++ [l])
  = if Regex.matches REGEX_CAUSED_BY l
    then i + Z.of_nat (List.length lines)
    else last_causedby_loop loc i lines.
Proof.
  revert loc i; induction lines as [|x xs IH]; intros loc i.
  - cbn [List.app last_causedby_loop List.length].
    destruct (Regex.matches REGEX_CAUSED_BY l); [lia | reflexivity].
  - cbn [List.app last_causedby_loop]. rewrite IH.
    destruct (Regex.matches REGEX_CAUSED_BY l); [|reflexivity].
    cbn [List.length]. lia.
Qed.

Lemma getitem_past_end {A : Type} (l : list A) (i : Z) :
  Z.of_nat (List.length l) <= i -> getitem_py l i = Raise IndexError.
Proof.
  intros H. unfold getitem_py, getitem.
  destruct (Z.ltb_spec i 0); [lia|].
  destruct (nth_error l (Z.to_nat i)) eqn:E; [|reflexivity].
  assert (Hlt : (Z.to_nat i < List.length l)%nat)
    by (apply List.nth_error_Some; congruence).
  lia.
Qed.

Lemma getitem_py_raises {A : Type} (l : list A) (i : Z) (e : exn) :
  getitem_py l i = Raise e -> e = IndexError.
Proof.
  unfold getitem_py, getitem.
  destruct (i <? 0).
  - destruct (_ <? 0); [congruence|].
    destruct (nth_error _ _); congruence.
  - destruct (nth_error _ _); congruence.
Qed.

Lemma first_line_raises (s : string) (e : exn) :
  first_line_caused_by_from_printed_stacktrace s = Raise e ->
  e = IndexError.
Proof.
  unfold first_line_caused_by_from_printed_stacktrace.
  destruct (getitem_py _ _) eqn:E; cbn [rbind]; [discriminate|].
  intros [= <-]. eapply getitem_py_raises; eassumption.
Qed.

Lemma matches_throw_location_raises (a b : string) :
  first_line_caused_by_from_printed_stacktrace a = Raise IndexError
  \/ first_line_caused_by_from_printed_stacktrace b = Raise IndexError ->
  matches_exception_throw_location a b = Raise IndexError.
Proof.
  unfold matches_exception_throw_location.
  intros [H|H].
  - now rewrite H.
  - destruct (first_line_caused_by_from_printed_stacktrace a) eqn:E;
      cbn [rbind].
    + now rewrite H.
    + f_equal. eapply first_line_raises; eassumption.
Qed.

(* ================================================================= *)
(** ** Duplicate resolver *)

Lemma Qgtb_lt (a b : Q) : Qgtb a b = true <-> (b < a)%Q.
Proof.
  unfold Qgtb. rewrite negb_true_iff.
  split; intros H.
  - apply Qnot_le_lt. intros Hle. apply Qle_bool_iff in Hle. congruence.
  - destruct (Qle_bool a b) eqn:E; [|reflexivity].
    apply Qle_bool_iff in E. exfalso. now apply (Qlt_not_le b a).
Qed.

Lemma nonempty_len (s : string) : (0 <? PyStr.len s) = true <-> s <> "".
Proof.
  unfold PyStr.len. destruct s; cbn [String.length].
  - split; [discriminate | congruence].
  - split; [discriminate | intros _; apply Z.ltb_lt; lia].
Qed.

Section Guard.

Variables ratio real_quick_ratio : string -> string -> Q.

Local Abbreviation is_match' := (is_match ratio real_quick_ratio).
Local Abbreviation determine_loop' := (determine_loop ratio real_quick_ratio).
Local Abbreviation match_ratio' := (match_ratio ratio real_quick_ratio).

Lemma match_ratio_gt (a b : string) (q : Q) :
  (0 <= q)%Q ->
  (q < match_ratio' a b)%Q ->
  (6 # 10 < real_quick_ratio a b)%Q /\ (q < ratio a b)%Q.
Proof.
  unfold match_ratio. intros Hq.
  destruct (Qgtb (real_quick_ratio a b) (6 # 10)) eqn:E.
  - apply Qgtb_lt in E. now split.
  - intros H. exfalso. now apply (Qlt_not_le q 0).
Qed.

(** The guard of the loop holds exactly when the three conditions
    do. *)
Lemma is_match_true (new_stacktrace : string) (issue : Issue) :
  let issue_stacktrace := get_stacktrace_from_issue issue in
  let new_trimmed :=
    new_trimmed_stacktrace new_stacktrace issue_stacktrace in
  is_match' new_stacktrace issue = Ok true
  <-> issue_stacktrace <> ""
      /\ (7 # 10 < match_ratio' new_trimmed issue_stacktrace)%Q
      /\ matches_exception_throw_location new_trimmed issue_stacktrace
         = Ok true.
Proof.
  intros st tr. unfold is_match. fold st. fold tr.
  destruct (0 <? PyStr.len st) eqn:L; cbn [negb].
  - apply nonempty_len in L.
    destruct (Qgtb (match_ratio' tr st) (7 # 10)) eqn:G; cbn [negb].
    + apply Qgtb_lt in G. tauto.
    + split; [discriminate|]. intros (_ & H & _).
      apply Qgtb_lt in H. congruence.
  - split; [discriminate|]. intros (H & _).
    apply nonempty_len in H. congruence.
Qed.

(** Each of the three conditions, when it fails, makes the guard
    false. *)
Lemma is_match_false (new_stacktrace : string) (issue : Issue) :
  let issue_stacktrace := get_stacktrace_from_issue issue in
  let new_trimmed :=
    new_trimmed_stacktrace new_stacktrace issue_stacktrace in
  issue_stacktrace = ""
  \/ (match_ratio' new_trimmed issue_stacktrace <= 7 # 10)%Q
  \/ matches_exception_throw_location new_trimmed issue_stacktrace
     = Ok false ->
  is_match' new_stacktrace issue = Ok false.
Proof.
  intros st tr. unfold is_match. fold st. fold tr.
  intros [H | [H | H]].
  - rewrite H. reflexivity.
  - destruct (0 <? PyStr.len st); cbn [negb]; [|reflexivity].
    unfold Qgtb. apply Qle_bool_iff in H. now rewrite H.
  - destruct (0 <? PyStr.len st); cbn [negb]; [|reflexivity].
    destruct (Qgtb _ _); cbn [negb]; [exact H | reflexivity].
Qed.

(** A positive verdict comes from the first issue of the list that
    passes the guard, and carries its fields. *)
Lemma determine_loop_Duplicate (new_stacktrace : string)
    (issue_list : list Issue) (k st : string) (env : option string)
    (fv : string) :
  determine_loop' new_stacktrace issue_list = Ok (Duplicate k st env fv) ->
  exists before issue after latest,
    issue_list = (before ++ issue :: after)%list
    /\ Forall (fun i => is_match' new_stacktrace i = Ok false) before
    /\ is_match' new_stacktrace issue = Ok true
    /\ get_latest_fix_version (fixVersions issue) = Ok latest
    /\ k = key issue /\ st = status_name issue
    /\ env = environment issue /\ fv = name latest.
Proof.
  induction issue_list as [|i rest IH]; cbn [determine_loop].
  - discriminate.
  - intros H. apply rbind_Ok in H as [[|] [Hm H]].
    + apply rbind_Ok in H as [latest [Hl H]].
      injection H as <- <- <- <-.
      exists [], i, rest, latest. repeat split; auto.
    + destruct (IH H) as (b & j & a & latest & -> & Hb & Hrest).
      exists (i :: b), j, a, latest. split; [reflexivity|].
      split; [constructor; assumption | exact Hrest].
Qed.

Lemma determine_loop_skip (new_stacktrace : string)
    (before rest : list Issue) :
  Forall (fun i => is_match' new_stacktrace i = Ok false) before ->
  determine_loop' new_stacktrace (before ++ rest)
  = determine_loop' new_stacktrace rest.
Proof.
  induction 1 as [|i b Hi Hb IH]; [reflexivity|].
  cbn [List.app determine_loop]. rewrite Hi. cbn [rbind]. exact IH.
Qed.

End Guard.

Section Resolver.

Variables JIRA_ISSUE_TITLE JIRA_PROJECT : string.
Variables ratio real_quick_ratio : string -> string -> Q.
Variable recursion_limit : nat.
Variable jira : Tracker.

Local Abbreviation determine_loop' := (determine_loop ratio real_quick_ratio).

(** Once the summary is read and the search has returned, the
    verdict is that of the loop over the issues found. *)
Lemma determine_if_duplicate_outcome (json_data : Report)
    (summary : string) (issue_list : list Issue) :
  get_summary_from_message json_data = Ok summary ->
  outcome (find_existing_jira_issues JIRA_ISSUE_TITLE JIRA_PROJECT jira
             recursion_limit summary 0) = Ok issue_list ->
  outcome (determine_if_duplicate JIRA_ISSUE_TITLE JIRA_PROJECT ratio
             real_quick_ratio recursion_limit jira json_data)
  = determine_loop' (get_stacktrace_from_message json_data) issue_list.
Proof.
  intros Hs Hf. unfold determine_if_duplicate. rewrite Hs.
  unfold lift at 1. cbn [bind].
  destruct (find_existing_jira_issues _ _ _ _ _ _) as [log r].
  cbn [outcome snd] in Hf. subst r. reflexivity.
Qed.

Lemma determine_if_duplicate_Ok (json_data : Report) (v : Verdict) :
  outcome (determine_if_duplicate JIRA_ISSUE_TITLE JIRA_PROJECT ratio
             real_quick_ratio recursion_limit jira json_data) = Ok v ->
  exists summary issue_list,
    get_summary_from_message json_data = Ok summary
    /\ outcome (find_existing_jira_issues JIRA_ISSUE_TITLE JIRA_PROJECT
                  jira recursion_limit summary 0) = Ok issue_list
    /\ determine_loop' (get_stacktrace_from_message json_data) issue_list
       = Ok v.
Proof.
  unfold determine_if_duplicate. intros H.
  apply outcome_bind_Ok in H as [summary [Hs H]].
  apply outcome_bind_Ok in H as [issue_list [Hf H]].
  exists summary, issue_list. auto.
Qed.

End Resolver.

(** C1.  When [determine_if_duplicate] returns a positive verdict, the
    verdict is for an issue the search returned whose embedded stack
    trace is not empty, whose similarity ratio with the trimmed new
    trace is strictly above 0.7, and whose throw location is that of
    the trimmed new trace.  An empty stored trace, a ratio of at most
    0.7, or a throw-location mismatch each makes the guard false for
    that issue; when every issue found fails in one of these ways the
    verdict is negative. *)
Theorem determine_if_duplicate_match_conditions
    (JIRA_ISSUE_TITLE JIRA_PROJECT : string)
    (ratio real_quick_ratio : string -> string -> Q)
    (recursion_limit : nat) (jira : Tracker) (json_data : Report) :
  (forall k st env fv,
      outcome (determine_if_duplicate JIRA_ISSUE_TITLE JIRA_PROJECT ratio
                 real_quick_ratio recursion_limit jira json_data)
      = Ok (Duplicate k st env fv) ->
      exists summary before issue after,
        get_summary_from_message json_data = Ok summary
        /\ outcome (find_existing_jira_issues JIRA_ISSUE_TITLE JIRA_PROJECT
                      jira recursion_limit summary 0)
           = Ok (before ++ issue :: after)%list
        /\ key issue = k /\ status_name issue = st
        /\ environment issue = env
        /\ guard_conditions ratio real_quick_ratio
             (get_stacktrace_from_message json_data) issue)
  /\ (forall new_stacktrace issue,
         guard_fails ratio real_quick_ratio new_stacktrace issue ->
         is_match ratio real_quick_ratio new_stacktrace issue = Ok false)
  /\ (forall summary issue_list,
         get_summary_from_message json_data = Ok summary ->
         outcome (find_existing_jira_issues JIRA_ISSUE_TITLE JIRA_PROJECT
                    jira recursion_limit summary 0) = Ok issue_list ->
         Forall (guard_fails ratio real_quick_ratio
                   (get_stacktrace_from_message json_data)) issue_list ->
         outcome (determine_if_duplicate JIRA_ISSUE_TITLE JIRA_PROJECT ratio
                    real_quick_ratio recursion_limit jira json_data)
         = Ok NotDuplicate).
Proof.
  split; [|split].
  - intros k st env fv H.
    apply determine_if_duplicate_Ok in H as (summary & l & Hs & Hf & Hl).
    apply determine_loop_Duplicate in Hl
      as (before & issue & after & latest & -> & _ & Hm & _ & -> & -> & ->
          & _).
    exists summary, before, issue, after.
    apply is_match_true in Hm. destruct Hm as (Hne & Hr & Ht).
    do 5 (split; [first [assumption | reflexivity]|]).
    unfold guard_conditions.
    split; [exact Hne | split; [exact Hr | split; [|exact Ht]]].
    assert (H0 : (0 <= 7 # 10)%Q) by discriminate.
    exact (proj2 (match_ratio_gt ratio real_quick_ratio _ _ _ H0 Hr)).
  - intros new issue H. now apply is_match_false.
  - intros summary l Hs Hf Hall.
    rewrite (determine_if_duplicate_outcome _ _ _ _ _ _ _ _ _ Hs Hf).
    clear Hf. induction Hall as [|i r Hi Hr IH]; [reflexivity|].
    cbn [determine_loop].
    rewrite (is_match_false ratio real_quick_ratio _ _ Hi). exact IH.
Qed.

Lemma determine_if_duplicate_match_conditions_witness :
  let found :=
    [ Scenario.filed "EX-7" "Closed"
        (get_stacktrace_from_message Scenario.boom_report)
        [ {| name := "Sprint 7" |} ] ] in
  let jira := Scenario.tracker found "Sprint 8" (Reply 200 "" tt) in
  let env := Some ("Count: 3" ++ Scenario.nl ++ "Last: 2017-03-01 10:00:00") in
  outcome (determine_if_duplicate "Exception" "EX" Scenario.same_text_ratio
             Scenario.same_text_ratio 1000 jira Scenario.boom_report)
  = Ok (Duplicate "EX-7" "Closed" env "Sprint 7")
  /\ exists summary before issue after,
       get_summary_from_message Scenario.boom_report = Ok summary
       /\ outcome (find_existing_jira_issues "Exception" "EX" jira 1000
                     summary 0)
          = Ok (before ++ issue :: after)%list
       /\ key issue = "EX-7" /\ status_name issue = "Closed"
       /\ environment issue = env
       /\ guard_conditions Scenario.same_text_ratio Scenario.same_text_ratio
            (get_stacktrace_from_message Scenario.boom_report) issue.
Proof.
  intros found jira env.
  assert (H : outcome (determine_if_duplicate "Exception" "EX"
                         Scenario.same_text_ratio Scenario.same_text_ratio
                         1000 jira Scenario.boom_report)
              = Ok (Duplicate "EX-7" "Closed" env "Sprint 7"))
    by (vm_compute; reflexivity).
  split; [exact H|].
  exact (proj1 (determine_if_duplicate_match_conditions
                  "Exception" "EX" Scenario.same_text_ratio
                  Scenario.same_text_ratio 1000 jira Scenario.boom_report)
           _ _ _ _ H).
Defined.

(** *** Throw location out of range *)

Lemma first_line_last_causedby (s : string) (lines : list string)
    (l : string) :
  PyStr.splitlines s = (lines ++ [l])%list ->
  Regex.matches REGEX_CAUSED_BY l = true ->
  first_line_caused_by_from_printed_stacktrace s = Raise IndexError.
Proof.
  intros Hs Hl. unfold first_line_caused_by_from_printed_stacktrace.
  rewrite Hs, last_causedby_loop_snoc, Hl.
  rewrite getitem_past_end; [reflexivity|].
  rewrite List.length_app. cbn [List.length]. lia.
Qed.

Lemma is_match_raises (ratio real_quick_ratio : string -> string -> Q)
    (new_stacktrace : string) (issue : Issue) :
  let issue_stacktrace := get_stacktrace_from_issue issue in
  let new_trimmed := new_trimmed_stacktrace new_stacktrace issue_stacktrace in
  issue_stacktrace <> "" ->
  (7 # 10 < match_ratio ratio real_quick_ratio new_trimmed
              issue_stacktrace)%Q ->
  first_line_caused_by_from_printed_stacktrace new_trimmed = Raise IndexError
  \/ first_line_caused_by_from_printed_stacktrace issue_stacktrace
     = Raise IndexError ->
  is_match ratio real_quick_ratio new_stacktrace issue = Raise IndexError.
Proof.
  intros st tr Hne Hr Hraise. unfold is_match. fold st. fold tr.
  apply nonempty_len in Hne. rewrite Hne. cbn [negb].
  apply Qgtb_lt in Hr. rewrite Hr. cbn [negb].
  now apply matches_throw_location_raises.
Qed.

(** C4.  [first_line_caused_by_from_printed_stacktrace] raises
    [IndexError] on the empty string and on every text whose last line
    matches [REGEX_CAUSED_BY], such as the canonical trace of a report
    whose only cause frame has no stack line; then
    [matches_exception_throw_location] raises it as well, whichever
    argument the text is, and so does [determine_if_duplicate] when the
    first candidate that reaches the throw-location check has, or
    meets, such a trace. *)
Theorem first_line_caused_by_IndexError
    (JIRA_ISSUE_TITLE JIRA_PROJECT : string)
    (ratio real_quick_ratio : string -> string -> Q)
    (recursion_limit : nat) (jira : Tracker) :
  first_line_caused_by_from_printed_stacktrace "" = Raise IndexError
  /\ (forall s lines l,
         PyStr.splitlines s = (lines ++ [l])%list ->
         Regex.matches REGEX_CAUSED_BY l = true ->
         first_line_caused_by_from_printed_stacktrace s = Raise IndexError)
  /\ first_line_caused_by_from_printed_stacktrace
       (get_stacktrace_from_message npe_report) = Raise IndexError
  /\ (forall a b,
         first_line_caused_by_from_printed_stacktrace a = Raise IndexError
         \/ first_line_caused_by_from_printed_stacktrace b
            = Raise IndexError ->
         matches_exception_throw_location a b = Raise IndexError)
  /\ (forall json_data summary before issue after,
         let new_stacktrace := get_stacktrace_from_message json_data in
         let issue_stacktrace := get_stacktrace_from_issue issue in
         let new_trimmed :=
           new_trimmed_stacktrace new_stacktrace issue_stacktrace in
         get_summary_from_message json_data = Ok summary ->
         outcome (find_existing_jira_issues JIRA_ISSUE_TITLE JIRA_PROJECT
                    jira recursion_limit summary 0)
         = Ok (before ++ issue :: after)%list ->
         Forall (fun i => is_match ratio real_quick_ratio new_stacktrace i
                          = Ok false) before ->
         issue_stacktrace <> "" ->
         (7 # 10 < match_ratio ratio real_quick_ratio new_trimmed
                     issue_stacktrace)%Q ->
         first_line_caused_by_from_printed_stacktrace new_trimmed
         = Raise IndexError
         \/ first_line_caused_by_from_printed_stacktrace issue_stacktrace
            = Raise IndexError ->
         outcome (determine_if_duplicate JIRA_ISSUE_TITLE JIRA_PROJECT ratio
                    real_quick_ratio recursion_limit jira json_data)
         = Raise IndexError).
Proof.
  split; [reflexivity|].
  split; [exact first_line_last_causedby|].
  split; [reflexivity|].
  split; [exact matches_throw_location_raises|].
  intros json_data summary before issue after new st tr Hs Hf Hb Hne Hr Hx.
  subst new st tr.
  rewrite (determine_if_duplicate_outcome _ _ _ _ _ _ _ _ _ Hs Hf).
  rewrite determine_loop_skip by exact Hb.
  cbn [determine_loop].
  now rewrite (is_match_raises ratio real_quick_ratio _ issue Hne Hr Hx).
Qed.

Lemma first_line_caused_by_IndexError_witness :
  let trace := get_stacktrace_from_message npe_report in
  let issue := Scenario.filed "EX-7" "Open" trace [ {| name := "Sprint 7" |} ] in
  let jira := Scenario.tracker [issue] "Sprint 8" (Reply 200 "" tt) in
  (PyStr.splitlines trace
   = ([] ++ ["Caused by: NullPointerException at Foo"])%list
   /\ Regex.matches REGEX_CAUSED_BY "Caused by: NullPointerException at Foo"
      = true)
  /\ first_line_caused_by_from_printed_stacktrace trace = Raise IndexError
  /\ outcome (determine_if_duplicate "Exception" "EX"
                Scenario.same_text_ratio Scenario.same_text_ratio 1000 jira
                npe_report)
     = Raise IndexError.
Proof.
  intros trace issue jira.
  pose proof (first_line_caused_by_IndexError "Exception" "EX"
                Scenario.same_text_ratio Scenario.same_text_ratio 1000 jira)
    as (_ & Hlast & _ & _ & Hres).
  assert (Hl : PyStr.splitlines trace
               = ([] ++ ["Caused by: NullPointerException at Foo"])%list)
    by (vm_compute; reflexivity).
  assert (Hm : Regex.matches REGEX_CAUSED_BY
                 "Caused by: NullPointerException at Foo" = true)
    by (vm_compute; reflexivity).
  split; [split; assumption|].
  split; [exact (Hlast trace [] _ Hl Hm)|].
  apply (Hres npe_report "NullPointerException at Foo" [] issue []).
  - reflexivity.
  - vm_compute; reflexivity.
  - constructor.
  - vm_compute; discriminate.
  - vm_compute; reflexivity.
  - right. vm_compute; reflexivity.
Defined.

(** *** The latest fix version *)

Lemma In_insert_by_name_desc (x v : FixVersion) (l : list FixVersion) :
  In x (insert_by_name_desc v l) <-> x = v \/ In x l.
Proof.
  induction l as [|w r IH]; cbn [insert_by_name_desc In].
  - intuition congruence.
  - destruct (String.ltb (name w) (name v)); cbn [In].
    + intuition congruence.
    + rewrite IH. intuition congruence.
Qed.

Lemma In_sorted_by_name_desc (x : FixVersion) (l : list FixVersion) :
  In x (sorted_by_name_desc l) <-> In x l.
Proof.
  unfold sorted_by_name_desc.
  assert (G : forall acc,
             In x (fold_left (fun a v => insert_by_name_desc v a) l acc)
             <-> In x l \/ In x acc).
  { induction l as [|v r IH]; intros acc; cbn [fold_left In].
    - tauto.
    - rewrite IH, In_insert_by_name_desc. intuition congruence. }
  rewrite G. cbn [In]. tauto.
Qed.

Lemma get_latest_fix_version_In (l : list FixVersion) (v : FixVersion) :
  get_latest_fix_version l = Ok v -> In v l.
Proof.
  unfold get_latest_fix_version, getitem_py, getitem.
  cbn [Z.ltb Z.compare Z.to_nat nth_error].
  destruct (sorted_by_name_desc l) as [|w r] eqn:E; [discriminate|].
  intros [= <-]. apply In_sorted_by_name_desc. rewrite E. now left.
Qed.

Lemma get_latest_fix_version_nonempty (l : list FixVersion) :
  l <> [] -> exists v, get_latest_fix_version l = Ok v.
Proof.
  intros H. unfold get_latest_fix_version, getitem_py, getitem.
  cbn [Z.ltb Z.compare Z.to_nat nth_error].
  destruct (sorted_by_name_desc l) as [|w r] eqn:E; [|eauto].
  destruct l as [|v l']; [contradiction|].
  assert (Hin : In v (sorted_by_name_desc (v :: l')))
    by (apply In_sorted_by_name_desc; now left).
  rewrite E in Hin. contradiction.
Qed.

(** C10.  Let [issue] be the first issue found that passes the guard.
    If its list of fix versions is empty, [determine_if_duplicate]
    raises [IndexError] and gives no verdict; whenever it does give a
    verdict, that list is not empty and the verdict is positive, for
    [issue], with the name of one of its fix versions. *)
Theorem determine_if_duplicate_needs_fix_version
    (JIRA_ISSUE_TITLE JIRA_PROJECT : string)
    (ratio real_quick_ratio : string -> string -> Q)
    (recursion_limit : nat) (jira : Tracker) (json_data : Report)
    (summary : string) (before : list Issue) (issue : Issue)
    (after : list Issue) :
  let new_stacktrace := get_stacktrace_from_message json_data in
  let verdict :=
    outcome (determine_if_duplicate JIRA_ISSUE_TITLE JIRA_PROJECT ratio
               real_quick_ratio recursion_limit jira json_data) in
  get_summary_from_message json_data = Ok summary ->
  outcome (find_existing_jira_issues JIRA_ISSUE_TITLE JIRA_PROJECT jira
             recursion_limit summary 0)
  = Ok (before ++ issue :: after)%list ->
  Forall (fun i => is_match ratio real_quick_ratio new_stacktrace i
                   = Ok false) before ->
  is_match ratio real_quick_ratio new_stacktrace issue = Ok true ->
  (fixVersions issue = [] -> verdict = Raise IndexError)
  /\ (forall v,
         verdict = Ok v ->
         fixVersions issue <> []
         /\ exists latest,
              In latest (fixVersions issue)
              /\ v = Duplicate (key issue) (status_name issue)
                       (environment issue) (name latest))
  /\ (fixVersions issue <> [] -> exists v, verdict = Ok v).
Proof.
  intros new verdict Hs Hf Hb Hm. subst verdict new.
  rewrite (determine_if_duplicate_outcome _ _ _ _ _ _ _ _ _ Hs Hf).
  rewrite determine_loop_skip by exact Hb.
  cbn [determine_loop]. rewrite Hm. cbn [rbind].
  split; [|split].
  - intros ->. reflexivity.
  - intros v Hv. apply rbind_Ok in Hv as [latest [Hl Hv]].
    injection Hv as <-. split.
    + intros E. rewrite E in Hl. discriminate Hl.
    + exists latest. split; [now apply get_latest_fix_version_In|].
      reflexivity.
  - intros Hne.
    destruct (get_latest_fix_version_nonempty _ Hne) as [latest ->].
    cbn [rbind]. eauto.
Qed.

Lemma determine_if_duplicate_needs_fix_version_witness :
  let issue :=
    Scenario.filed "EX-7" "Open"
      (get_stacktrace_from_message Scenario.boom_report) [] in
  let jira := Scenario.tracker [issue] "Sprint 8" (Reply 200 "" tt) in
  is_match Scenario.same_text_ratio Scenario.same_text_ratio
    (get_stacktrace_from_message Scenario.boom_report) issue = Ok true
  /\ fixVersions issue = []
  /\ outcome (determine_if_duplicate "Exception" "EX"
                Scenario.same_text_ratio Scenario.same_text_ratio 1000 jira
                Scenario.boom_report)
     = Raise IndexError.
Proof.
  intros issue jira.
  assert (Hm : is_match Scenario.same_text_ratio Scenario.same_text_ratio
                 (get_stacktrace_from_message Scenario.boom_report) issue
               = Ok true) by (vm_compute; reflexivity).
  split; [exact Hm | split; [reflexivity|]].
  refine (proj1 (determine_if_duplicate_needs_fix_version
                   "Exception" "EX" Scenario.same_text_ratio
                   Scenario.same_text_ratio 1000 jira Scenario.boom_report
                   "java.lang.IllegalStateException: boom" [] issue []
                   _ _ _ Hm) eq_refl).
  - reflexivity.
  - vm_compute; reflexivity.
  - constructor.
Defined.

(* ================================================================= *)
(** ** Reopening *)


Lemma lower_same_letter (p x : ascii) :
  In p CaseSpec.status_letters ->
  Ascii.eqb (PyChar.lower x) p = CaseSpec.same_letter p x.
Proof.
  intros H. cbn in H.
  repeat (destruct H as [<-|H];
          [destruct x as [[] [] [] [] [] [] [] []]; reflexivity|]).
  contradiction.
Qed.

Lemma lower_equal_ignoring_case (pattern s : string) :
  CaseSpec.letters_of CaseSpec.status_letters pattern ->
  String.eqb (PyStr.lower s) pattern
  = CaseSpec.equal_ignoring_case pattern s.
Proof.
  revert s; induction pattern as [|p pt IH]; intros [|x s] H;
    try reflexivity.
  destruct H as [Hp Ht]. unfold PyStr.lower in *.
  cbn [PyStr.map String.eqb CaseSpec.equal_ignoring_case].
  rewrite lower_same_letter by exact Hp. rewrite IH by exact Ht.
  now destruct (CaseSpec.same_letter p x).
Qed.

Lemma is_issue_closed_spec (status : string) :
  is_issue_closed status
  = (CaseSpec.equal_ignoring_case "closed" status
     || CaseSpec.equal_ignoring_case "resolved" status)%bool.
Proof.
  unfold is_issue_closed.
  rewrite !lower_equal_ignoring_case; [reflexivity| |];
    cbn; intuition.
Qed.

(** *** The calls of a computation *)

Lemma calls_bind {A B : Type} (m : M A) (f : A -> M B) :
  calls (bind m f)
  = (calls m ++ match outcome m with
                | Ok a => calls (f a)
                | Raise _ => []
                end)%list.
Proof.
  unfold calls, outcome, bind. destruct m as [log [a|e]]; cbn [fst snd].
  - now destruct (f a).
  - now rewrite List.app_nil_r.
Qed.

Lemma outcome_bind {A B : Type} (m : M A) (f : A -> M B) :
  outcome (bind m f)
  = match outcome m with
    | Ok a => outcome (f a)
    | Raise e => Raise e
    end.
Proof.
  unfold outcome, bind. destruct m as [log [a|e]]; cbn [snd].
  - now destruct (f a).
  - reflexivity.
Qed.

Lemma no_transition_app (a b : list Call) :
  no_transition (a ++ b) <-> no_transition a /\ no_transition b.
Proof.
  unfold no_transition. rewrite List.existsb_app.
  apply orb_false_iff.
Qed.

Lemma no_transition_bind {A B : Type} (m : M A) (f : A -> M B) :
  no_transition (calls m) ->
  (forall a, no_transition (calls (f a))) ->
  no_transition (calls (bind m f)).
Proof.
  intros Hm Hf. rewrite calls_bind. apply no_transition_app.
  split; [exact Hm|]. destruct (outcome m); [apply Hf | reflexivity].
Qed.

Section Calls.

Variables JIRA_ISSUE_TITLE JIRA_PROJECT : string.
Variables ratio real_quick_ratio : string -> string -> Q.
Variable now : string.
Variable b64decode : string -> option string.
Variable recursion_limit : nat.
Variable jira : Tracker.

Lemma no_transition_find (depth : nat) (summary : string) (start_at : Z) :
  no_transition
    (calls (find_existing_jira_issues JIRA_ISSUE_TITLE JIRA_PROJECT jira
              depth summary start_at)).
Proof.
  revert start_at; induction depth as [|d IH]; intros start_at;
    [reflexivity|].
  cbn [find_existing_jira_issues].
  apply no_transition_bind; [reflexivity|].
  intros [[code content] page].
  destruct (negb (code =? 200)); [reflexivity|].
  apply no_transition_bind.
  - destruct (_ >? _); [apply IH | reflexivity].
  - reflexivity.
Qed.

Lemma no_transition_determine (json_data : Report) :
  no_transition
    (calls (determine_if_duplicate JIRA_ISSUE_TITLE JIRA_PROJECT ratio
              real_quick_ratio recursion_limit jira json_data)).
Proof.
  unfold determine_if_duplicate.
  apply no_transition_bind; [reflexivity|]. intros summary.
  apply no_transition_bind; [apply no_transition_find|]. reflexivity.
Qed.

Lemma no_transition_add_attachment (attachment : string)
    (type : AttachmentType) (filename issue_id : string) :
  no_transition (calls (add_attachment jira attachment type filename
                          issue_id)).
Proof.
  unfold add_attachment, add_attachment_body, except_InternalError,
    request, bind, ret.
  destruct (post_attachment jira issue_id filename attachment);
    reflexivity.
Qed.

Lemma no_transition_decode (encoded : string) :
  no_transition (calls (decode b64decode encoded)).
Proof. unfold decode. now destruct (b64decode encoded). Qed.

Lemma no_transition_screenshots (screenshots : list string)
    (issue_id : string) :
  no_transition (calls (attach_screenshots b64decode jira screenshots
                          issue_id)).
Proof.
  induction screenshots as [|s r IH]; [reflexivity|].
  cbn [attach_screenshots].
  apply no_transition_bind; [apply no_transition_decode|]. intros data.
  apply no_transition_bind; [apply no_transition_add_attachment|].
  intros _. exact IH.
Qed.

Lemma no_transition_attachments (json_data : Report) (issue_id : string) :
  no_transition
    (calls (update_issue_with_attachments b64decode jira json_data
              issue_id)).
Proof.
  unfold update_issue_with_attachments.
  apply no_transition_bind; [apply no_transition_add_attachment|].
  intros _. apply no_transition_bind.
  - destruct (json_logs json_data); [|reflexivity].
    apply no_transition_bind; [apply no_transition_decode|]. intros data.
    apply no_transition_add_attachment.
  - intros _. destruct (json_screenshots json_data); [|reflexivity].
    apply no_transition_screenshots.
Qed.

Lemma calls_update_to_jira (issue_id env : string) (b : bool) :
  calls (update_to_jira jira issue_id env b)
  = (UpdateCall issue_id env
       :: match put_issue jira issue_id env with
          | Reply code _ _ =>
              if ((code =? 204) && b)%bool
              then [TransitionCall issue_id _JIRA_TRANSITION_REOPEN_ID]
              else []
          | Unreachable => []
          end)%list.
Proof.
  unfold update_to_jira, request, bind, ret, raise, calls.
  destruct (put_issue jira issue_id env) as [code content []|];
    [|reflexivity].
  destruct (code =? 204); cbn [negb andb]; [|reflexivity].
  destruct b; [|reflexivity].
  now destruct (post_transition jira issue_id _JIRA_TRANSITION_REOPEN_ID).
Qed.

End Calls.

Lemma should_reopen_if_closed_value (jira : Tracker) (closed : bool)
    (fixed_in_sprint : string) (code : Z) (content current : string)
    (others : list string) :
  get_active_sprints jira = Reply code content (current :: others) ->
  should_reopen_if_closed jira closed fixed_in_sprint
  = ([SprintCall],
     Ok (closed && negb (String.eqb current fixed_in_sprint))%bool).
Proof.
  intros H. unfold should_reopen_if_closed, get_current_sprint, request.
  rewrite H. reflexivity.
Qed.

(** C9.  On the duplicate path the decision to reopen is true exactly
    when the status of the matched issue is [closed] or [resolved] up
    to the case of the letters and the name of its latest fix version
    is not the name of the active sprint; when the decision is false
    the request posts no status transition, and when it is true and
    the update is accepted, it posts the reopening transition. *)
Theorem reopen_decision
    (JIRA_ISSUE_TITLE JIRA_PROJECT : string)
    (ratio real_quick_ratio : string -> string -> Q) (now : string)
    (b64decode : string -> option string) (recursion_limit : nat)
    (jira : Tracker) (json_data : Report)
    (k st : string) (env : option string) (fv : string)
    (code : Z) (content current : string) (others : list string) :
  let request_calls :=
    calls (add_jira_exception JIRA_ISSUE_TITLE JIRA_PROJECT ratio
             real_quick_ratio now b64decode recursion_limit jira
             json_data) in
  outcome (determine_if_duplicate JIRA_ISSUE_TITLE JIRA_PROJECT ratio
             real_quick_ratio recursion_limit jira json_data)
  = Ok (Duplicate k st env fv) ->
  get_active_sprints jira = Reply code content (current :: others) ->
  exists should_reopen,
    outcome (should_reopen_if_closed jira (is_issue_closed st) fv)
    = Ok should_reopen
    /\ (should_reopen = true
        <-> (CaseSpec.equal_ignoring_case "closed" st = true
             \/ CaseSpec.equal_ignoring_case "resolved" st = true)
            /\ fv <> current)
    /\ (should_reopen = false -> no_transition request_calls)
    /\ (should_reopen = true ->
        forall c x,
          put_issue jira k (calculate_issue_occurrence_count now env)
          = Reply 204 c x ->
          In (TransitionCall k _JIRA_TRANSITION_REOPEN_ID) request_calls).
Proof.
  intros request_calls Hd Hs.
  set (b := (is_issue_closed st && negb (String.eqb current fv))%bool).
  exists b.
  pose proof (should_reopen_if_closed_value jira (is_issue_closed st) fv
                code content current others Hs) as Hr.
  fold b in Hr.
  assert (Hcalls :
            request_calls
            = (calls (determine_if_duplicate JIRA_ISSUE_TITLE JIRA_PROJECT
                        ratio real_quick_ratio recursion_limit jira
                        json_data)
                 ++ SprintCall
                 :: calls (update_to_jira jira k
                             (calculate_issue_occurrence_count now env) b)
                 ++ match outcome (update_to_jira jira k
                                     (calculate_issue_occurrence_count now
                                        env) b) with
                    | Ok _ =>
                        calls (update_issue_with_attachments b64decode jira
                                 json_data k)
                    | Raise _ => []
                    end)%list).
  { subst request_calls. unfold add_jira_exception.
    rewrite calls_bind, Hd. f_equal.
    rewrite calls_bind, Hr. cbn [calls outcome fst snd List.app]. f_equal.
    rewrite calls_bind. f_equal.
    destruct (outcome (update_to_jira _ _ _ _)); [|reflexivity].
    rewrite calls_bind.
    destruct (outcome (update_issue_with_attachments _ _ _ _));
      cbn [ret calls fst]; now rewrite ?List.app_nil_r. }
  split; [now rewrite Hr|].
  split; [|split].
  - subst b. rewrite is_issue_closed_spec.
    rewrite andb_true_iff, orb_true_iff, negb_true_iff, String.eqb_neq.
    intuition congruence.
  - intros Hb. rewrite Hcalls.
    apply no_transition_app. split; [apply no_transition_determine|].
    change (SprintCall :: ?l)%list with ([SprintCall] ++ l)%list.
    apply no_transition_app. split; [reflexivity|].
    apply no_transition_app. split.
    + rewrite calls_update_to_jira, Hb.
      destruct (put_issue jira k _) as [c' ? ?|]; [|reflexivity].
      now rewrite andb_false_r.
    + destruct (outcome (update_to_jira _ _ _ _));
        [apply no_transition_attachments | reflexivity].
  - intros Hb c x Hp. rewrite Hcalls.
    apply List.in_or_app. right. right.
    apply List.in_or_app. left.
    rewrite calls_update_to_jira, Hp, Hb. cbn. auto.
Qed.

Lemma reopen_decision_witness :
  let found :=
    [ Scenario.filed "EX-7" "Closed"
        (get_stacktrace_from_message Scenario.boom_report)
        [ {| name := "Sprint 7" |} ] ] in
  let jira := Scenario.tracker found "Sprint 8" (Reply 200 "" tt) in
  let env := Some ("Count: 3" ++ Scenario.nl ++ "Last: 2017-03-01 10:00:00") in
  (outcome (determine_if_duplicate "Exception" "EX" Scenario.same_text_ratio
              Scenario.same_text_ratio 1000 jira Scenario.boom_report)
   = Ok (Duplicate "EX-7" "Closed" env "Sprint 7")
   /\ get_active_sprints jira = Reply 200 "" ["Sprint 8"])
  /\ exists should_reopen,
       outcome (should_reopen_if_closed jira (is_issue_closed "Closed")
                  "Sprint 7")
       = Ok should_reopen
       /\ should_reopen = true.
Proof.
  intros found jira env.
  assert (Hd : outcome (determine_if_duplicate "Exception" "EX"
                          Scenario.same_text_ratio Scenario.same_text_ratio
                          1000 jira Scenario.boom_report)
               = Ok (Duplicate "EX-7" "Closed" env "Sprint 7"))
    by (vm_compute; reflexivity).
  assert (Hs : get_active_sprints jira = Reply 200 "" ["Sprint 8"])
    by reflexivity.
  split; [split; assumption|].
  destruct (reopen_decision "Exception" "EX" Scenario.same_text_ratio
              Scenario.same_text_ratio "2017-03-02 09:30:00"
              (fun s => Some s) 1000 jira Scenario.boom_report
              "EX-7" "Closed" env "Sprint 7" 200 "" "Sprint 8" [] Hd Hs)
    as (b & Hb & Hiff & _).
  exists b. split; [exact Hb|].
  apply Hiff. split; [left; reflexivity | discriminate].
Defined.

(* ================================================================= *)
(** ** Regular expressions: what a match tells *)

Module RegexFacts.

Import Regex.

Section Greedy.

Context {A : Type}.
Variable p : ascii -> bool.
Variable k : string -> string -> option A.

(** When the repetition fails, no split of the text would have
    satisfied the continuation. *)
Lemma greedy_None (taken s : string) :
  greedy p k taken s = None ->
  forall a b, s = a ++ b -> all p a = true -> k (taken ++ a) b = None.
Proof.
  revert taken; induction s as [|c t IH]; intros taken; cbn [greedy].
  - intros H a b E _. destruct a; [|discriminate].
    cbn in E. subst b. now rewrite (StrFacts.app_nil_r taken).
  - destruct (p c) eqn:P.
    + destruct (greedy p k (taken ++ PyStr.chr c) t) eqn:G;
        [discriminate|].
      intros H [|x a] b E Ha.
      * cbn in E. subst b. now rewrite (StrFacts.app_nil_r taken).
      * cbn in E. injection E as <- E. cbn [all] in Ha.
        apply andb_prop in Ha as [_ Ha].
        specialize (IH _ G a b E Ha).
        now rewrite StrFacts.app_assoc in IH.
    + intros H [|x a] b E Ha.
      * cbn in E. subst b. now rewrite (StrFacts.app_nil_r taken).
      * cbn in E. injection E as <- E. cbn [all] in Ha.
        rewrite P in Ha. discriminate.
Qed.

(** When it succeeds, it has taken a run of the class, the
    continuation accepted what is left, and accepted no longer
    run. *)
Lemma greedy_Some (taken s : string) (r : A) :
  greedy p k taken s = Some r ->
  exists a b,
    s = a ++ b /\ all p a = true /\ k (taken ++ a) b = Some r
    /\ forall a' b',
         s = a' ++ b' -> all p a' = true ->
         (String.length a < String.length a')%nat ->
         k (taken ++ a') b' = None.
Proof.
  revert taken; induction s as [|c t IH]; intros taken; cbn [greedy].
  - intros H. exists "", "". rewrite (StrFacts.app_nil_r taken).
    repeat split; auto.
    intros [|x a'] b' E _ Hlen; [cbn in Hlen; lia | discriminate].
  - destruct (p c) eqn:P.
    + destruct (greedy p k (taken ++ PyStr.chr c) t) as [r'|] eqn:G.
      * intros [= ->].
        destruct (IH _ G) as (a & b & -> & Ha & Hk & Hmax).
        exists (String c a), b. cbn [append all].
        rewrite P, Ha. rewrite StrFacts.app_assoc in Hk.
        repeat split; auto.
        intros [|x a'] b' E Ha' Hlen; [cbn in Hlen; lia|].
        cbn in E. injection E as <- E. cbn [all] in Ha'.
        apply andb_prop in Ha' as [_ Ha'].
        cbn [String.length] in Hlen.
        specialize (Hmax a' b' E Ha' ltac:(lia)).
        now rewrite StrFacts.app_assoc in Hmax.
      * intros H. exists "", (String c t).
        rewrite (StrFacts.app_nil_r taken). repeat split; auto.
        intros [|x a'] b' E Ha' Hlen; [cbn in Hlen; lia|].
        cbn in E. injection E as <- E. cbn [all] in Ha'.
        apply andb_prop in Ha' as [_ Ha'].
        pose proof (greedy_None _ _ G a' b' E Ha') as Hn.
        now rewrite StrFacts.app_assoc in Hn.
    + intros H. exists "", (String c t).
      rewrite (StrFacts.app_nil_r taken). repeat split; auto.
      intros [|x a'] b' E Ha' Hlen; [cbn in Hlen; lia|].
      cbn in E. injection E as <- E. cbn [all] in Ha'.
      rewrite P in Ha'. discriminate.
Qed.

End Greedy.

(** A starred class that captures nothing. *)
Lemma exec_star (p : ascii -> bool) (r : regex) (s : string)
    (g : list string) :
  exec (Atom p Star false :: r) s = Some g ->
  exists a b, s = a ++ b /\ all p a = true /\ exec r b = Some g.
Proof.
  cbn [exec rep cls grp]. intros H.
  apply greedy_Some in H as (a & b & -> & Ha & Hk & _).
  exists a, b. repeat split; auto.
  destruct (exec r b); [now injection Hk as -> | discriminate].
Qed.

(** A class under [+] that captures nothing. *)
Lemma exec_plus (p : ascii -> bool) (r : regex) (s : string)
    (g : list string) :
  exec (Atom p Plus false :: r) s = Some g ->
  exists a b,
    s = a ++ b /\ a <> "" /\ all p a = true /\ exec r b = Some g.
Proof.
  cbn [exec rep cls grp]. destruct s as [|c t]; [discriminate|].
  destruct (p c) eqn:P; [|discriminate]. intros H.
  apply greedy_Some in H as (a & b & -> & Ha & Hk & _).
  exists (String c a), b. cbn [append all]. rewrite P, Ha.
  repeat split; auto; [discriminate|].
  cbn [PyStr.chr append] in Hk.
  destruct (exec r b); [now injection Hk as -> | discriminate].
Qed.

(** A captured class under [+] that ends the pattern: the group is
    the whole run. *)
Lemma exec_last_group (p : ascii -> bool) (s : string) (g : list string) :
  exec [Atom p Plus true] s = Some g ->
  exists a b,
    s = a ++ b /\ a <> "" /\ all p a = true /\ g = [a]
    /\ starts_with p b = false.
Proof.
  cbn [exec rep cls grp]. destruct s as [|c t]; [discriminate|].
  destruct (p c) eqn:P; [|discriminate]. intros H.
  apply greedy_Some in H as (a & b & -> & Ha & Hk & Hmax).
  exists (String c a), b. cbn [append all]. rewrite P, Ha.
  cbn [PyStr.chr append] in Hk. injection Hk as <-.
  repeat split; auto; [discriminate|].
  destruct b as [|x b']; [reflexivity|]. cbn [starts_with].
  destruct (p x) eqn:X; [|reflexivity].
  assert (Hall : all p (a ++ PyStr.chr x) = true).
  { clear Hmax. induction a as [|y a IH]; cbn [append all PyStr.chr].
    - now rewrite X.
    - cbn [all] in Ha. apply andb_prop in Ha as [-> Ha]. now apply IH. }
  specialize (Hmax (a ++ PyStr.chr x) b').
  rewrite StrFacts.app_assoc in Hmax.
  specialize (Hmax eq_refl Hall).
  rewrite StrFacts.length_app in Hmax. cbn [PyStr.chr String.length] in Hmax.
  specialize (Hmax ltac:(lia)). discriminate Hmax.
Qed.

(** A literal text, whatever the case of its letters. *)
Lemma exec_lits_ci (w : string) (r : regex) (s : string)
    (g : list string) :
  exec (lits_ci w ++ r)%list s = Some g ->
  exists a b,
    s = a ++ b /\ PyStr.lower a = PyStr.lower w /\ exec r b = Some g.
Proof.
  revert s; induction w as [|c w IH]; intros s.
  - intros H. now exists "", s.
  - cbn [lits_ci List.app exec ci rep cls grp].
    destruct s as [|x t]; [discriminate|].
    destruct (Ascii.eqb_spec (PyChar.lower x) (PyChar.lower c)) as [E|];
      [|discriminate].
    intros H.
    destruct (exec (lits_ci w ++ r)%list t) as [g'|] eqn:G;
      [|discriminate].
    injection H as ->.
    destruct (IH _ G) as (a & b & -> & Ha & Hb).
    exists (String x a), b. unfold PyStr.lower in *.
    cbn [append PyStr.map]. now rewrite E, Ha.
Qed.

Lemma all_app (p : ascii -> bool) (a b : string) :
  Regex.all p (a ++ b) = (Regex.all p a && Regex.all p b)%bool.
Proof.
  induction a as [|c a IH]; [reflexivity|].
  cbn [append Regex.all]. now rewrite IH, andb_assoc.
Qed.

Section GreedyComplete.

Context {A : Type}.
Variable p : ascii -> bool.
Variable k : string -> string -> option A.

(** The repetition takes a whole run when the continuation accepts
    what follows it. *)
Lemma greedy_run (taken a b : string) (r : A) :
  all p a = true -> starts_with p b = false ->
  k (taken ++ a) b = Some r ->
  greedy p k taken (a ++ b) = Some r.
Proof.
  revert taken; induction a as [|c a IH]; intros taken Ha Hb Hk.
  - rewrite StrFacts.app_nil_r in Hk. cbn [append].
    destruct b as [|x b]; [exact Hk|].
    cbn [greedy]. cbn [starts_with] in Hb. now rewrite Hb.
  - cbn [all] in Ha. apply andb_prop in Ha as [Hc Ha].
    cbn [append greedy]. rewrite Hc.
    rewrite (IH (taken ++ PyStr.chr c) Ha Hb); [reflexivity|].
    now rewrite StrFacts.app_assoc.
Qed.

Lemma greedy_None_intro (taken s : string) :
  (forall a b, s = a ++ b -> all p a = true -> k (taken ++ a) b = None) ->
  greedy p k taken s = None.
Proof.
  revert taken; induction s as [|c t IH]; intros taken H; cbn [greedy].
  - specialize (H "" "" eq_refl eq_refl).
    now rewrite StrFacts.app_nil_r in H.
  - assert (H0 : k taken (String c t) = None).
    { specialize (H "" (String c t) eq_refl eq_refl).
      now rewrite StrFacts.app_nil_r in H. }
    destruct (p c) eqn:P; [|exact H0].
    rewrite IH; [exact H0|].
    intros a b E Ha. rewrite StrFacts.app_assoc.
    apply H; [cbn [PyStr.chr append]; now rewrite E | cbn [PyStr.chr append all]; now rewrite P].
Qed.

(** It gives everything back when the continuation accepts nothing
    else. *)
Lemma greedy_first (taken s : string) (r : A) :
  k taken s = Some r ->
  (forall a b, s = a ++ b -> a <> "" -> all p a = true ->
               k (taken ++ a) b = None) ->
  greedy p k taken s = Some r.
Proof.
  intros Hk H. destruct s as [|c t]; [exact Hk|].
  cbn [greedy]. destruct (p c) eqn:P; [|exact Hk].
  rewrite greedy_None_intro; [exact Hk|].
  intros a b E Ha. rewrite StrFacts.app_assoc.
  apply H; [cbn [PyStr.chr append]; now rewrite E | discriminate | cbn [PyStr.chr append all]; now rewrite P].
Qed.

End GreedyComplete.

Lemma exec_star_first (p : ascii -> bool) (r : regex) (s : string)
    (g : list string) :
  exec r s = Some g ->
  (forall a b, s = a ++ b -> a <> "" -> all p a = true -> exec r b = None) ->
  exec (Atom p Star false :: r) s = Some g.
Proof.
  intros Hs H. cbn [exec rep cls grp]. apply greedy_first.
  - now rewrite Hs.
  - intros a b E Hne Ha. now rewrite (H a b E Hne Ha).
Qed.

Lemma exec_plus_intro (p : ascii -> bool) (r : regex) (a b : string)
    (g : list string) :
  a <> "" -> all p a = true -> starts_with p b = false ->
  exec r b = Some g ->
  exec (Atom p Plus false :: r) (a ++ b) = Some g.
Proof.
  intros Hne Ha Hb Hr. destruct a as [|c a]; [contradiction|].
  cbn [all] in Ha. apply andb_prop in Ha as [Hc Ha].
  cbn [exec rep cls grp append]. rewrite Hc.
  apply greedy_run; auto. now rewrite Hr.
Qed.

Lemma exec_last_group_intro (p : ascii -> bool) (a b : string) :
  a <> "" -> all p a = true -> starts_with p b = false ->
  exec [Atom p Plus true] (a ++ b) = Some [a].
Proof.
  intros Hne Ha Hb. destruct a as [|c a]; [contradiction|].
  cbn [all] in Ha. apply andb_prop in Ha as [Hc Ha].
  cbn [exec rep cls grp append]. rewrite Hc.
  apply greedy_run; auto.
Qed.

Lemma exec_lits_ci_intro (w : string) (r : regex) (a b : string)
    (g : list string) :
  PyStr.lower a = PyStr.lower w -> exec r b = Some g ->
  exec (lits_ci w ++ r)%list (a ++ b) = Some g.
Proof.
  unfold PyStr.lower.
  revert a; induction w as [|c w IH]; intros [|x a] E Hr;
    try discriminate E.
  - exact Hr.
  - cbn [PyStr.map] in E. injection E as Ex Ea.
    cbn [lits_ci List.app exec ci rep cls grp append].
    rewrite Ex, Ascii.eqb_refl. now rewrite (IH a Ea Hr).
Qed.

Lemma exec_ci_fail (c : ascii) (r : regex) (s : string) :
  starts_with (fun x => Ascii.eqb (PyChar.lower x) (PyChar.lower c)) s
  = false ->
  exec (ci c :: r) s = None.
Proof.
  destruct s as [|x t]; [reflexivity|].
  cbn [starts_with exec ci rep cls grp]. now intros ->.
Qed.

End RegexFacts.

(* ================================================================= *)
(** ** Decimal numerals *)

Module DecimalFacts.

Lemma int_of_digits_aux_app (acc : N) (a b : string) :
  PyStr.int_of_digits_aux acc (a ++ b)
  = PyStr.int_of_digits_aux (PyStr.int_of_digits_aux acc a) b.
Proof.
  revert acc; induction a as [|c a IH]; intros acc; [reflexivity|].
  cbn [append PyStr.int_of_digits_aux]. apply IH.
Qed.

Lemma digit_char (m : N) :
  (m < 10)%N ->
  PyChar.is_digit (ascii_of_N (48 + m)) = true
  /\ (PyChar.code (ascii_of_N (48 + m)) - 48 = m)%N.
Proof.
  intros H. unfold PyChar.is_digit, PyChar.in_range, PyChar.code.
  rewrite N_ascii_embedding by lia.
  split; [|lia].
  apply andb_true_intro. split; apply N.leb_le; lia.
Qed.

(** The digits [digits_of_pos_aux] puts before [acc] are decimal digits
    and read back as [n]. *)
Lemma digits_of_pos_aux_spec (f : nat) (n : N) (acc : string) :
  (n < 10 ^ N.of_nat (S f))%N ->
  exists ds,
    PyStr.digits_of_pos_aux (S f) n acc = ds ++ acc
    /\ ds <> ""
    /\ Regex.all PyChar.is_digit ds = true
    /\ PyStr.int_of_digits_aux 0 ds = n.
Proof.
  revert n acc; induction f as [|f IH]; intros n acc Hn.
  - assert (Hlt : (n < 10)%N) by (cbn in Hn; lia).
    destruct (digit_char n Hlt) as [Hd Hv].
    exists (PyStr.chr (ascii_of_N (48 + n))).
    cbn [PyStr.digits_of_pos_aux].
    rewrite N.mod_small, N.div_small by exact Hlt.
    cbn [N.eqb PyStr.chr append Regex.all PyStr.int_of_digits_aux].
    rewrite Hd. repeat split; [discriminate | lia].
  - remember (S f) as f'. cbn [PyStr.digits_of_pos_aux].
    assert (Hm : (n mod 10 < 10)%N) by (apply N.mod_lt; lia).
    destruct (digit_char _ Hm) as [Hd Hv].
    destruct (N.eqb_spec (n / 10) 0) as [Hq|Hq].
    + exists (PyStr.chr (ascii_of_N (48 + n mod 10))).
      cbn [PyStr.chr append Regex.all PyStr.int_of_digits_aux].
      rewrite Hd. repeat split; [discriminate|].
      pose proof (N.div_mod n 10 ltac:(lia)). lia.
    + subst f'.
      assert (Hq' : (n / 10 < 10 ^ N.of_nat (S f))%N).
      { apply N.Div0.div_lt_upper_bound.
        replace (N.of_nat (S (S f))) with (N.succ (N.of_nat (S f))) in Hn
          by lia.
        rewrite N.pow_succ_r' in Hn. exact Hn. }
      destruct (IH (n / 10)%N
                  (String (ascii_of_N (48 + n mod 10)) acc) Hq')
        as (ds & E & Hne & Hall & Hval).
      exists (ds ++ PyStr.chr (ascii_of_N (48 + n mod 10))).
      rewrite E, StrFacts.app_assoc. cbn [PyStr.chr append].
      split; [reflexivity|]. split; [destruct ds; discriminate|].
      rewrite RegexFacts.all_app, Hall. cbn [Regex.all PyStr.chr]. rewrite Hd.
      split; [reflexivity|].
      rewrite int_of_digits_aux_app, Hval.
      cbn [PyStr.int_of_digits_aux PyStr.chr].
      pose proof (N.div_mod n 10 ltac:(lia)). lia.
Qed.

Lemma str_of_N_spec (n : N) :
  PyStr.str_of_N n <> ""
  /\ Regex.all PyChar.is_digit (PyStr.str_of_N n) = true
  /\ PyStr.int_of_digits (PyStr.str_of_N n) = Z.of_N n.
Proof.
  unfold PyStr.str_of_N, PyStr.int_of_digits.
  destruct (digits_of_pos_aux_spec (N.to_nat (N.log2 n)) n "")
    as (ds & E & Hne & Hall & Hval).
  - replace (N.of_nat (S (N.to_nat (N.log2 n))))
      with (N.succ (N.log2 n)) by lia.
    destruct (N.eq_dec n 0) as [->|Hn]; [reflexivity|].
    apply N.lt_le_trans with (2 ^ N.succ (N.log2 n))%N.
    + apply N.log2_spec. lia.
    + apply N.pow_le_mono_l. lia.
  - rewrite E, StrFacts.app_nil_r. now rewrite Hval.
Qed.

End DecimalFacts.

Lemma digit_not_space (x : ascii) :
  PyChar.is_digit x = true -> PyChar.is_space x = false.
Proof. destruct x as [[] [] [] [] [] [] [] []]; cbn; congruence. Qed.

Lemma digit_starts_no_count (x : ascii) :
  PyChar.is_digit x = true -> CountSpec.c_like x = false.
Proof. destruct x as [[] [] [] [] [] [] [] []]; cbn; congruence. Qed.

(** No character of the first line after the first one starts the
    word [count:]. *)
Lemma no_later_count (u rest a b : string) :
  Regex.all (fun x => negb (CountSpec.c_like x)) u = true ->
  u ++ String PyChar.LF rest = a ++ b ->
  Regex.all Regex.dot a = true ->
  Regex.starts_with CountSpec.c_like b = false.
Proof.
  revert a; induction u as [|y u IH]; intros a Hu E Ha.
  - destruct a as [|x a].
    + cbn in E. subst b. reflexivity.
    + cbn in E. injection E as <- _. discriminate Ha.
  - cbn [Regex.all] in Hu. apply andb_prop in Hu as [Hy Hu].
    destruct a as [|x a].
    + cbn in E. subst b. cbn [Regex.starts_with].
      now apply negb_true_iff.
    + cbn in E. injection E as <- E. cbn [Regex.all] in Ha.
      apply andb_prop in Ha as [_ Ha]. now apply (IH a).
Qed.

(** The pattern reads back the count of a text that starts as the
    module writes it. *)
Lemma REGEX_COUNT_reads (ds rest : string) :
  ds <> "" -> Regex.all PyChar.is_digit ds = true ->
  Regex.exec REGEX_COUNT ("Count: " ++ ds ++ String PyChar.LF rest)
  = Some [ds].
Proof.
  intros Hne Hds. unfold REGEX_COUNT. cbn [List.app].
  change (Regex.ci "c" :: Regex.ci "o" :: Regex.ci "u" :: Regex.ci "n"
            :: Regex.ci "t" :: Regex.ci ":" :: ?r)%list
    with (Regex.lits_ci "count:" ++ r)%list.
  apply RegexFacts.exec_star_first.
  - change ("Count: " ++ ds ++ String PyChar.LF rest)
      with ("Count:" ++ " " ++ ds ++ String PyChar.LF rest).
    apply RegexFacts.exec_lits_ci_intro; [reflexivity|].
    apply RegexFacts.exec_plus_intro; [discriminate | reflexivity | |].
    + destruct ds as [|d ds']; [contradiction|].
      cbn [append Regex.starts_with]. cbn [Regex.all] in Hds.
      apply andb_prop in Hds as [Hd _]. now apply digit_not_space.
    + now apply RegexFacts.exec_last_group_intro.
  - intros a b E Ha0 Ha.
    cbn [Regex.lits_ci List.app].
    apply RegexFacts.exec_ci_fail. fold CountSpec.c_like.
    destruct a as [|x a]; [contradiction|].
    cbn in E. injection E as _ E. cbn [Regex.all] in Ha.
    apply andb_prop in Ha as [_ Ha].
    assert (E' : ("ount: " ++ ds) ++ String PyChar.LF rest = a ++ b)
      by exact E.
    refine (no_later_count _ _ _ _ _ E' Ha).
    rewrite RegexFacts.all_app. cbn [andb].
    change (Regex.all (fun x => negb (CountSpec.c_like x)) "ount: ") with true.
    cbn [andb]. clear - Hds.
    induction ds as [|d ds IH]; [reflexivity|].
    cbn [Regex.all] in *. apply andb_prop in Hds as [Hd Hds].
    now rewrite (digit_starts_no_count d Hd), IH.
Qed.

(** What a match of [REGEX_COUNT] looks like: on the first line, the
    word [count:] in any case, then whitespace, then the digits it
    captures, which no further digit follows. *)
Lemma REGEX_COUNT_match (e : string) (g : list string) :
  Regex.exec REGEX_COUNT e = Some g ->
  exists pre cnt ws ds rest,
    e = pre ++ cnt ++ ws ++ ds ++ rest
    /\ g = [ds]
    /\ PyStr.mem PyChar.LF pre = false
    /\ PyStr.lower cnt = "count:"
    /\ ws <> "" /\ Regex.all PyChar.is_space ws = true
    /\ ds <> "" /\ Regex.all PyChar.is_digit ds = true
    /\ Regex.starts_with PyChar.is_digit rest = false.
Proof.
  unfold REGEX_COUNT. cbn [List.app]. intros H.
  apply RegexFacts.exec_star in H as (pre & b1 & -> & Hpre & H).
  change (Regex.ci "c" :: Regex.ci "o" :: Regex.ci "u" :: Regex.ci "n"
            :: Regex.ci "t" :: Regex.ci ":" :: ?r)%list
    with (Regex.lits_ci "count:" ++ r)%list in H.
  apply RegexFacts.exec_lits_ci in H as (cnt & b2 & -> & Hcnt & H).
  apply RegexFacts.exec_plus in H as (ws & b3 & -> & Hws0 & Hws & H).
  apply RegexFacts.exec_last_group in H
    as (ds & rest & -> & Hds0 & Hds & -> & Hrest).
  exists pre, cnt, ws, ds, rest. repeat split; auto.
  clear - Hpre. induction pre as [|c t IH]; [reflexivity|].
  cbn [Regex.all PyStr.mem] in *.
  apply andb_prop in Hpre as [Hc Ht]. rewrite (IH Ht).
  unfold Regex.dot in Hc. apply negb_true_iff in Hc.
  rewrite Ascii.eqb_sym, Hc. reflexivity.
Qed.

(* ================================================================= *)
(** ** Occurrence counter *)


Lemma calculate_issue_occurrence_count_exec (now e : string) :
  calculate_issue_occurrence_count now (Some e)
  = CountSpec.occurrence_count (Regex.exec REGEX_COUNT) (Some e) now.
Proof.
  unfold calculate_issue_occurrence_count, CountSpec.occurrence_count.
  destruct e as [|c t]; [reflexivity|].
  replace (0 <? PyStr.len (String c t)) with true; [reflexivity|].
  symmetry. apply nonempty_len. discriminate.
Qed.

(** C6, as the code has it.  The count is read with the module's
    pattern [.*count:\s+(\d+)], matched from the start of the text:
    when it captures the digits of [n], which then stand after the
    word [count:] on the first line and whitespace and are followed by
    no further digit, the result is [Count: n+1], a line feed and
    [Last: ] with the time of the call; so [Count: 3] followed by a
    line feed and a [Last: ] line gives [Count: 4], and every text
    that starts with [Count: n] and a line feed, as the module writes
    it, gives [Count: n+1].  Without a
    previous text, with the empty text, or with a text the pattern
    does not match at its start, the result begins with [Count: 1]. *)
Theorem calculate_issue_occurrence_count_spec (now : string) :
  let nl := PyStr.chr PyChar.LF in
  calculate_issue_occurrence_count now None
  = "Count: 1" ++ nl ++ "Last: " ++ now
  /\ calculate_issue_occurrence_count now (Some "")
     = "Count: 1" ++ nl ++ "Last: " ++ now
  /\ (forall e,
         Regex.exec REGEX_COUNT e = None ->
         calculate_issue_occurrence_count now (Some e)
         = "Count: 1" ++ nl ++ "Last: " ++ now)
  /\ (forall e g,
         Regex.exec REGEX_COUNT e = Some g ->
         exists pre cnt ws ds rest,
           e = pre ++ cnt ++ ws ++ ds ++ rest
           /\ g = [ds]
           /\ PyStr.mem PyChar.LF pre = false
           /\ PyStr.lower cnt = "count:"
           /\ ws <> "" /\ Regex.all PyChar.is_space ws = true
           /\ ds <> "" /\ Regex.all PyChar.is_digit ds = true
           /\ Regex.starts_with PyChar.is_digit rest = false
           /\ calculate_issue_occurrence_count now (Some e)
              = "Count: " ++ PyStr.str_of_Z (PyStr.int_of_digits ds + 1)
                  ++ nl ++ "Last: " ++ now)
  /\ (forall rest,
         calculate_issue_occurrence_count now
           (Some ("Count: 3" ++ nl ++ "Last: " ++ rest))
         = "Count: 4" ++ nl ++ "Last: " ++ now)
  /\ (forall (n : N) rest,
         calculate_issue_occurrence_count now
           (Some ("Count: " ++ PyStr.str_of_N n ++ nl ++ rest))
         = "Count: " ++ PyStr.str_of_N (n + 1) ++ nl ++ "Last: " ++ now).
Proof.
  intros nl. split; [reflexivity|]. split; [reflexivity|].
  split; [|split; [|split]].
  - intros e H. rewrite calculate_issue_occurrence_count_exec.
    unfold CountSpec.occurrence_count. now rewrite H.
  - intros e g H.
    destruct (REGEX_COUNT_match e g H)
      as (pre & cnt & ws & ds & rest & He & Hg & Hpre & Hcnt & Hws0 & Hws
          & Hds0 & Hds & Hrest).
    exists pre, cnt, ws, ds, rest.
    do 9 (split; [assumption|]). subst g.
    rewrite calculate_issue_occurrence_count_exec.
    unfold CountSpec.occurrence_count. now rewrite H.
  - intros rest. rewrite calculate_issue_occurrence_count_exec.
    unfold CountSpec.occurrence_count.
    replace (Regex.exec REGEX_COUNT ("Count: 3" ++ nl ++ "Last: " ++ rest))
      with (Some ["3"]) by (vm_compute; reflexivity).
    reflexivity.
  - intros n rest. rewrite calculate_issue_occurrence_count_exec.
    unfold CountSpec.occurrence_count.
    destruct (DecimalFacts.str_of_N_spec n) as (Hne & Hall & Hval).
    change ("Count: " ++ PyStr.str_of_N n ++ nl ++ rest)
      with ("Count: " ++ PyStr.str_of_N n ++ String PyChar.LF rest).
    rewrite (REGEX_COUNT_reads _ rest Hne Hall).
    cbn [nth]. rewrite Hval. unfold PyStr.str_of_Z.
    destruct (Z.ltb_spec (Z.of_N n + 1) 0); [lia|].
    replace (Z.to_N (Z.of_N n + 1)) with (n + 1)%N by lia.
    reflexivity.
Qed.

Lemma calculate_issue_occurrence_count_spec_witness :
  let nl := PyStr.chr PyChar.LF in
  let e := "Count: 41" ++ nl ++ "Last: 2017-03-01 10:00:00" in
  Regex.exec REGEX_COUNT e = Some ["41"]
  /\ calculate_issue_occurrence_count "2017-03-02 09:30:00" (Some e)
     = "Count: 42" ++ nl ++ "Last: 2017-03-02 09:30:00".
Proof.
  intros nl e.
  assert (H : Regex.exec REGEX_COUNT e = Some ["41"])
    by (vm_compute; reflexivity).
  split; [exact H|].
  destruct (proj1 (proj2 (proj2 (proj2
              (calculate_issue_occurrence_count_spec
                 "2017-03-02 09:30:00")))) e _ H)
    as (pre & cnt & ws & ds & rest & _ & [= <-] & _ & _ & _ & _ & _ & _
        & _ & Hc).
  exact Hc.
Defined.

(** C6 fails as stated, however the bare pattern [count:\s+(\d+)] is
    read.  Searched for in the text, it finds the count 3 on the
    second line of a text the code answers with [Count: 1]; matched at
    the start of the text, it does not match a text with a leading
    space, which the code answers with [Count: 4]. *)
Lemma calculate_issue_occurrence_count_not_bare_pattern :
  let nl := PyStr.chr PyChar.LF in
  (CountSpec.search CountSpec.PATTERN ("Last: x" ++ nl ++ "Count: 3")
   = Some ["3"]
   /\ calculate_issue_occurrence_count "t"
        (Some ("Last: x" ++ nl ++ "Count: 3"))
      = "Count: 1" ++ nl ++ "Last: t"
   /\ calculate_issue_occurrence_count "t"
        (Some ("Last: x" ++ nl ++ "Count: 3"))
      <> CountSpec.occurrence_count (CountSpec.search CountSpec.PATTERN)
           (Some ("Last: x" ++ nl ++ "Count: 3")) "t")
  /\ (Regex.exec CountSpec.PATTERN " count: 3" = None
      /\ calculate_issue_occurrence_count "t" (Some " count: 3")
         = "Count: 4" ++ nl ++ "Last: t"
      /\ calculate_issue_occurrence_count "t" (Some " count: 3")
         <> CountSpec.occurrence_count (Regex.exec CountSpec.PATTERN)
              (Some " count: 3") "t").
Proof.
  intros nl. repeat split; try (vm_compute; reflexivity);
    vm_compute; discriminate.
Qed.

(* ================================================================= *)
(** ** Attachments *)

(** The handler of [add_attachment] never fires: nothing in the body
    of its [try] raises [InternalError]. *)
Lemma add_attachment_handler_dead (jira : Tracker) (attachment : string)
    (type : AttachmentType) (filename issue_id : string) :
  add_attachment jira attachment type filename issue_id
  = add_attachment_body jira attachment type filename issue_id.
Proof.
  unfold add_attachment, add_attachment_body, except_InternalError,
    request, bind, ret.
  now destruct (post_attachment jira issue_id filename attachment).
Qed.

(** C3, on the code.  A transport failure of the attachment call is
    not swallowed: with a tracker that files the new issue and cannot
    be reached for the attachment, [add_attachment] raises, and the
    request ends with that exception after the issue was created; and
    a log archive that does not decode raises before any attachment
    call, outside the [try]. *)
Theorem attachment_failure_fails_request :
  let jira := Scenario.tracker [] "Sprint 8" Unreachable in
  let run b64decode json_data :=
    receive_exception "Exception" "EX" Scenario.same_text_ratio
      Scenario.same_text_ratio "2017-03-02 09:30:00" b64decode 1000 jira
      (PostJson json_data) in
  (forall attachment type filename issue_id,
      add_attachment jira attachment type filename issue_id
      = ([AttachCall issue_id filename attachment], Raise RequestException))
  /\ (exists jql title description,
         run (fun s => Some s) Scenario.boom_report
         = ([SearchCall jql 0; CreateCall title description;
             AttachCall "EX-1" "stacktrace.txt"
               (get_stacktrace_from_message Scenario.boom_report)],
            Raise RequestException))
  /\ (let ok := Scenario.tracker [] "Sprint 8" (Reply 200 "" tt) in
      exists jql title description,
        receive_exception "Exception" "EX" Scenario.same_text_ratio
          Scenario.same_text_ratio "2017-03-02 09:30:00" (fun _ => None)
          1000 ok
          (PostJson
             {| json_stacktrace := json_stacktrace Scenario.boom_report;
                json_logs := Some "a";
                json_screenshots := None;
                json_extra := [] |})
        = ([SearchCall jql 0; CreateCall title description;
            AttachCall "EX-1" "stacktrace.txt"
              (get_stacktrace_from_message Scenario.boom_report)],
           Raise Base64Error)).
Proof.
  intros jira run. split; [reflexivity|]. split.
  - remember (run (fun s => Some s) Scenario.boom_report) as r eqn:E.
    vm_compute in E. subst r. do 3 eexists. reflexivity.
  - intros ok.
    match goal with
    | |- exists _ _ _, ?lhs = _ => remember lhs as r eqn:E
    end.
    vm_compute in E. subst r. do 3 eexists. reflexivity.
Qed.

(* ================================================================= *)
(** * Further properties *)

(** ** The paginated search *)

Section Search.

Variables JIRA_ISSUE_TITLE JIRA_PROJECT : string.
Variable jira : Tracker.

Local Abbreviation find := (find_existing_jira_issues JIRA_ISSUE_TITLE
                              JIRA_PROJECT jira).
Local Abbreviation jql := (find_jql JIRA_ISSUE_TITLE JIRA_PROJECT).

(** One step of the search on a page that was served. *)
Lemma find_step (d : nat) (summary : string) (start_at : Z)
    (content : string) (page : SearchPage) :
  post_search jira (jql summary) start_at = Reply 200 content page ->
  let later :=
    if total page >? start_at + maxResults page
    then find d summary (start_at + maxResults page)
    else ret [] in
  find (S d) summary start_at
  = (SearchCall (jql summary) start_at :: calls later,
     match outcome later with
     | Ok issue_list => Ok (issue_list ++ issues page)%list
     | Raise e => Raise e
     end).
Proof.
  intros H later. cbn [find_existing_jira_issues]. rewrite H.
  unfold request. cbn [bind List.app Z.eqb Pos.eqb negb].
  fold later. destruct later as [log [l|e]]; cbn [bind ret calls outcome fst snd].
  - now rewrite List.app_nil_r.
  - reflexivity.
Qed.


(** X3.  A page that announces more issues than it has served and a
    page size of zero makes the search call itself with the same
    arguments until the depth of calls is used up. *)
Theorem find_existing_jira_issues_zero_page (depth : nat) (summary : string)
    (start_at : Z) (content : string) (page : SearchPage) :
  post_search jira (jql summary) start_at = Reply 200 content page ->
  maxResults page = 0 ->
  total page > start_at ->
  find depth summary start_at
  = (List.repeat (SearchCall (jql summary) start_at) depth,
     Raise RecursionError).
Proof.
  intros H Hm Ht. induction depth as [|d IH]; [reflexivity|].
  rewrite (find_step d summary start_at content page H).
  rewrite Hm, Z.add_0_r.
  destruct (Z.gtb_spec (total page) start_at) as [_|]; [|lia].
  rewrite IH. reflexivity.
Qed.

(** The search from the issue of index [s] of a tracker that serves
    [all] by pages of [m]. *)
Lemma find_pages (all : list Issue) (m : nat) (summary : string) :
  (0 < m)%nat ->
  (forall start_at,
      exists content,
        post_search jira (jql summary) start_at
        = Reply 200 content (page_of all m start_at)) ->
  forall d s,
    (List.length all - s < d * m)%nat ->
    exists earlier,
      outcome (find d summary (Z.of_nat s))
      = Ok (earlier ++ firstn m (skipn s all))%list
      /\ Permutation (earlier ++ firstn m (skipn s all)) (skipn s all).
Proof.
  intros Hm Hserve. induction d as [|d IH]; intros s Hd; [lia|].
  destruct (Hserve (Z.of_nat s)) as [content H].
  rewrite (find_step d summary _ content _ H).
  cbn [outcome snd page_of maxResults total issues].
  rewrite Nat2Z.id.
  destruct (Z.gtb_spec (Z.of_nat (List.length all))
              (Z.of_nat s + Z.of_nat m)) as [Hmore|Hlast].
  - replace (Z.of_nat s + Z.of_nat m) with (Z.of_nat (s + m)) by lia.
    destruct (IH (s + m)%nat ltac:(lia)) as (earlier & -> & Hperm).
    exists (earlier ++ firstn m (skipn (s + m) all))%list.
    split; [reflexivity|].
    rewrite <- (firstn_skipn m (skipn s all)) at 2.
    eapply Permutation_trans; [apply Permutation_app_comm|].
    apply Permutation_app_head.
    rewrite skipn_skipn, (Nat.add_comm m s). exact Hperm.
  - exists []. cbn [ret outcome snd List.app]. split; [reflexivity|].
    rewrite firstn_all2; [reflexivity|].
    rewrite length_skipn. lia.
Qed.

(** X2.  From a tracker that serves its issues by pages of [m], a
    search that is allowed enough nested calls returns every issue
    once, the issues of the first page last. *)
Theorem find_existing_jira_issues_all_pages (all : list Issue) (m d : nat)
    (summary : string) :
  (0 < m)%nat ->
  (List.length all < d * m)%nat ->
  (forall start_at,
      exists content,
        post_search jira (jql summary) start_at
        = Reply 200 content (page_of all m start_at)) ->
  exists earlier,
    outcome (find d summary 0) = Ok (earlier ++ firstn m all)%list
    /\ Permutation (earlier ++ firstn m all) all.
Proof.
  intros Hm Hd Hserve.
  destruct (find_pages all m summary Hm Hserve d 0%nat ltac:(lia))
    as (earlier & Ho & Hp).
  exists earlier. split; assumption.
Qed.

End Search.

(** ** The stack trace embedded in a description *)

Module EmbedFacts.

Lemma all_take (p : ascii -> bool) (n : nat) (s : string) :
  Regex.all p s = true -> Regex.all p (PyStr.take n s) = true.
Proof.
  revert s; induction n as [|n IH]; intros [|c t]; try reflexivity.
  cbn [Regex.all PyStr.take]. intros H. apply andb_prop in H as [-> H].
  now apply IH.
Qed.

Lemma all_slice_to (p : ascii -> bool) (k : Z) (s : string) :
  Regex.all p s = true -> Regex.all p (PyStr.slice_to k s) = true.
Proof.
  destruct (StrFacts.slice_to_is_take k s) as [n ->]. apply all_take.
Qed.

Lemma all_trim_length (p : ascii -> bool) (s : string) (m : Z) :
  Regex.all p s = true -> Regex.all p (trim_length s m) = true.
Proof.
  unfold trim_length. destruct (_ >? _); [apply all_slice_to | auto].
Qed.

Lemma all_lstrip (p : ascii -> bool) (s : string) :
  Regex.all p s = true -> Regex.all p (PyStr.lstrip s) = true.
Proof.
  induction s as [|c t IH]; [reflexivity|].
  cbn [PyStr.lstrip]. destruct (PyChar.is_space c); [|auto].
  cbn [Regex.all]. intros H. apply andb_prop in H as [_ H]. auto.
Qed.

Lemma all_rstrip (p : ascii -> bool) (s : string) :
  Regex.all p s = true -> Regex.all p (PyStr.rstrip s) = true.
Proof.
  destruct (SanitizeFacts.rstrip_is_take s) as [n ->]. apply all_take.
Qed.

Lemma all_re_sub (p : ascii -> bool) (b : bool) (s : string) :
  p " "%char = true ->
  Regex.all p s = true -> Regex.all p (re_sub_spaces b s) = true.
Proof.
  intros Hsp. revert b; induction s as [|c t IH]; intros b; [reflexivity|].
  cbn [Regex.all re_sub_spaces]. intros H. apply andb_prop in H as [Hc H].
  destruct (PyChar.is_space c).
  - destruct b; [now apply IH|]. cbn [Regex.all]. rewrite Hsp. now apply IH.
  - cbn [Regex.all]. rewrite Hc. now apply IH.
Qed.

Lemma all_remove_blacklisted (p : ascii -> bool) (s : string) :
  Regex.all p s = true ->
  Regex.all p (SanitizeSpec.remove_blacklisted s) = true.
Proof.
  induction s as [|c t IH]; [reflexivity|].
  cbn [Regex.all SanitizeSpec.remove_blacklisted].
  intros H. apply andb_prop in H as [Hc H].
  destruct (PyStr.mem c BLACKLISTED_CHARACTERS); [auto|].
  cbn [Regex.all]. rewrite Hc. auto.
Qed.

(** A sanitized summary has no character that its source does not
    have, but for the space. *)
Lemma all_sanitize (p : ascii -> bool) (title raw : string) (f : bool) :
  p " "%char = true ->
  Regex.all p raw = true ->
  Regex.all p (sanitize_jql_summary title raw f) = true.
Proof.
  intros Hsp H. unfold sanitize_jql_summary.
  set (s := trim_length _ _).
  assert (Hs : Regex.all p s = true).
  { subst s. apply all_trim_length. unfold trim_whitespace, PyStr.strip.
    apply all_rstrip, all_lstrip, all_re_sub; [exact Hsp|].
    rewrite SanitizeFacts.filter_spec. now apply all_remove_blacklisted. }
  destruct (f && _)%bool; [now apply all_slice_to | exact Hs].
Qed.

Lemma no_brace_app (a b : string) :
  no_brace (a ++ b) = (no_brace a && no_brace b)%bool.
Proof. apply RegexFacts.all_app. Qed.

(** A text without a brace holds no delimiter. *)
Lemma split_aux_no_brace (a cur rest : string) :
  no_brace a = true ->
  PyStr.split_aux "{noformat}" 0 cur (a ++ rest)
  = PyStr.split_aux "{noformat}" 0 (cur ++ a) rest.
Proof.
  unfold no_brace.
  revert cur; induction a as [|c a IH]; intros cur H.
  - now rewrite StrFacts.app_nil_r.
  - cbn [Regex.all] in H. apply andb_prop in H as [Hc H].
    cbn [append PyStr.split_aux String.prefix].
    destruct (ascii_dec "{" c) as [<-|_]; [discriminate Hc|].
    rewrite (IH _ H), StrFacts.app_assoc. reflexivity.
Qed.

Lemma split_aux_delimiter (cur rest : string) :
  PyStr.split_aux "{noformat}" 0 cur ("{noformat}" ++ rest)
  = cur :: PyStr.split_aux "{noformat}" 0 "" rest.
Proof. destruct rest; reflexivity. Qed.

Lemma split_wrapped (a t : string) :
  no_brace a = true -> no_brace t = true ->
  PyStr.split "{noformat}" (a ++ "{noformat}" ++ t ++ "{noformat}")
  = [a; t; ""].
Proof.
  intros Ha Ht. unfold PyStr.split.
  rewrite (split_aux_no_brace a "" _ Ha), split_aux_delimiter.
  rewrite (split_aux_no_brace t "" _ Ht). reflexivity.
Qed.

Lemma split_no_delimiter (a : string) :
  no_brace a = true -> PyStr.split "{noformat}" a = [a].
Proof.
  intros Ha. unfold PyStr.split.
  rewrite <- (StrFacts.app_nil_r a) at 1.
  now rewrite split_aux_no_brace.
Qed.

Lemma take_length_take (n : nat) (s : string) :
  PyStr.take (String.length (PyStr.take n s)) s = PyStr.take n s.
Proof.
  revert s; induction n as [|n IH]; intros [|c t]; try reflexivity.
  cbn [PyStr.take String.length]. now rewrite IH.
Qed.

(** Trimming a text to the length of one of its trimmed forms gives
    that form. *)
Lemma slice_to_trim_length (s : string) (m : Z) :
  0 <= m ->
  PyStr.slice_to (PyStr.len (trim_length s m)) s = trim_length s m.
Proof.
  intros Hm. rewrite StrFacts.slice_to_nonneg by (unfold PyStr.len; lia).
  unfold PyStr.len. rewrite Nat2Z.id.
  rewrite SanitizeFacts.trim_length_spec by exact Hm.
  apply take_length_take.
Qed.

End EmbedFacts.

(** The description [add_to_jira] files. *)
Lemma calls_add_to_jira (title : string) (jira : Tracker)
    (summary details stacktrace : string) :
  let clean := sanitize_jql_summary title summary false in
  let nl := PyStr.chr PyChar.LF in
  calls (add_to_jira title jira summary details stacktrace)
  = [CreateCall (title ++ ": " ++ clean)
       ((clean ++ nl ++ nl ++ "Details:" ++ nl ++ details ++ nl ++ nl
           ++ "Stacktrace:" ++ nl)
          ++ "{noformat}"
          ++ trim_length stacktrace MAX_DESCRIPTION_LENGTH ++ "{noformat}")].
Proof.
  intros clean nl. unfold add_to_jira, request, bind, calls.
  fold clean. fold nl.
  rewrite !StrFacts.app_assoc.
  destruct (post_issue jira _ _) as [code content k|]; [|reflexivity].
  cbn [fst]. destruct (negb (code =? 201)); reflexivity.
Qed.

Lemma stored_trace_of_filed (title : string) (jira : Tracker)
    (summary details stacktrace : string) (issue : Issue)
    (issue_title : string) :
  calls (add_to_jira title jira summary details stacktrace)
  = [CreateCall issue_title (description issue)] ->
  no_brace summary = true ->
  no_brace details = true ->
  no_brace stacktrace = true ->
  get_stacktrace_from_issue issue
  = trim_length stacktrace MAX_DESCRIPTION_LENGTH.
Proof.
  intros Hc Hs Hd Ht.
  pose proof (calls_add_to_jira title jira summary details stacktrace) as Hf.
  cbv zeta in Hf. rewrite Hc in Hf.
  set (prefix := sanitize_jql_summary title summary false ++ _) in Hf.
  assert (Hdesc : description issue
                  = prefix ++ "{noformat}"
                      ++ trim_length stacktrace MAX_DESCRIPTION_LENGTH
                      ++ "{noformat}") by congruence.
  unfold get_stacktrace_from_issue.
  rewrite Hdesc, EmbedFacts.split_wrapped; [reflexivity| |].
  - subst prefix. rewrite !EmbedFacts.no_brace_app.
    unfold no_brace at 1.
    rewrite (EmbedFacts.all_sanitize _ title summary false eq_refl Hs).
    rewrite Hd. reflexivity.
  - now apply EmbedFacts.all_trim_length.
Qed.

(** X4.  The stack trace read from the description [add_to_jira]
    files is the stack trace it was given, cut to the maximal length,
    as long as neither the summary, the details nor the trace have an
    opening brace. *)
Theorem get_stacktrace_from_issue_of_filed (title : string) (jira : Tracker)
    (summary details stacktrace : string) (issue : Issue)
    (issue_title : string) :
  calls (add_to_jira title jira summary details stacktrace)
  = [CreateCall issue_title (description issue)] ->
  no_brace summary = true ->
  no_brace details = true ->
  no_brace stacktrace = true ->
  get_stacktrace_from_issue issue
  = trim_length stacktrace MAX_DESCRIPTION_LENGTH
  /\ PyStr.len (get_stacktrace_from_issue issue) <= MAX_DESCRIPTION_LENGTH.
Proof.
  intros Hc Hs Hd Ht.
  rewrite (stored_trace_of_filed _ _ _ _ _ _ _ Hc Hs Hd Ht).
  split; [reflexivity|].
  apply SanitizeFacts.length_trim_length. discriminate.
Qed.

Lemma matches_throw_location_same (t : string) :
  matches_exception_throw_location t t
  = rbind (first_line_caused_by_from_printed_stacktrace t)
          (fun _ => Ok true).
Proof.
  unfold matches_exception_throw_location.
  destruct (first_line_caused_by_from_printed_stacktrace t) as [a|e];
    cbn [rbind]; [|reflexivity].
  now rewrite String.eqb_refl.
Qed.

Lemma trim_length_nonempty (s : string) (m : Z) :
  0 < m -> s <> "" -> trim_length s m <> "".
Proof.
  intros Hm Hs. unfold trim_length.
  destruct (PyStr.len s >? m); [|exact Hs].
  rewrite StrFacts.slice_to_nonneg by lia.
  destruct s as [|c r]; [contradiction|].
  replace (Z.to_nat m) with (S (Z.to_nat m - 1)) by lia.
  discriminate.
Qed.

Lemma rendered_nonempty (json_data : Report) :
  json_stacktrace json_data <> [] ->
  get_stacktrace_from_message json_data <> "".
Proof.
  unfold get_stacktrace_from_message.
  destruct (json_stacktrace json_data) as [|f fs]; [contradiction|].
  intros _. cbn [write_traces].
  rewrite write_traces_spec, write_lines_spec. discriminate.
Qed.

(** X5.  A report meets the issue that [add_to_jira] filed for it:
    when the matcher rates a text against itself above the two
    thresholds, the guard of the resolver holds for the issue, unless
    the throw location of the stored trace is out of range; and then
    the issue, if it is the first one found and has a fix version, is
    the verdict. *)
Theorem filed_report_is_matched
    (ratio real_quick_ratio : string -> string -> Q)
    (title : string) (jira : Tracker) (json_data : Report)
    (summary details : string) (issue : Issue) (issue_title : string) :
  let new_stacktrace := get_stacktrace_from_message json_data in
  let stored := trim_length new_stacktrace MAX_DESCRIPTION_LENGTH in
  calls (add_to_jira title jira summary details new_stacktrace)
  = [CreateCall issue_title (description issue)] ->
  no_brace summary = true ->
  no_brace details = true ->
  no_brace new_stacktrace = true ->
  json_stacktrace json_data <> [] ->
  (6 # 10 < real_quick_ratio stored stored)%Q ->
  (7 # 10 < ratio stored stored)%Q ->
  is_match ratio real_quick_ratio new_stacktrace issue
  = rbind (first_line_caused_by_from_printed_stacktrace stored)
          (fun _ => Ok true)
  /\ (forall location latest rest,
         first_line_caused_by_from_printed_stacktrace stored = Ok location ->
         get_latest_fix_version (fixVersions issue) = Ok latest ->
         determine_loop ratio real_quick_ratio new_stacktrace (issue :: rest)
         = Ok (Duplicate (key issue) (status_name issue) (environment issue)
                 (name latest))).
Proof.
  intros new stored Hc Hs Hd Ht Hne Hq Hr.
  assert (Hst : get_stacktrace_from_issue issue = stored)
    by (eapply stored_trace_of_filed; eassumption).
  assert (Hm : is_match ratio real_quick_ratio new issue
               = rbind (first_line_caused_by_from_printed_stacktrace stored)
                       (fun _ => Ok true)).
  { unfold is_match, new_trimmed_stacktrace, match_ratio. rewrite Hst.
    replace (PyStr.slice_to (PyStr.len stored) new) with stored
      by (symmetry; apply EmbedFacts.slice_to_trim_length; discriminate).
    assert (Hlen : (0 <? PyStr.len stored) = true).
    { apply nonempty_len. subst stored.
      apply trim_length_nonempty; [reflexivity|].
      now apply rendered_nonempty. }
    rewrite Hlen. cbn [negb].
    apply Qgtb_lt in Hq. rewrite Hq.
    apply Qgtb_lt in Hr. rewrite Hr. cbn [negb].
    apply matches_throw_location_same. }
  split; [exact Hm|].
  intros location latest rest Hl Hv. cbn [determine_loop].
  rewrite Hm, Hl. cbn [rbind]. now rewrite Hv.
Qed.

(** X6.  An issue whose description has no opening brace, hence no
    [{noformat}] block, has an empty stored trace and is passed over
    by the resolver. *)
Theorem issue_without_block_is_skipped
    (ratio real_quick_ratio : string -> string -> Q)
    (new_stacktrace : string) (issue : Issue) (rest : list Issue) :
  no_brace (description issue) = true ->
  get_stacktrace_from_issue issue = ""
  /\ determine_loop ratio real_quick_ratio new_stacktrace (issue :: rest)
     = determine_loop ratio real_quick_ratio new_stacktrace rest.
Proof.
  intros H.
  assert (E : get_stacktrace_from_issue issue = "").
  { unfold get_stacktrace_from_issue.
    now rewrite EmbedFacts.split_no_delimiter. }
  split; [exact E|].
  cbn [determine_loop]. unfold is_match. rewrite E. reflexivity.
Qed.

(** ** What a sanitized summary is made of *)

Lemma tidy_mem (b : bool) (s : string) (c : ascii) :
  SanitizeSpec.tidy_from b s = true ->
  PyStr.mem c s = true ->
  c = " "%char
  \/ (PyChar.is_space c = false
      /\ PyStr.mem c BLACKLISTED_CHARACTERS = false).
Proof.
  revert b; induction s as [|d t IH]; intros b; [discriminate 2|].
  cbn [SanitizeSpec.tidy_from PyStr.mem]. intros Ht Hm.
  destruct (Ascii.eqb_spec c d) as [->|_].
  - destruct (PyChar.is_space d) eqn:E.
    + apply andb_prop in Ht as [Ht _]. apply andb_prop in Ht as [Ht _].
      left. now apply Ascii.eqb_eq.
    + apply andb_prop in Ht as [Ht _]. apply negb_true_iff in Ht. now right.
  - cbn [orb] in Hm.
    destruct (PyChar.is_space d); apply andb_prop in Ht as [_ Ht];
      eapply IH; eassumption.
Qed.

(** X7.  Whatever the text, the sanitized summary holds no blacklisted
    character, no whitespace but the space, does not start with a
    space and has no two spaces in a row; it has at most the length
    the title leaves to it and, for a query, at most one colon. *)
Theorem sanitize_jql_summary_shape (JIRA_ISSUE_TITLE : string)
    (raw : string) (trim_for_query : bool) :
  (String.length JIRA_ISSUE_TITLE <= 253)%nat ->
  let sanitized :=
    sanitize_jql_summary JIRA_ISSUE_TITLE raw trim_for_query in
  (forall c, PyStr.mem c BLACKLISTED_CHARACTERS = true ->
             PyStr.mem c sanitized = false)
  /\ (forall c, PyChar.is_space c = true -> c <> " "%char ->
                PyStr.mem c sanitized = false)
  /\ SanitizeSpec.tidy sanitized = true
  /\ PyStr.len JIRA_ISSUE_TITLE + 2 + PyStr.len sanitized
     <= MAX_SUMMARY_LENGTH
  /\ (trim_for_query = true -> (PyStr.count ":" sanitized <= 1)%nat).
Proof.
  intros Hlen sanitized.
  assert (Ht : SanitizeSpec.tidy sanitized = true)
    by apply SanitizeFacts.tidy_sanitize.
  split; [|split; [|split; [exact Ht|split]]].
  - intros c Hc. destruct (PyStr.mem c sanitized) eqn:M; [|reflexivity].
    destruct (tidy_mem true sanitized c Ht M) as [->|[_ H]];
      [discriminate Hc | congruence].
  - intros c Hc Hn. destruct (PyStr.mem c sanitized) eqn:M; [|reflexivity].
    destruct (tidy_mem true sanitized c Ht M) as [->|[H _]];
      [contradiction | congruence].
  - destruct (SanitizeFacts.max_length_nonneg _ Hlen) as [H0 _].
    pose proof (SanitizeFacts.length_sanitize JIRA_ISSUE_TITLE raw
                  trim_for_query H0) as H.
    fold sanitized in H. unfold max_length in H. lia.
  - intros ->.
    pose proof (SanitizeFacts.count_colon_sanitize JIRA_ISSUE_TITLE raw).
    subst sanitized. lia.
Qed.

Lemma sanitize_jql_summary_shape_witness :
  (String.length "Exception" <= 253)%nat
  /\ PyStr.mem "'"
       (sanitize_jql_summary "Exception" "Error: can't parse [x]" true)
     = false.
Proof.
  assert (H : (String.length "Exception" <= 253)%nat) by (cbn; lia).
  split; [exact H|].
  exact (proj1 (sanitize_jql_summary_shape "Exception"
                  "Error: can't parse [x]" true H) "'"%char eq_refl).
Defined.

(** ** Creating and updating an issue *)





(** ** Attachments *)


Section AttachmentCalls.

Variable b64decode : string -> option string.
Variable jira : Tracker.






End AttachmentCalls.

(** *** Attachments that the tracker answers *)


Section Attachments.

Variable b64decode : string -> option string.
Variable jira : Tracker.

(** Every attachment call is answered, with whatever status. *)
Hypothesis answered :
  forall issue_id filename content,
    exists code text,
      post_attachment jira issue_id filename content = Reply code text tt.

Lemma add_attachment_answered (attachment : string) (type : AttachmentType)
    (filename issue_id : string) :
  add_attachment jira attachment type filename issue_id
  = ([AttachCall issue_id filename attachment], Ok tt).
Proof.
  unfold add_attachment, add_attachment_body, request.
  destruct (answered issue_id filename attachment) as (code & text & ->).
  reflexivity.
Qed.

Lemma decode_Some (e : string) :
  b64decode e <> None ->
  exists data, decode b64decode e = ([], Ok data).
Proof.
  unfold decode. destruct (b64decode e) as [data|]; [|contradiction].
  intros _. now exists data.
Qed.

Lemma attach_screenshots_answered (screenshots : list string)
    (issue_id : string) :
  Forall (fun e => b64decode e <> None) screenshots ->
  outcome (attach_screenshots b64decode jira screenshots issue_id) = Ok tt
  /\ List.length (calls (attach_screenshots b64decode jira screenshots
                           issue_id))
     = List.length screenshots.
Proof.
  induction 1 as [|e r He Hr [IHo IHc]]; [now split|].
  cbn [attach_screenshots].
  destruct (decode_Some e He) as [data ->].
  rewrite !outcome_bind, !calls_bind.
  cbn [outcome calls fst snd List.app].
  rewrite !outcome_bind, !calls_bind, add_attachment_answered.
  cbn [outcome calls fst snd List.app List.length].
  split; [exact IHo | now rewrite IHc].
Qed.

Lemma attachments_answered (json_data : Report)
    (issue_id : string) :
  Forall (fun e => b64decode e <> None) (encoded_attachments json_data) ->
  let run := update_issue_with_attachments b64decode jira json_data issue_id in
  outcome run = Ok tt
  /\ List.length (calls run)
     = S (List.length (encoded_attachments json_data))
  /\ List.hd_error (calls run)
     = Some (AttachCall issue_id "stacktrace.txt"
               (get_stacktrace_from_message json_data)).
Proof.
  unfold encoded_attachments, update_issue_with_attachments.
  intros H. apply Forall_app in H as [Hl Hs].
  set (logs_step := match json_logs json_data with
                    | Some _ => _
                    | None => _
                    end).
  set (shots_step := match json_screenshots json_data with
                     | Some _ => _
                     | None => _
                     end).
  assert (L : outcome logs_step = Ok tt
              /\ List.length (calls logs_step)
                 = List.length (match json_logs json_data with
                                | Some logs => [logs]
                                | None => []
                                end)).
  { subst logs_step. destruct (json_logs json_data) as [logs|];
      [|now split].
    inversion Hl as [|? ? Hd _]; subst.
    destruct (decode_Some logs Hd) as [data ->].
    rewrite outcome_bind, calls_bind.
    cbn [outcome calls fst snd List.app].
    rewrite add_attachment_answered. now split. }
  assert (S : outcome shots_step = Ok tt
              /\ List.length (calls shots_step)
                 = List.length (match json_screenshots json_data with
                                | Some l => l
                                | None => []
                                end)).
  { subst shots_step. destruct (json_screenshots json_data) as [l|].
    - now apply attach_screenshots_answered.
    - now split. }
  destruct L as [Lo Lc]. destruct S as [So Sc].
  cbv zeta.
  rewrite !outcome_bind, !calls_bind, add_attachment_answered.
  cbn [outcome calls fst snd List.app List.hd_error List.length].
  rewrite Lo, So.
  split; [reflexivity|]. split; [|reflexivity].
  rewrite !List.length_app. now rewrite Lc, Sc.
Qed.


End Attachments.

(** ** The route *)

Section Route.

Variables JIRA_ISSUE_TITLE JIRA_PROJECT : string.
Variables ratio real_quick_ratio : string -> string -> Q.
Variable now : string.
Variable b64decode : string -> option string.
Variable recursion_limit : nat.
Variable jira : Tracker.

Local Abbreviation receive :=
  (receive_exception JIRA_ISSUE_TITLE JIRA_PROJECT ratio real_quick_ratio
     now b64decode recursion_limit jira).
Local Abbreviation add :=
  (add_jira_exception JIRA_ISSUE_TITLE JIRA_PROJECT ratio real_quick_ratio
     now b64decode recursion_limit jira).
Local Abbreviation determine :=
  (determine_if_duplicate JIRA_ISSUE_TITLE JIRA_PROJECT ratio
     real_quick_ratio recursion_limit jira).



(** X12.  On the duplicate path the active sprint is asked for
    whatever the status of the issue; when the board has none, the
    request ends with [IndexError] right after that call, before the
    occurrence count is updated. *)
Theorem duplicate_without_active_sprint (json_data : Report)
    (k st : string) (env : option string) (fv : string)
    (code : Z) (content : string) :
  outcome (determine json_data) = Ok (Duplicate k st env fv) ->
  get_active_sprints jira = Reply code content [] ->
  receive (PostJson json_data)
  = ((calls (determine json_data) ++ [SprintCall])%list, Raise IndexError).
Proof.
  intros Hd Hs. unfold receive_exception, add_jira_exception.
  destruct (determine json_data) as [log r] eqn:E.
  cbn [outcome snd] in Hd. subst r. cbn [bind calls fst].
  unfold should_reopen_if_closed, get_current_sprint, request.
  rewrite Hs. reflexivity.
Qed.

End Route.

(** ** The latest fix version *)

Module NameOrderFacts.

Import NameOrder.

Lemma lt_iff (a b : string) : lt a b <-> String_as_OT.lt a b.
Proof.
  unfold lt, String.ltb. rewrite <- String_as_OT.cmp_lt.
  unfold String_as_OT.cmp. destruct (String.compare a b); intuition congruence.
Qed.

Lemma lt_trans (a b c : string) : lt a b -> lt b c -> lt a c.
Proof. rewrite !lt_iff. apply String_as_OT.lt_trans. Qed.

Lemma lt_irrefl (a : string) : ~ lt a a.
Proof.
  rewrite lt_iff. intros H. now apply (String_as_OT.lt_not_eq a a H).
Qed.

Lemma lt_asym (a b : string) : lt a b -> ~ lt b a.
Proof. intros H H'. apply (lt_irrefl a). now apply (lt_trans a b a). Qed.

Lemma descending_insert (v : FixVersion) (l : list FixVersion) :
  descending l -> descending (insert_by_name_desc v l).
Proof.
  unfold descending. induction 1 as [|w r Hr IH Hw];
    cbn [insert_by_name_desc].
  - repeat constructor.
  - destruct (String.ltb (name w) (name v)) eqn:E.
    + constructor; [now constructor|].
      constructor; [now apply lt_asym|].
      rewrite Forall_forall in *. intros x Hx Hvx.
      apply (Hw x Hx). now apply (lt_trans _ (name v)).
    + constructor; [exact IH|].
      rewrite Forall_forall in *. intros x Hx.
      apply In_insert_by_name_desc in Hx as [->|Hx]; [|now apply Hw].
      unfold lt. now rewrite E.
Qed.

Lemma descending_sorted (l : list FixVersion) :
  descending (sorted_by_name_desc l).
Proof.
  unfold sorted_by_name_desc.
  assert (G : forall acc, descending acc ->
                          descending (fold_left
                                        (fun a v => insert_by_name_desc v a)
                                        l acc)).
  { induction l as [|v r IH]; intros acc Hacc; [exact Hacc|].
    cbn [fold_left]. apply IH. now apply descending_insert. }
  apply G. constructor.
Qed.

End NameOrderFacts.

(** X16.  The latest fix version is one of the versions and no
    version has a greater name, in the order of the code points; a
    list that is not empty has one. *)
Theorem get_latest_fix_version_greatest (fix_versions : list FixVersion) :
  (fix_versions <> [] ->
   exists latest, get_latest_fix_version fix_versions = Ok latest)
  /\ (forall latest,
         get_latest_fix_version fix_versions = Ok latest ->
         In latest fix_versions
         /\ forall v, In v fix_versions ->
                      String.ltb (name latest) (name v) = false).
Proof.
  split; [apply get_latest_fix_version_nonempty|].
  intros latest H. split; [now apply get_latest_fix_version_In|].
  intros v Hv. pose proof (NameOrderFacts.descending_sorted fix_versions) as Hs.
  unfold get_latest_fix_version, getitem_py, getitem in H.
  cbn [Z.ltb Z.compare Z.to_nat nth_error] in H.
  destruct (sorted_by_name_desc fix_versions) as [|w r] eqn:E;
    [discriminate|].
  injection H as ->.
  apply In_sorted_by_name_desc in Hv. rewrite E in Hv.
  destruct Hv as [->|Hv].
  - destruct (String.ltb (name v) (name v)) eqn:L; [|reflexivity].
    exfalso. now apply (NameOrderFacts.lt_irrefl (name v)).
  - inversion Hs as [|? ? _ Hall]; subst.
    rewrite Forall_forall in Hall. specialize (Hall v Hv).
    unfold NameOrder.lt in Hall.
    now destruct (String.ltb (name latest) (name v)).
Qed.

Lemma get_latest_fix_version_greatest_witness :
  let versions :=
    [ {| name := "Sprint 9" |}; {| name := "Sprint 12" |};
      {| name := "Sprint 10" |} ] in
  versions <> []
  /\ get_latest_fix_version versions = Ok {| name := "Sprint 9" |}
  /\ String.ltb "Sprint 9" "Sprint 12" = false.
Proof.
  intros versions.
  assert (Hne : versions <> []) by discriminate.
  assert (H : get_latest_fix_version versions = Ok {| name := "Sprint 9" |})
    by (vm_compute; reflexivity).
  split; [exact Hne | split; [exact H|]].
  exact (proj2 (proj2 (get_latest_fix_version_greatest versions) _ H)
           {| name := "Sprint 12" |} (or_intror (or_introl eq_refl))).
Defined.

(** ** The occurrence count, call after call *)

Lemma str_of_Z_nonneg (z : Z) :
  0 <= z -> PyStr.str_of_Z z = PyStr.str_of_N (Z.to_N z).
Proof.
  intros H. unfold PyStr.str_of_Z.
  destruct (Z.ltb_spec z 0); [lia | reflexivity].
Qed.

(** X17.  The text [calculate_issue_occurrence_count] returns is read
    back by the next call: every result is [Count: c] with [1 <= c]
    and the time of the call, and the call on that result gives
    [Count: c+1]. *)
Theorem calculate_issue_occurrence_count_again (now1 now2 : string)
    (existing_count : option string) :
  let nl := PyStr.chr PyChar.LF in
  exists c,
    1 <= c
    /\ calculate_issue_occurrence_count now1 existing_count
       = "Count: " ++ PyStr.str_of_Z c ++ nl ++ "Last: " ++ now1
    /\ calculate_issue_occurrence_count now2
         (Some (calculate_issue_occurrence_count now1 existing_count))
       = "Count: " ++ PyStr.str_of_Z (c + 1) ++ nl ++ "Last: " ++ now2.
Proof.
  intros nl.
  assert (Hc : exists c,
             1 <= c
             /\ calculate_issue_occurrence_count now1 existing_count
                = "Count: " ++ PyStr.str_of_Z c ++ nl ++ "Last: " ++ now1).
  { unfold calculate_issue_occurrence_count.
    destruct existing_count as [e|]; [|exists 1; now split].
    destruct (0 <? PyStr.len e); [|exists 1; now split].
    destruct (Regex.exec REGEX_COUNT e) as [g|]; [|exists 1; now split].
    exists (PyStr.int_of_digits (nth 0 g "") + 1).
    split; [unfold PyStr.int_of_digits; lia | reflexivity]. }
  destruct Hc as (c & Hc1 & Hc).
  exists c. split; [exact Hc1 | split; [exact Hc|]].
  rewrite Hc, calculate_issue_occurrence_count_exec.
  unfold CountSpec.occurrence_count.
  rewrite (str_of_Z_nonneg c) by lia.
  destruct (DecimalFacts.str_of_N_spec (Z.to_N c)) as (Hne & Hall & Hval).
  change ("Count: " ++ PyStr.str_of_N (Z.to_N c) ++ nl ++ "Last: " ++ now1)
    with ("Count: " ++ PyStr.str_of_N (Z.to_N c)
            ++ String PyChar.LF ("Last: " ++ now1)).
  rewrite (REGEX_COUNT_reads _ _ Hne Hall). cbn [nth].
  rewrite Hval. replace (Z.of_N (Z.to_N c)) with c by lia.
  reflexivity.
Qed.

(** ** Whitespace *)

Module WhitespaceFacts.

Lemma neat_re_sub (b : bool) (x : string) :
  neat_from b (re_sub_spaces b x) = true.
Proof.
  revert b; induction x as [|c t IH]; intros b; [reflexivity|].
  cbn [re_sub_spaces]. destruct (PyChar.is_space c) eqn:E.
  - destruct b; [apply IH|].
    cbn [neat_from]. change (PyChar.is_space " ") with true.
    cbn iota. now rewrite IH.
  - cbn [neat_from]. now rewrite E, IH.
Qed.

Lemma neat_lstrip (b : bool) (s : string) :
  neat_from b s = true -> neat_from true (PyStr.lstrip s) = true.
Proof.
  revert b; induction s as [|c t IH]; intros b; [reflexivity|].
  cbn [neat_from PyStr.lstrip]. destruct (PyChar.is_space c) eqn:E.
  - intros H. apply andb_prop in H as [_ H]. now apply (IH true).
  - intros H. cbn [neat_from]. now rewrite E.
Qed.

Lemma neat_take (b : bool) (n : nat) (s : string) :
  neat_from b s = true -> neat_from b (PyStr.take n s) = true.
Proof.
  revert b s; induction n as [|n IH]; intros b [|c t]; try reflexivity.
  cbn [neat_from PyStr.take]. destruct (PyChar.is_space c).
  - intros H. apply andb_prop in H as [H1 H2].
    rewrite H1. cbn [andb]. now apply IH.
  - now apply IH.
Qed.

Lemma neat_trim_whitespace (s : string) :
  neat_from true (trim_whitespace s) = true.
Proof.
  unfold trim_whitespace, PyStr.strip.
  destruct (SanitizeFacts.rstrip_is_take
              (PyStr.lstrip (re_sub_spaces false s))) as [n ->].
  apply neat_take, (neat_lstrip false), neat_re_sub.
Qed.

Lemma neat_re_sub_id (b : bool) (s : string) :
  neat_from b s = true ->
  re_sub_spaces false s = s /\ (b = true -> re_sub_spaces true s = s).
Proof.
  revert b; induction s as [|c t IH]; intros b; [now split|].
  cbn [neat_from re_sub_spaces].
  destruct (PyChar.is_space c); intros H.
  - apply andb_prop in H as [H1 H2]. apply andb_prop in H1 as [H1 H3].
    apply Ascii.eqb_eq in H1. subst c.
    apply negb_true_iff in H3. subst b.
    destruct (IH true H2) as [_ IHt]. rewrite IHt by reflexivity.
    split; [reflexivity | discriminate].
  - destruct (IH false H) as [IHf _]. rewrite IHf. now split.
Qed.

Lemma neat_lstrip_id (s : string) :
  neat_from true s = true -> PyStr.lstrip s = s.
Proof.
  destruct s as [|c t]; [reflexivity|].
  cbn [neat_from PyStr.lstrip]. destruct (PyChar.is_space c); [|reflexivity].
  rewrite andb_false_r. discriminate.
Qed.

Lemma neat_starts (s : string) :
  neat_from true s = true -> SanitizeSpec.starts_with_space s = false.
Proof.
  destruct s as [|c t]; [reflexivity|].
  cbn [neat_from SanitizeSpec.starts_with_space].
  destruct (PyChar.is_space c); [|reflexivity].
  rewrite andb_false_r. discriminate.
Qed.

Lemma neat_mem (b : bool) (s : string) (c : ascii) :
  neat_from b s = true -> PyStr.mem c s = true ->
  PyChar.is_space c = true -> c = " "%char.
Proof.
  revert b; induction s as [|d t IH]; intros b; [discriminate 2|].
  cbn [neat_from PyStr.mem]. intros Hn Hm Hc.
  destruct (Ascii.eqb_spec c d) as [->|_].
  - rewrite Hc in Hn. apply andb_prop in Hn as [Hn _].
    apply andb_prop in Hn as [Hn _]. now apply Ascii.eqb_eq.
  - cbn [orb] in Hm. destruct (PyChar.is_space d).
    + apply andb_prop in Hn as [_ Hn]. eapply IH; eassumption.
    + eapply IH; eassumption.
Qed.

Lemma rstrip_no_trailing (s : string) :
  SanitizeSpec.ends_with_space (PyStr.rstrip s) = false.
Proof.
  induction s as [|c t IH]; [reflexivity|].
  cbn [PyStr.rstrip]. destruct (PyStr.rstrip t) as [|d r] eqn:R.
  - destruct (PyChar.is_space c) eqn:E; [reflexivity|].
    cbn [PyStr.chr SanitizeSpec.ends_with_space]. exact E.
  - exact IH.
Qed.

End WhitespaceFacts.

(** X15.  [trim_whitespace] is idempotent; its result neither starts
    nor ends with whitespace and has no whitespace but single
    spaces. *)
Theorem trim_whitespace_idempotent (input : string) :
  let trimmed := trim_whitespace input in
  trim_whitespace trimmed = trimmed
  /\ SanitizeSpec.starts_with_space trimmed = false
  /\ SanitizeSpec.ends_with_space trimmed = false
  /\ neat_from true trimmed = true
  /\ (forall c, PyChar.is_space c = true -> c <> " "%char ->
                PyStr.mem c trimmed = false).
Proof.
  intros trimmed.
  assert (Hn : neat_from true trimmed = true)
    by apply WhitespaceFacts.neat_trim_whitespace.
  assert (He : SanitizeSpec.ends_with_space trimmed = false)
    by apply WhitespaceFacts.rstrip_no_trailing.
  split; [|split; [|split; [exact He | split; [exact Hn|]]]].
  - unfold trim_whitespace at 1. unfold PyStr.strip.
    destruct (WhitespaceFacts.neat_re_sub_id true trimmed Hn) as [-> _].
    rewrite (WhitespaceFacts.neat_lstrip_id trimmed Hn).
    now apply SanitizeFacts.rstrip_fixed.
  - now apply WhitespaceFacts.neat_starts.
  - intros c Hc Hne. destruct (PyStr.mem c trimmed) eqn:M; [|reflexivity].
    exfalso. apply Hne.
    exact (WhitespaceFacts.neat_mem true trimmed c Hn M Hc).
Qed.

(** ** The throw location of a printed stack trace *)

Module PrintedFacts.

Import Printed.

Lemma join_app (a b : list string) :
  PyStr.join (a ++ b) = PyStr.join a ++ PyStr.join b.
Proof.
  induction a as [|x a IH]; [reflexivity|].
  cbn [List.app PyStr.join]. now rewrite IH, StrFacts.app_assoc.
Qed.

Lemma render_frame_lines (trace : CauseFrame) :
  ExtractSpec.render_frame trace
  = PyStr.join (List.map add_lf (frame_lines trace)).
Proof.
  unfold ExtractSpec.render_frame, frame_lines, ExtractSpec.header_text,
    header_line, written.
  cbn [List.map PyStr.join]. unfold add_lf at 1.
  rewrite !StrFacts.app_assoc. do 2 f_equal.
  rewrite List.map_map. f_equal. f_equal. apply List.map_ext. intros l.
  unfold ExtractSpec.line_text, at_line, add_lf.
  now rewrite !StrFacts.app_assoc.
Qed.

(** The printed stack trace is its lines, each with a line feed. *)
Lemma printed_lines (json_data : Report) :
  get_stacktrace_from_message json_data
  = PyStr.join
      (List.map add_lf (List.flat_map frame_lines (json_stacktrace json_data))).
Proof.
  unfold get_stacktrace_from_message. rewrite write_traces_spec.
  cbn [append].
  induction (json_stacktrace json_data) as [|f fs IH]; [reflexivity|].
  cbn [List.map List.flat_map PyStr.join].
  rewrite List.map_app, join_app, IH. f_equal. apply render_frame_lines.
Qed.

Lemma splitlines_aux_line (t cur rest : string) (pending : bool) :
  no_linebreak t = true ->
  PyStr.splitlines_aux cur pending false (t ++ String PyChar.LF rest)
  = (cur ++ t) :: PyStr.splitlines_aux "" false false rest.
Proof.
  unfold no_linebreak.
  revert cur pending; induction t as [|c t IH]; intros cur pending H.
  - rewrite StrFacts.app_nil_r. reflexivity.
  - cbn [Regex.all] in H. apply andb_prop in H as [Hc H].
    apply negb_true_iff in Hc.
    cbn [append PyStr.splitlines_aux andb]. rewrite Hc.
    rewrite (IH _ true H), StrFacts.app_assoc. reflexivity.
Qed.

Lemma splitlines_lines (texts : list string) :
  Forall (fun t => no_linebreak t = true) texts ->
  PyStr.splitlines (PyStr.join (List.map add_lf texts)) = texts.
Proof.
  unfold PyStr.splitlines.
  induction 1 as [|t r Ht Hr IH]; [reflexivity|].
  cbn [List.map PyStr.join]. unfold add_lf at 1.
  rewrite StrFacts.app_assoc. cbn [PyStr.chr append].
  rewrite splitlines_aux_line by exact Ht. now rewrite IH.
Qed.

Lemma header_matches (trace : CauseFrame) :
  Regex.matches REGEX_CAUSED_BY (header_line trace) = true.
Proof. reflexivity. Qed.

Lemma at_line_no_match (l : StackLine) :
  Regex.matches REGEX_CAUSED_BY (at_line l) = false.
Proof. reflexivity. Qed.

Lemma last_causedby_loop_app (loc i : Z) (a b : list string) :
  last_causedby_loop loc i (a ++ b)
  = last_causedby_loop (last_causedby_loop loc i a)
      (i + Z.of_nat (List.length a)) b.
Proof.
  revert loc i; induction a as [|x a IH]; intros loc i.
  - cbn [List.app List.length last_causedby_loop]. f_equal. lia.
  - cbn [List.app List.length last_causedby_loop]. rewrite IH.
    f_equal. lia.
Qed.

Lemma last_causedby_loop_none (loc i : Z) (b : list string) :
  Forall (fun t => Regex.matches REGEX_CAUSED_BY t = false) b ->
  last_causedby_loop loc i b = loc.
Proof.
  intros H. revert i; induction H as [|x r Hx Hr IH]; intros i;
    [reflexivity|].
  cbn [last_causedby_loop]. rewrite Hx. apply IH.
Qed.

Lemma before_no_colon (a b : string) :
  no_colon a = true ->
  PyStr.before ":" (a ++ b) = a ++ PyStr.before ":" b.
Proof.
  unfold no_colon. induction a as [|c a IH]; [reflexivity|].
  cbn [Regex.all append PyStr.before]. intros H.
  apply andb_prop in H as [Hc H]. apply negb_true_iff in Hc.
  rewrite Hc. now rewrite IH.
Qed.

Lemma before_at_line (l : StackLine) :
  no_colon (className l) = true ->
  no_colon (methodName l) = true ->
  no_colon (fileName l) = true ->
  PyStr.before ":" (at_line l) = location l.
Proof.
  intros Hc Hm Hf. unfold at_line, location.
  change (PyStr.chr PyChar.TAB ++ "at " ++ ?r)
    with ((PyStr.chr PyChar.TAB ++ "at ") ++ r).
  rewrite before_no_colon by reflexivity.
  rewrite before_no_colon by exact Hc.
  rewrite (before_no_colon "." _ eq_refl).
  rewrite before_no_colon by exact Hm.
  rewrite (before_no_colon "(" _ eq_refl).
  rewrite before_no_colon by exact Hf.
  cbn [append PyStr.before Ascii.eqb Bool.eqb].
  now rewrite StrFacts.app_nil_r.
Qed.

Lemma digits_no_linebreak (s : string) :
  Regex.all PyChar.is_digit s = true -> no_linebreak s = true.
Proof.
  unfold no_linebreak. induction s as [|c t IH]; [reflexivity|].
  cbn [Regex.all]. intros H. apply andb_prop in H as [Hc H].
  rewrite (IH H), andb_true_r.
  destruct c as [[] [] [] [] [] [] [] []]; cbn in Hc |- *; congruence.
Qed.

Lemma str_of_Z_no_linebreak (z : Z) :
  no_linebreak (PyStr.str_of_Z z) = true.
Proof.
  unfold PyStr.str_of_Z. destruct (z <? 0).
  - unfold no_linebreak. cbn [Regex.all].
    change (negb (PyChar.is_linebreak "-")) with true. cbn [andb].
    apply digits_no_linebreak. apply DecimalFacts.str_of_N_spec.
  - apply digits_no_linebreak. apply DecimalFacts.str_of_N_spec.
Qed.

Lemma no_linebreak_app (a b : string) :
  no_linebreak (a ++ b) = (no_linebreak a && no_linebreak b)%bool.
Proof. apply RegexFacts.all_app. Qed.

Lemma frame_lines_one_line (trace : CauseFrame) :
  one_line_frame trace = true ->
  Forall (fun t => no_linebreak t = true) (frame_lines trace).
Proof.
  unfold one_line_frame, frame_lines. intros H.
  apply andb_prop in H as [Hm Hl]. constructor.
  - unfold header_line. now rewrite no_linebreak_app, Hm.
  - rewrite forallb_forall in Hl. apply Forall_forall. intros t Ht.
    apply in_map_iff in Ht as (l & <- & Hin).
    specialize (Hl l Hin). unfold one_line_fields in Hl.
    apply andb_prop in Hl as [Hl Hf]. apply andb_prop in Hl as [Hc Hm'].
    unfold at_line.
    rewrite !no_linebreak_app, Hc, Hm', Hf, str_of_Z_no_linebreak.
    reflexivity.
Qed.

End PrintedFacts.

(** The throw location of a printed report. *)
Lemma throw_location_printed (json_data : Report)
    (earlier : list CauseFrame) (last : CauseFrame)
    (top : StackLine) (below : list StackLine) :
  json_stacktrace json_data = (earlier ++ [last])%list ->
  Printed.written (stacktrace last) = top :: below ->
  forallb Printed.one_line_frame (json_stacktrace json_data) = true ->
  Printed.no_colon (className top) = true ->
  Printed.no_colon (methodName top) = true ->
  Printed.no_colon (fileName top) = true ->
  first_line_caused_by_from_printed_stacktrace
    (get_stacktrace_from_message json_data)
  = Ok (Printed.location top).
Proof.
  intros Hf Hw Hone Hc Hm Hfile.
  unfold first_line_caused_by_from_printed_stacktrace.
  rewrite PrintedFacts.printed_lines, PrintedFacts.splitlines_lines.
  - rewrite Hf, List.flat_map_app. cbn [List.flat_map].
    rewrite List.app_nil_r. unfold Printed.frame_lines at 2 4.
    rewrite Hw. cbn [List.map].
    set (init := List.flat_map Printed.frame_lines earlier).
    change (init ++ Printed.header_line last :: ?r)%list
      with (init ++ [Printed.header_line last] ++ r)%list.
    rewrite List.app_assoc.
    rewrite PrintedFacts.last_causedby_loop_app,
      last_causedby_loop_snoc, PrintedFacts.header_matches.
    rewrite PrintedFacts.last_causedby_loop_none.
    + unfold getitem_py, getitem.
      destruct (Z.ltb_spec (0 + Z.of_nat (List.length init) + 1) 0); [lia|].
      replace (Z.to_nat (0 + Z.of_nat (List.length init) + 1))
        with (List.length (init ++ [Printed.header_line last]) + 0)%nat
        by (rewrite List.length_app; cbn [List.length]; lia).
      rewrite List.nth_error_app2 by lia.
      replace (_ - _)%nat with 0%nat by lia.
      cbn [nth_error rbind].
      now rewrite PrintedFacts.before_at_line.
    + constructor; [apply PrintedFacts.at_line_no_match|].
      apply Forall_forall. intros t Ht.
      apply in_map_iff in Ht as (l & <- & _).
      apply PrintedFacts.at_line_no_match.
  - rewrite forallb_forall in Hone. apply Forall_forall. intros t Ht.
    apply in_flat_map in Ht as (f & Hin & Ht).
    pose proof (PrintedFacts.frame_lines_one_line f (Hone f Hin)) as Hall.
    rewrite Forall_forall in Hall. now apply Hall.
Qed.

(** X14.  For a report whose texts have no line boundary of their
    own, the throw location of its printed stack trace is the first
    written stack line of its last cause frame, up to the file name:
    the class, the method and the file, not the line number and not
    the class of the exception. *)
Theorem throw_location_of_printed_stacktrace (json_data : Report)
    (top : StackLine) :
  throws_at json_data top ->
  first_line_caused_by_from_printed_stacktrace
    (get_stacktrace_from_message json_data)
  = Ok (Printed.location top).
Proof.
  intros (earlier & last & below & Hf & Hw & Hone & Hc & Hm & Hfile).
  now apply (throw_location_printed json_data earlier last top below).
Qed.

(** ** Two reports with the same throw location *)

Lemma location_same (a b : StackLine) :
  className a = className b ->
  methodName a = methodName b ->
  fileName a = fileName b ->
  Printed.location a = Printed.location b.
Proof. unfold Printed.location. now intros -> -> ->. Qed.

(** X13.  The throw-location check on the printed stack traces of two
    reports compares the first written stack line of their last cause
    frames up to the file name: it holds when class, method and file
    agree, whatever the line numbers, the messages and the other
    frames. *)
Theorem reports_match_on_throw_location (a b : Report)
    (top_a top_b : StackLine) :
  throws_at a top_a ->
  throws_at b top_b ->
  matches_exception_throw_location (get_stacktrace_from_message a)
    (get_stacktrace_from_message b)
  = Ok (String.eqb (Printed.location top_a) (Printed.location top_b))
  /\ (className top_a = className top_b ->
      methodName top_a = methodName top_b ->
      fileName top_a = fileName top_b ->
      matches_exception_throw_location (get_stacktrace_from_message a)
        (get_stacktrace_from_message b)
      = Ok true).
Proof.
  intros (ea & la & ba & Ha1 & Ha2 & Ha3 & Ha4 & Ha5 & Ha6)
         (eb & lb & bb & Hb1 & Hb2 & Hb3 & Hb4 & Hb5 & Hb6).
  assert (E : matches_exception_throw_location
                (get_stacktrace_from_message a)
                (get_stacktrace_from_message b)
              = Ok (String.eqb (Printed.location top_a)
                      (Printed.location top_b))).
  { unfold matches_exception_throw_location.
    rewrite (throw_location_printed a ea la top_a ba Ha1 Ha2 Ha3 Ha4 Ha5 Ha6).
    rewrite (throw_location_printed b eb lb top_b bb Hb1 Hb2 Hb3 Hb4 Hb5 Hb6).
    reflexivity. }
  split; [exact E|].
  intros Hc Hm Hf. rewrite E, (location_same top_a top_b Hc Hm Hf).
  now rewrite String.eqb_refl.
Qed.

(** ** Requests, end to end *)

Section Requests.

Variables JIRA_ISSUE_TITLE JIRA_PROJECT : string.
Variables ratio real_quick_ratio : string -> string -> Q.
Variable now : string.
Variable b64decode : string -> option string.
Variable recursion_limit : nat.
Variable jira : Tracker.

Local Abbreviation receive :=
  (receive_exception JIRA_ISSUE_TITLE JIRA_PROJECT ratio real_quick_ratio
     now b64decode recursion_limit jira).
Local Abbreviation determine :=
  (determine_if_duplicate JIRA_ISSUE_TITLE JIRA_PROJECT ratio
     real_quick_ratio recursion_limit jira).
Local Abbreviation attach :=
  (update_issue_with_attachments b64decode jira).

Lemma bind_lift_Ok {A B : Type} (a : A) (f : A -> M B) :
  bind (lift (Ok a)) f = f a.
Proof. unfold bind, lift. now destruct (f a). Qed.

(** The request for a report that has no issue yet, up to the reply to
    the creation. *)
Lemma new_report_step (json_data : Report) :
  outcome (determine json_data) = Ok NotDuplicate ->
  exists title description,
    forall code content issue_key,
      post_issue jira title description = Reply code content issue_key ->
      add_jira_exception JIRA_ISSUE_TITLE JIRA_PROJECT ratio
        real_quick_ratio now b64decode recursion_limit jira json_data
      = if code =? 201
        then ((calls (determine json_data)
                 ++ CreateCall title description
                 :: calls (attach json_data issue_key))%list,
              match outcome (attach json_data issue_key) with
              | Ok _ => Ok {| body := Text ("Jira issue added: "
                                              ++ issue_key);
                              status := 201 |}
              | Raise e => Raise e
              end)
        else ((calls (determine json_data)
                 ++ [CreateCall title description])%list,
              Raise (InternalError
                       ("Could not create new Jira issue. "
                          ++ "HTTP response code " ++ PyStr.str_of_Z code
                          ++ " : " ++ content))).
Proof.
  intros Hd.
  destruct (determine_if_duplicate_Ok _ _ _ _ _ _ _ _ Hd)
    as (summary & issue_list & Hs & _ & _).
  unfold add_jira_exception.
  destruct (determine json_data) as [log r] eqn:E.
  cbn [outcome snd] in Hd. subst r. cbn [calls fst].
  rewrite Hs, bind_lift_Ok. unfold add_to_jira.
  set (clean := sanitize_jql_summary JIRA_ISSUE_TITLE summary false).
  set (title := JIRA_ISSUE_TITLE ++ ": " ++ clean).
  set (description := clean ++ _).
  exists title, description. intros code content issue_key Hp.
  unfold request. rewrite Hp. cbn [bind List.app].
  destruct (code =? 201); cbn [negb bind raise ret List.app].
  - destruct (attach json_data issue_key) as [alog [[]|e]];
      cbn [bind ret calls outcome fst snd List.app];
      rewrite ?List.app_nil_r; reflexivity.
  - reflexivity.
Qed.


(** X20.  A report that has no issue yet, sent to a tracker that
    accepts the creation and answers the attachment calls, with
    whatever status: the request searches, creates the issue, attaches
    the stack trace and each encoded attachment to the key the tracker
    gave, and answers with the status 201 and that key. *)
Theorem new_report_is_filed (json_data : Report) (issue_key : string) :
  outcome (determine json_data) = Ok NotDuplicate ->
  (forall title description,
      exists content,
        post_issue jira title description = Reply 201 content issue_key) ->
  (forall issue_id filename content,
      exists code text,
        post_attachment jira issue_id filename content
        = Reply code text tt) ->
  Forall (fun e => b64decode e <> None) (encoded_attachments json_data) ->
  exists title description,
    receive (PostJson json_data)
    = ((calls (determine json_data)
          ++ CreateCall title description
          :: calls (attach json_data issue_key))%list,
       Ok {| body := Text ("Jira issue added: " ++ issue_key);
             status := 201 |})
    /\ List.length (calls (attach json_data issue_key))
       = S (List.length (encoded_attachments json_data)).
Proof.
  intros Hd Hp Ha Hdec.
  destruct (new_report_step json_data Hd) as (title & description & H).
  exists title, description.
  destruct (Hp title description) as [content Hk].
  destruct (attachments_answered b64decode jira Ha json_data issue_key Hdec)
    as (Ho & Hl & _).
  split; [|exact Hl].
  unfold receive_exception. rewrite (H 201 content issue_key Hk).
  cbn [Z.eqb Pos.eqb]. rewrite Ho. reflexivity.
Qed.

(** The request for a report that has an issue, up to the reply to the
    update. *)
Lemma duplicate_step (json_data : Report) (k st : string)
    (env : option string) (fv : string) (c0 : Z) (t0 current : string)
    (others : list string) :
  outcome (determine json_data) = Ok (Duplicate k st env fv) ->
  get_active_sprints jira = Reply c0 t0 (current :: others) ->
  let count := calculate_issue_occurrence_count now env in
  let should_reopen :=
    (is_issue_closed st && negb (String.eqb current fv))%bool in
  add_jira_exception JIRA_ISSUE_TITLE JIRA_PROJECT ratio real_quick_ratio
    now b64decode recursion_limit jira json_data
  = ((calls (determine json_data)
        ++ SprintCall
        :: calls (update_to_jira jira k count should_reopen)
        ++ match outcome (update_to_jira jira k count should_reopen) with
           | Ok _ => calls (attach json_data k)
           | Raise _ => []
           end)%list,
     match outcome (update_to_jira jira k count should_reopen) with
     | Ok _ =>
         match outcome (attach json_data k) with
         | Ok _ => Ok {| body := Text ("Jira issue already exists, updated: "
                                         ++ k);
                         status := 200 |}
         | Raise e => Raise e
         end
     | Raise e => Raise e
     end).
Proof.
  intros Hd Hs count should_reopen.
  unfold add_jira_exception.
  destruct (determine json_data) as [log r] eqn:E.
  cbn [outcome snd] in Hd. subst r. cbn [calls fst bind].
  rewrite (should_reopen_if_closed_value jira (is_issue_closed st) fv c0 t0
             current others Hs).
  fold should_reopen. fold count. cbn [bind List.app].
  destruct (update_to_jira jira k count should_reopen) as [ulog [[]|e]];
    cbn [bind calls outcome fst snd].
  - destruct (attach json_data k) as [alog [[]|e]];
      cbn [bind ret calls outcome fst snd];
      rewrite ?List.app_nil_r; reflexivity.
  - rewrite List.app_nil_r. reflexivity.
Qed.


(** X21.  A report that has an issue, sent to a tracker that has an
    active sprint, accepts the update and answers the other calls: the
    request asks for the sprint, writes the next occurrence count to
    the environment of the issue, posts the reopening transition when
    the issue is closed and was not fixed in the active sprint,
    attaches the stack trace and the encoded attachments, and answers
    that the issue was updated. *)
Theorem duplicate_is_updated (json_data : Report) (k st : string)
    (env : option string) (fv : string) (c0 : Z) (t0 current : string)
    (others : list string) (content : string) :
  outcome (determine json_data) = Ok (Duplicate k st env fv) ->
  get_active_sprints jira = Reply c0 t0 (current :: others) ->
  put_issue jira k (calculate_issue_occurrence_count now env)
  = Reply 204 content tt ->
  post_transition jira k _JIRA_TRANSITION_REOPEN_ID <> Unreachable ->
  (forall issue_id filename data,
      exists code text,
        post_attachment jira issue_id filename data = Reply code text tt) ->
  Forall (fun e => b64decode e <> None) (encoded_attachments json_data) ->
  receive (PostJson json_data)
  = ((calls (determine json_data)
        ++ [SprintCall;
            UpdateCall k (calculate_issue_occurrence_count now env)]
        ++ (if (is_issue_closed st && negb (String.eqb current fv))%bool
            then [TransitionCall k _JIRA_TRANSITION_REOPEN_ID]
            else [])
        ++ calls (attach json_data k))%list,
     Ok {| body := Text ("Jira issue already exists, updated: " ++ k);
           status := 200 |}).
Proof.
  intros Hd Hs Hp Ht Ha Hdec.
  destruct (attachments_answered b64decode jira Ha json_data k Hdec)
    as (Ho & _ & _).
  unfold receive_exception.
  rewrite (duplicate_step json_data k st env fv c0 t0 current others Hd Hs).
  rewrite Ho.
  unfold update_to_jira, request. rewrite Hp.
  cbn [bind Z.eqb Pos.eqb negb].
  destruct (is_issue_closed st && negb (String.eqb current fv))%bool.
  - destruct (post_transition jira k _JIRA_TRANSITION_REOPEN_ID)
      as [c1 t1 []|]; [|contradiction].
    cbn [bind ret calls outcome fst snd List.app]. reflexivity.
  - cbn [ret calls outcome fst snd List.app]. reflexivity.
Qed.

End Requests.

(** ** Closed examples of the further properties *)


Lemma find_existing_jira_issues_all_pages_witness :
  let all := [Cases.foreign_issue "EX-1"; Cases.foreign_issue "EX-2";
              Cases.foreign_issue "EX-3"] in
  exists earlier,
    outcome (find_existing_jira_issues "Exception" "EX"
               (Cases.paging all 2) 3 "boom" 0)
    = Ok (earlier ++ firstn 2 all)%list
    /\ Permutation (earlier ++ firstn 2 all) all.
Proof.
  intros all.
  apply (find_existing_jira_issues_all_pages "Exception" "EX"
           (Cases.paging all 2) all 2 3 "boom");
    [lia | cbn; lia | intros start_at; exists ""; reflexivity].
Defined.

Lemma find_existing_jira_issues_zero_page_witness :
  let call := SearchCall (find_jql "Exception" "EX" "boom") 0 in
  find_existing_jira_issues "Exception" "EX"
    (Cases.answering 200 Cases.zero_page) 3 "boom" 0
  = ([call; call; call], Raise RecursionError).
Proof.
  intros call.
  apply (find_existing_jira_issues_zero_page "Exception" "EX"
           (Cases.answering 200 Cases.zero_page) 3 "boom" 0 "busy"
           Cases.zero_page);
    [reflexivity | reflexivity | reflexivity].
Defined.

Lemma get_stacktrace_from_issue_of_filed_witness :
  get_stacktrace_from_issue Cases.boom_issue
  = trim_length Cases.boom_trace MAX_DESCRIPTION_LENGTH
  /\ PyStr.len (get_stacktrace_from_issue Cases.boom_issue)
     <= MAX_DESCRIPTION_LENGTH.
Proof.
  apply (get_stacktrace_from_issue_of_filed "Exception"
           (Cases.paging [] 50) "boom" "" Cases.boom_trace Cases.boom_issue
           "Exception: boom");
    vm_compute; reflexivity.
Defined.

Lemma filed_report_is_matched_witness :
  determine_loop Scenario.same_text_ratio Scenario.same_text_ratio
    Cases.boom_trace [Cases.boom_issue; Cases.foreign_issue "EX-2"]
  = Ok (Duplicate "EX-7" "Closed" (environment Cases.boom_issue) "Sprint 8").
Proof.
  refine (proj2 (filed_report_is_matched Scenario.same_text_ratio
                   Scenario.same_text_ratio "Exception" (Cases.paging [] 50)
                   Scenario.boom_report "boom" "" Cases.boom_issue
                   "Exception: boom" _ _ _ _ _ _ _)
            (PyStr.chr PyChar.TAB ++ "at Foo.bar(Foo.java")
            {| name := "Sprint 8" |} [Cases.foreign_issue "EX-2"] _ _);
    try (vm_compute; reflexivity); discriminate.
Defined.

Lemma issue_without_block_is_skipped_witness :
  get_stacktrace_from_issue (Cases.foreign_issue "EX-2") = ""
  /\ determine_loop Scenario.same_text_ratio Scenario.same_text_ratio
       Cases.boom_trace [Cases.foreign_issue "EX-2"; Cases.boom_issue]
     = determine_loop Scenario.same_text_ratio Scenario.same_text_ratio
         Cases.boom_trace [Cases.boom_issue].
Proof.
  apply (issue_without_block_is_skipped Scenario.same_text_ratio
           Scenario.same_text_ratio Cases.boom_trace
           (Cases.foreign_issue "EX-2") [Cases.boom_issue]).
  reflexivity.
Defined.



Lemma duplicate_without_active_sprint_witness :
  let jira := Cases.paging [Cases.boom_issue] 50 in
  outcome (receive_exception "Exception" "EX" Scenario.same_text_ratio
             Scenario.same_text_ratio "2017-03-02 09:00:00"
             (fun e => Some e) 1000 jira (PostJson Scenario.boom_report))
  = Raise IndexError.
Proof.
  intros jira.
  rewrite (duplicate_without_active_sprint "Exception" "EX"
             Scenario.same_text_ratio Scenario.same_text_ratio
             "2017-03-02 09:00:00" (fun e => Some e) 1000 jira
             Scenario.boom_report "EX-7" "Closed"
             (environment Cases.boom_issue) "Sprint 8" 200 "").
  - reflexivity.
  - vm_compute. reflexivity.
  - reflexivity.
Defined.

Lemma throw_location_of_printed_stacktrace_witness :
  first_line_caused_by_from_printed_stacktrace Cases.boom_trace
  = Ok (PyStr.chr PyChar.TAB ++ "at Foo.bar(Foo.java").
Proof.
  apply (throw_location_of_printed_stacktrace Scenario.boom_report
           {| className := "Foo"; methodName := "bar";
              fileName := "Foo.java"; lineNumber := 12;
              nativeMethod := false |}).
  exists [], {| message := "java.lang.IllegalStateException: boom";
                stacktrace :=
                  [ {| className := "Foo"; methodName := "bar";
                       fileName := "Foo.java"; lineNumber := 12;
                       nativeMethod := false |} ] |}, [].
  repeat split; reflexivity.
Defined.

Lemma reports_match_on_throw_location_witness :
  matches_exception_throw_location
    (get_stacktrace_from_message Scenario.boom_report)
    (get_stacktrace_from_message Cases.boom_again)
  = Ok true.
Proof.
  refine (proj2 (reports_match_on_throw_location Scenario.boom_report
                   Cases.boom_again
                   {| className := "Foo"; methodName := "bar";
                      fileName := "Foo.java"; lineNumber := 12;
                      nativeMethod := false |}
                   {| className := "Foo"; methodName := "bar";
                      fileName := "Foo.java"; lineNumber := 40;
                      nativeMethod := false |} _ _)
            eq_refl eq_refl eq_refl).
  - exists [], {| message := "java.lang.IllegalStateException: boom";
                  stacktrace :=
                    [ {| className := "Foo"; methodName := "bar";
                         fileName := "Foo.java"; lineNumber := 12;
                         nativeMethod := false |} ] |}, [].
    repeat split; reflexivity.
  - exists [ {| message := "java.io.IOException: disk"; stacktrace := [] |} ],
      {| message := "java.lang.IllegalStateException: again";
         stacktrace :=
           [ {| className := "Foo"; methodName := "bar";
                fileName := "Foo.java"; lineNumber := 40;
                nativeMethod := false |};
             {| className := "Main"; methodName := "main";
                fileName := "Main.java"; lineNumber := 3;
                nativeMethod := false |} ] |},
      [ {| className := "Main"; methodName := "main";
           fileName := "Main.java"; lineNumber := 3;
           nativeMethod := false |} ].
    repeat split; reflexivity.
Defined.



Lemma new_report_is_filed_witness :
  let jira := Scenario.tracker [] "Sprint 8" (Reply 500 "" tt) in
  exists title description,
    receive_exception "Exception" "EX" Scenario.same_text_ratio
      Scenario.same_text_ratio "2017-03-02 09:00:00" (fun e => Some e) 1000
      jira (PostJson Cases.boom_with_attachments)
    = ((calls (determine_if_duplicate "Exception" "EX"
                 Scenario.same_text_ratio Scenario.same_text_ratio 1000
                 jira Cases.boom_with_attachments)
          ++ CreateCall title description
          :: calls (update_issue_with_attachments (fun e => Some e) jira
                      Cases.boom_with_attachments "EX-1"))%list,
       Ok {| body := Text ("Jira issue added: " ++ "EX-1");
             status := 201 |})
    /\ List.length (calls (update_issue_with_attachments (fun e => Some e)
                             jira Cases.boom_with_attachments "EX-1"))
       = 4%nat.
Proof.
  intros jira.
  apply (new_report_is_filed "Exception" "EX" Scenario.same_text_ratio
           Scenario.same_text_ratio "2017-03-02 09:00:00" (fun e => Some e)
           1000 jira Cases.boom_with_attachments "EX-1").
  - vm_compute. reflexivity.
  - intros title description. exists "". reflexivity.
  - intros issue_id filename content. exists 500, "". reflexivity.
  - repeat constructor; discriminate.
Defined.

Lemma duplicate_is_updated_witness :
  let jira :=
    Scenario.tracker [Cases.boom_issue] "Sprint 9" (Reply 200 "" tt) in
  outcome (receive_exception "Exception" "EX" Scenario.same_text_ratio
             Scenario.same_text_ratio "2017-03-02 09:00:00"
             (fun e => Some e) 1000 jira (PostJson Scenario.boom_report))
  = Ok {| body := Text ("Jira issue already exists, updated: " ++ "EX-7");
          status := 200 |}.
Proof.
  intros jira.
  rewrite (duplicate_is_updated "Exception" "EX" Scenario.same_text_ratio
             Scenario.same_text_ratio "2017-03-02 09:00:00"
             (fun e => Some e) 1000 jira Scenario.boom_report "EX-7"
             "Closed" (environment Cases.boom_issue) "Sprint 8" 200 ""
             "Sprint 9" [] "").
  - reflexivity.
  - vm_compute. reflexivity.
  - reflexivity.
  - reflexivity.
  - discriminate.
  - intros issue_id filename data. exists 200, "". reflexivity.
  - constructor.
Defined.
